(** * Verification of the finance scripts: [stockprice.py] and [Transfers.py]

    The two scripts are embedded shallowly.  Python floats are idealised:
    a finite double is an exact rational, and the three special values
    (NaN, which pandas also uses for "missing", and the two infinities)
    are kept apart.  Rounding error, overflow and the sign of zero are
    outside that model; the module [Doubles] runs the lines that compute
    the percentage columns on IEEE doubles, where they matter.  The
    market-data provider (yfinance) and the file system are inputs of the
    model: every call is answered by an oracle that either raises or
    returns a frame. *)

From Stdlib Require Import QArith Qround Lia Lqa.
From Stdlib Require PrimFloat.
From stdpp Require Import gmap strings list sorting.

Local Open Scope Q_scope.

(** ** Python floats *)

Inductive pyfloat : Type :=
  | Fin (q : Q)
  | PInf
  | NInf
  | NaN.

Definition inf_of_sign (c : comparison) : pyfloat :=
  match c with Gt => PInf | Lt => NInf | Eq => NaN end.

Definition sgn (x : pyfloat) : comparison :=
  match x with Fin q => q ?= 0 | PInf => Gt | NInf => Lt | NaN => Eq end.

Definition sign_mul (a b : comparison) : comparison :=
  match a, b with
  | Eq, _ | _, Eq => Eq
  | Gt, Gt | Lt, Lt => Gt
  | _, _ => Lt
  end.

Definition fneg (x : pyfloat) : pyfloat :=
  match x with Fin q => Fin (- q) | PInf => NInf | NInf => PInf | NaN => NaN end.

Definition fadd (x y : pyfloat) : pyfloat :=
  match x, y with
  | NaN, _ | _, NaN => NaN
  | Fin a, Fin b => Fin (a + b)
  | PInf, NInf | NInf, PInf => NaN
  | PInf, _ | _, PInf => PInf
  | NInf, _ | _, NInf => NInf
  end.

Definition fsub (x y : pyfloat) : pyfloat := fadd x (fneg y).

(** With an infinite factor the product is the infinity of the product of
    the signs, and NaN when the other factor is zero. *)
Definition fmul (x y : pyfloat) : pyfloat :=
  match x, y with
  | NaN, _ | _, NaN => NaN
  | Fin a, Fin b => Fin (a * b)
  | _, _ => inf_of_sign (sign_mul (sgn x) (sgn y))
  end.

(** numpy's [/]: division by zero does not raise, it yields an infinity
    (or NaN for 0/0). *)
Definition fdiv (x y : pyfloat) : pyfloat :=
  match x, y with
  | NaN, _ | _, NaN => NaN
  | Fin a, Fin b => if Qeq_bool b 0 then inf_of_sign (a ?= 0) else Fin (a / b)
  | Fin _, _ => Fin 0
  | _, Fin b => inf_of_sign (sign_mul (sgn x) (if Qeq_bool b 0 then Gt else sgn y))
  | _, _ => NaN
  end.

(** IEEE comparisons: anything compared with NaN is false. *)
Definition fcmp (x y : pyfloat) : option comparison :=
  match x, y with
  | NaN, _ | _, NaN => None
  | Fin a, Fin b => Some (a ?= b)
  | PInf, PInf | NInf, NInf => Some Eq
  | PInf, _ | _, NInf => Some Gt
  | NInf, _ | _, PInf => Some Lt
  end.

Definition flt (x y : pyfloat) : bool :=
  match fcmp x y with Some Lt => true | _ => false end.

Definition fgt (x y : pyfloat) : bool := flt y x.

Definition is_nan (x : pyfloat) : bool :=
  match x with NaN => true | _ => false end.

(** Two model values denote the same float. *)
Definition feq (x y : pyfloat) : Prop :=
  match x, y with
  | Fin a, Fin b => a == b
  | PInf, PInf | NInf, NInf | NaN, NaN => True
  | _, _ => False
  end.

Definition is_finite (x : pyfloat) : Prop :=
  match x with Fin _ => True | _ => False end.

(** [round(x, ndigits)]: to the nearest multiple of [10^-ndigits], ties to
    the even one; the special values are returned unchanged. *)
Definition round_half_even (q : Q) : Z :=
  let f := Qfloor q in
  match Qcompare (Qminus q (inject_Z f)) (Qmake 1 2) with
  | Lt => f
  | Gt => (f + 1)%Z
  | Eq => if Z.even f then f else (f + 1)%Z
  end.

Definition py_round (x : pyfloat) (ndigits : nat) : pyfloat :=
  match x with
  | Fin q =>
      let scale := inject_Z (10 ^ Z.of_nat ndigits) in
      Fin (inject_Z (round_half_even (q * scale)) / scale)
  | _ => x
  end.

(** pandas' [Series.sum()] (skipna=True): missing entries count as 0. *)
Definition nan_to_zero (x : pyfloat) : pyfloat :=
  match x with NaN => Fin 0 | _ => x end.

Definition series_sum (s : list pyfloat) : pyfloat :=
  foldr (fun x acc => fadd (nan_to_zero x) acc) (Fin 0) s.

(** The plain sum of the entries, in which NaN propagates. *)
Definition plain_sum (s : list pyfloat) : pyfloat :=
  foldr fadd (Fin 0) s.

(** [Series.dropna()] *)
Definition dropna (s : list pyfloat) : list pyfloat :=
  List.filter (fun x => negb (is_nan x)) s.

(** [s.iloc[-k]] for [k >= 1]; [None] stands for IndexError. *)
Definition iloc_neg {A} (s : list A) (k : nat) : option A :=
  if (length s <? k)%nat then None else s !! (length s - k)%nat.

(** ** Exceptions and results *)

Inductive exception : Type :=
  | ValueError (msg : string)
  | ZeroDivisionError
  | KeyError
  | TypeError
  | IndexError
  | FileNotFoundError
  | OtherError.

(** What a Python computation can raise: an [Exception] (caught by
    [except Exception]) or [SystemExit], which [exit(code)] raises and
    [except Exception] lets through. *)
Inductive raised : Type :=
  | Exc (e : exception)
  | SystemExit (code : option Z).

Inductive result (A : Type) : Type :=
  | Return (a : A)
  | Raise (r : raised).
Arguments Return {A} a.
Arguments Raise {A} r.

Definition bind {A B} (m : result A) (k : A -> result B) : result B :=
  match m with Return a => k a | Raise r => Raise r end.

Notation "'do' x <- m ; k" := (bind m (fun x => k))
  (at level 10, x name, m at level 100, k at level 200).

(** The exit status of a process whose main program ended by raising:
    [SystemExit(None)] is status 0, [SystemExit(n)] is [n], and an uncaught
    exception is status 1. *)
Definition exit_status (r : raised) : Z :=
  match r with
  | SystemExit None => 0%Z
  | SystemExit (Some n) => n
  | Exc _ => 1%Z
  end.

(** Python's float [/]: a zero divisor raises. *)
Definition py_truediv (x y : pyfloat) : result pyfloat :=
  match y with
  | Fin b => if Qeq_bool b 0 then Raise (Exc ZeroDivisionError) else Return (fdiv x y)
  | _ => Return (fdiv x y)
  end.

(** What an external call (the data provider, the file system) gives back:
    an answer, or an exception of class [Exception]. *)
Inductive response (A : Type) : Type :=
  | Answer (a : A)
  | Fails (e : exception).
Arguments Answer {A} a.
Arguments Fails {A} e.

(** [DataFrame.sort_values(by=key, ascending=...)]: missing keys go last in
    both directions.  pandas leaves the order of equal keys to the sorting
    algorithm; the model uses a stable merge sort. *)
Definition key_le (ascending : bool) (x y : pyfloat) : bool :=
  match fcmp x y with
  | Some Eq => true
  | Some Lt => ascending
  | Some Gt => negb ascending
  | None => is_nan y
  end.

Definition sort_values {A} (key : A -> pyfloat) (ascending : bool)
    (df : list A) : list A :=
  merge_sort (fun a b => Is_true (key_le ascending (key a) (key b))) df.

(** Python's [repr] of a list of plain strings, as an f-string prints it. *)
Definition repr_list (l : list string) : string :=
  String.append "[" (String.append
    (String.concat ", " (map (fun s => String.append "'" (String.append s "'")) l)) "]").

(** [Series.unique()]: the distinct values, in the order of their first
    appearance. *)
Fixpoint unique_from (seen l : list string) : list string :=
  match l with
  | [] => []
  | x :: l' =>
      if bool_decide (x ∈ seen) then unique_from seen l'
      else x :: unique_from (x :: seen) l'
  end.

Definition unique (l : list string) : list string := unique_from [] l.

(** * stockprice.py *)

Module Stockprice.

(** ** Configuration *)

Definition USD_TO_INR : pyfloat := Fin (8857 # 100).
Definition MAX_RETRIES : nat := 3.
Definition RETRY_DELAY : Q := 2.
Definition BATCH_SIZE : nat := 10.
Definition BATCH_DELAY : Q := 1.

(** ** Data *)

(** A row of the portfolio CSV. *)
Record position : Type := {
  ticker : string;
  shares_held : pyfloat;
  avg_cost_usd : pyfloat
}.

(** An entry of the market-data dict. *)
Record quote : Type := {
  current_price_usd : pyfloat;
  prev_close_usd : pyfloat
}.

(** A row of the summary table; the fields are the table's columns. *)
Record summary_row : Type := {
  Ticker : string;
  Shares : pyfloat;
  Avg_Cost_USD : pyfloat;
  Current_Price_USD : pyfloat;
  Prev_Close_USD : pyfloat;
  Daily_Change_pct : pyfloat;
  Daily_Change_INR : pyfloat;
  Investment_USD : pyfloat;
  Current_Value_USD : pyfloat;
  Investment_INR : pyfloat;
  Current_Value_INR : pyfloat;
  Gain_Loss_USD : pyfloat;
  Gain_Loss_INR : pyfloat
}.

(** ** analyze_portfolio *)

(** The body of the loop for a row whose ticker has a quote.  The prices
    are Python floats, so the division of line 188 raises on a zero
    previous close; the other operations cannot raise. *)
Definition analyze_row (row : position) (q : quote) (exchange_rate : pyfloat)
    : result summary_row :=
  let shares := shares_held row in
  let avg_cost := avg_cost_usd row in
  let current_price := current_price_usd q in
  let prev_close := prev_close_usd q in
  let daily_change_usd := fsub current_price prev_close in
  do ratio <- py_truediv daily_change_usd prev_close;
  let daily_percent_change := fmul ratio (Fin 100) in
  let current_value_usd := fmul current_price shares in
  let current_value_inr := fmul current_value_usd exchange_rate in
  let total_investment_usd := fmul avg_cost shares in
  let total_investment_inr := fmul total_investment_usd exchange_rate in
  let total_gain_loss_usd := fsub current_value_usd total_investment_usd in
  let total_gain_loss_inr := fmul total_gain_loss_usd exchange_rate in
  let daily_change_inr := fmul (fmul daily_change_usd shares) exchange_rate in
  Return {|
    Ticker := ticker row;
    Shares := shares;
    Avg_Cost_USD := avg_cost;
    Current_Price_USD := current_price;
    Prev_Close_USD := prev_close;
    Daily_Change_pct := daily_percent_change;
    Daily_Change_INR := daily_change_inr;
    Investment_USD := total_investment_usd;
    Current_Value_USD := current_value_usd;
    Investment_INR := total_investment_inr;
    Current_Value_INR := current_value_inr;
    Gain_Loss_USD := total_gain_loss_usd;
    Gain_Loss_INR := total_gain_loss_inr
  |}.

(** Rows without a quote are skipped; an exception in a row ends the call
    and no table is returned. *)
Fixpoint analyze_portfolio (portfolio_df : list position)
    (market_data : gmap string quote) (exchange_rate : pyfloat)
    : result (list summary_row) :=
  match portfolio_df with
  | [] => Return []
  | row :: rest =>
      match market_data !! ticker row with
      | None => analyze_portfolio rest market_data exchange_rate
      | Some q =>
          do r <- analyze_row row q exchange_rate;
          do rs <- analyze_portfolio rest market_data exchange_rate;
          Return (r :: rs)
      end
  end.

(** ** create_excel_report: the computed part *)

Record totals : Type := {
  total_investment_usd : pyfloat;
  total_current_value_usd : pyfloat;
  total_gain_loss_usd : pyfloat;
  total_gain_loss_pct : pyfloat;
  total_investment_inr : pyfloat;
  total_current_value_inr : pyfloat;
  total_gain_loss_inr : pyfloat
}.

Definition column (f : summary_row -> pyfloat) (summary_df : list summary_row)
    : list pyfloat := map f summary_df.

(** Lines 223-230.  The sums are numpy floats: their division cannot
    raise, and the conditional of line 226 yields the integer 0 unless the
    total investment is greater than 0. *)
Definition calculate_totals (summary_df : list summary_row) : totals :=
  let investment_usd := series_sum (column Investment_USD summary_df) in
  let current_value_usd := series_sum (column Current_Value_USD summary_df) in
  let gain_loss_usd := series_sum (column Gain_Loss_USD summary_df) in
  {|
    total_investment_usd := investment_usd;
    total_current_value_usd := current_value_usd;
    total_gain_loss_usd := gain_loss_usd;
    total_gain_loss_pct :=
      if fgt investment_usd (Fin 0)
      then fmul (fdiv gain_loss_usd investment_usd) (Fin 100)
      else Fin 0;
    total_investment_inr := series_sum (column Investment_INR summary_df);
    total_current_value_inr := series_sum (column Current_Value_INR summary_df);
    total_gain_loss_inr := series_sum (column Gain_Loss_INR summary_df)
  |}.

(** A row of the details sheet: the summary row and the two columns added
    by lines 233-234. *)
Record detail_row : Type := {
  summary : summary_row;
  pct_of_Total_Value : pyfloat;
  pct_of_Total_Investment : pyfloat
}.

Definition add_percentages (summary_df : list summary_row) : list detail_row :=
  let t := calculate_totals summary_df in
  map (fun r => {|
    summary := r;
    pct_of_Total_Value :=
      fmul (fdiv (Current_Value_INR r) (total_current_value_inr t)) (Fin 100);
    pct_of_Total_Investment :=
      fmul (fdiv (Investment_INR r) (total_investment_inr t)) (Fin 100)
  |}) summary_df.

(** The data written to the workbook: the totals of the summary sheet and
    the details sheet, sorted by current value, largest first. *)
Definition create_excel_report (summary_df : list summary_row)
    : totals * list detail_row :=
  (calculate_totals summary_df,
   sort_values (fun d => Current_Value_INR (summary d)) false
     (add_percentages summary_df)).

(** ** generate_suggestions *)

(** The lines the function prints. *)
Inductive suggestion : Type :=
  | SuggestionsTitle
  | VolatileMarketCaution
  | VolatileMarketTip
  | StablePositiveNotice
  | BookProfitTitle
  | BookProfit (r : summary_row)
  | BuyMoreTitle
  | BuyMore (r : summary_row).

Definition profit_targets (summary_df : list summary_row) : list summary_row :=
  sort_values Daily_Change_pct false
    (List.filter (fun r => fgt (Gain_Loss_INR r) (Fin 50000)
                           && fgt (Daily_Change_pct r) (Fin 2))
       summary_df).

Definition buy_targets (summary_df : list summary_row) : list summary_row :=
  sort_values Daily_Change_pct true
    (List.filter (fun r => flt (Gain_Loss_INR r) (Fin 0)
                           && flt (Daily_Change_pct r) (Fin (-1)))
       summary_df).

Definition generate_suggestions (summary_df : list summary_row)
    : list suggestion :=
  let total_daily_change_inr := series_sum (column Daily_Change_INR summary_df) in
  [SuggestionsTitle]
  ++ (if flt total_daily_change_inr (Fin (-1000))
      then [VolatileMarketCaution; VolatileMarketTip]
      else [StablePositiveNotice])
  ++ (match profit_targets summary_df with
      | [] => []
      | targets => BookProfitTitle :: map BookProfit (take 3 targets)
      end)
  ++ (match buy_targets summary_df with
      | [] => []
      | targets => BuyMoreTitle :: map BuyMore (take 3 targets)
      end).

(** ** read_portfolio_data *)

Record portfolio_csv : Type := {
  columns : list string;
  rows : list position
}.

Definition required_cols : list string :=
  ["ticker"; "shares_held"; "avg_cost_usd"]%string.

(** What the function prints and writes. *)
Inductive output : Type :=
  | PrintLoaded (n : nat)
  | PrintFileNotFound (file_path : string)
  | WriteSampleFile (file_path : string)
  | PrintCreatedSample (file_path : string)
  | PrintErrorReadingCSV (e : exception).

(** The [try] block of lines 22-27. *)
Definition read_portfolio_try (read_csv : string -> response portfolio_csv)
    (file_path : string) : result portfolio_csv * list output :=
  match read_csv file_path with
  | Fails e => (Raise (Exc e), [])
  | Answer df =>
      if forallb (fun col => bool_decide (col ∈ columns df)) required_cols
      then (Return df, [PrintLoaded (length (rows df))])
      else (Raise (Exc (ValueError
              (String.append "CSV must contain columns: " (repr_list required_cols)))),
            [])
  end.

(** The handlers of lines 28-36: both end in [exit()], which raises
    [SystemExit] with no code. *)
Definition read_portfolio_data (read_csv : string -> response portfolio_csv)
    (file_path : string) : result portfolio_csv * list output :=
  match read_portfolio_try read_csv file_path with
  | (Raise (Exc FileNotFoundError), out) =>
      (Raise (SystemExit None),
       out ++ [PrintFileNotFound file_path; WriteSampleFile file_path;
               PrintCreatedSample file_path])
  | (Raise (Exc e), out) =>
      (Raise (SystemExit None), out ++ [PrintErrorReadingCSV e])
  | other => other
  end.

(** ** fetch_stock_data *)

(** The 'Close' part of the frame [yf.download] returns: absent, one
    series (plain columns), or one series per ticker (MultiIndex columns;
    a lookup takes the first column of that name). *)
Inductive close_data : Type :=
  | NoClose
  | FlatClose (s : list pyfloat)
  | MultiClose (cols : list (string * list pyfloat)).

Record download_frame : Type := {
  empty : bool;
  close : close_data
}.

(** The frame [Ticker.history] returns. *)
Record history_frame : Type := {
  h_empty : bool;
  h_close : option (list pyfloat)
}.

Inductive event : Type :=
  | Download (batch : list string)
  | History (ticker : string)
  | Sleep (seconds : Q).

(** The two local collections of the function and the calls it has made
    so far, oldest first. *)
Record fetch_state : Type := {
  stock_data : gmap string quote;
  failed_tickers : list string;
  events : list event
}.

Definition log (e : event) (st : fetch_state) : fetch_state :=
  {| stock_data := stock_data st;
     failed_tickers := failed_tickers st;
     events := events st ++ [e] |}.

(** [stock_data[ticker] = {...}] *)
Definition put (ticker : string) (q : quote) (st : fetch_state) : fetch_state :=
  {| stock_data := <[ticker := q]> (stock_data st);
     failed_tickers := failed_tickers st;
     events := events st |}.

(** [failed_tickers.append(ticker)] and [failed_tickers.extend(batch)] *)
Definition mark_failed (tickers : list string) (st : fetch_state) : fetch_state :=
  {| stock_data := stock_data st;
     failed_tickers := failed_tickers st ++ tickers;
     events := events st |}.

(** [failed_tickers.remove(ticker)]: the first occurrence goes. *)
Fixpoint remove_first (ticker : string) (l : list string) : list string :=
  match l with
  | [] => []
  | t :: l' => if String.eqb t ticker then l' else t :: remove_first ticker l'
  end.

Definition unmark_failed (ticker : string) (st : fetch_state) : fetch_state :=
  {| stock_data := stock_data st;
     failed_tickers := remove_first ticker (failed_tickers st);
     events := events st |}.

(** [float(s.iloc[-1])] and [float(s.iloc[-2])] *)
Definition last_two (s : list pyfloat) : response quote :=
  match iloc_neg s 1, iloc_neg s 2 with
  | Some current_price, Some prev_close =>
      Answer {| current_price_usd := current_price; prev_close_usd := prev_close |}
  | _, _ => Fails IndexError
  end.

Definition number_of_rows (cols : list (string * list pyfloat)) : nat :=
  match cols with [] => 0 | (_, s) :: _ => length s end.

(** Lines 58-75, a batch of one ticker.  The close series is used as it
    comes.  With MultiIndex columns [data['Close']] is a frame: its last
    row converts to a float when there is exactly one column, and
    [float] raises TypeError otherwise. *)
Definition process_single (ticker : string) (data : download_frame)
    (st : fetch_state) : response fetch_state :=
  let store (close_series : list pyfloat) :=
    match last_two close_series with
    | Answer q => Answer (put ticker q st)
    | Fails e => Fails e
    end in
  if empty data then Answer (mark_failed [ticker] st) else
  match close data with
  | NoClose => Answer (mark_failed [ticker] st)
  | FlatClose close_series =>
      if (2 <=? length close_series)%nat then store close_series
      else Answer (mark_failed [ticker] st)
  | MultiClose cols =>
      if (2 <=? number_of_rows cols)%nat then
        match cols with
        | [(_, close_series)] => store close_series
        | _ => Fails TypeError
        end
      else Answer (mark_failed [ticker] st)
  end.

(** [data['Close'][ticker]] or [data['Close']]; [None] is the KeyError
    of a ticker that has no column. *)
Definition close_series_of (ticker : string) (c : close_data)
    : option (list pyfloat) :=
  match c with
  | NoClose => None
  | FlatClose s => Some s
  | MultiClose cols =>
      snd <$> List.find (fun p => String.eqb (fst p) ticker) cols
  end.

(** Lines 80-106, one ticker of a batch of several: every exception is
    caught by the inner handler. *)
Definition process_ticker (c : close_data) (st : fetch_state) (ticker : string)
    : fetch_state :=
  match close_series_of ticker c with
  | None => mark_failed [ticker] st
  | Some close_series =>
      if (2 <=? length close_series)%nat then
        let valid_data := dropna close_series in
        if (2 <=? length valid_data)%nat then
          match last_two valid_data with
          | Answer q => put ticker q st
          | Fails _ => mark_failed [ticker] st
          end
        else mark_failed [ticker] st
      else mark_failed [ticker] st
  end.

Definition has_close (c : close_data) : bool :=
  match c with NoClose => false | _ => true end.

(** Lines 78-109. *)
Definition process_multi (batch : list string) (data : download_frame)
    (st : fetch_state) : fetch_state :=
  if has_close (close data) && negb (empty data)
  then foldl (process_ticker (close data)) st batch
  else mark_failed batch st.

(** The [try] block of lines 53-111 for one attempt. *)
Definition try_batch (download : nat -> response download_frame)
    (batch : list string) (retry_count : nat) (st : fetch_state)
    : response fetch_state :=
  match download retry_count with
  | Fails e => Fails e
  | Answer data =>
      match batch with
      | [ticker] => process_single ticker data st
      | _ => Answer (process_multi batch data st)
      end
  end.

(** The [while] loop of lines 52-120.  An attempt that does not raise sets
    [batch_success] and ends the loop; an exception counts the attempt.
    Every turn that goes on raises [retry_count], so [MAX_RETRIES] units of
    fuel are enough. *)
Fixpoint batch_loop (fuel : nat) (download : nat -> response download_frame)
    (batch : list string) (retry_count : nat) (st : fetch_state) : fetch_state :=
  match fuel with
  | O => st
  | S fuel' =>
      if (retry_count <? MAX_RETRIES)%nat then
        let st1 := log (Download batch) st in
        match try_batch download batch retry_count st1 with
        | Answer st2 => st2
        | Fails _ =>
            let retry_count := S retry_count in
            if (retry_count <? MAX_RETRIES)%nat
            then batch_loop fuel' download batch retry_count
                   (log (Sleep RETRY_DELAY) st1)
            else batch_loop fuel' download batch retry_count
                   (mark_failed batch st1)
        end
      else st
  end.

Definition fetch_batch (download : nat -> response download_frame)
    (batch : list string) (st : fetch_state) : fetch_state :=
  batch_loop MAX_RETRIES download batch 0 st.

(** The [for] loop of lines 45-124; [tickers] is what is left of the list
    and [batch_no] counts the batches.  The provider's answers are indexed
    by batch and attempt. *)
Fixpoint fetch_batches (fuel : nat)
    (download : nat -> nat -> response download_frame)
    (batch_no : nat) (tickers : list string) (st : fetch_state) : fetch_state :=
  match fuel, tickers with
  | O, _ | _, [] => st
  | S fuel', _ =>
      let batch := take BATCH_SIZE tickers in
      let rest := drop BATCH_SIZE tickers in
      let st1 := fetch_batch (download batch_no) batch st in
      let st2 := match rest with [] => st1 | _ => log (Sleep BATCH_DELAY) st1 end in
      fetch_batches fuel' download (S batch_no) rest st2
  end.

(** The [while] loop of lines 133-164 for one failed ticker. *)
Fixpoint individual_loop (fuel : nat) (history : nat -> response history_frame)
    (ticker : string) (retry_count : nat) (st : fetch_state) : fetch_state :=
  match fuel with
  | O => st
  | S fuel' =>
      if (retry_count <? MAX_RETRIES)%nat then
        let st1 := log (History ticker) st in
        let again :=
          let retry_count := S retry_count in
          if (retry_count <? MAX_RETRIES)%nat
          then individual_loop fuel' history ticker retry_count
                 (log (Sleep RETRY_DELAY) st1)
          else individual_loop fuel' history ticker retry_count st1 in
        match history retry_count with
        | Fails _ => again
        | Answer hist =>
            match (if h_empty hist then None else h_close hist) with
            | None => again
            | Some col =>
                let close_series := dropna col in
                if (2 <=? length close_series)%nat then
                  match last_two close_series with
                  | Answer q => unmark_failed ticker (put ticker q st1)
                  | Fails _ => again
                  end
                else again
            end
        end
      else st
  end.

(** Lines 127-164: the copy of the failed list is walked in order; the
    provider's answers are indexed by the place in that copy and by the
    attempt. *)
Fixpoint retry_failed (history : nat -> nat -> response history_frame)
    (j : nat) (failed : list string) (st : fetch_state) : fetch_state :=
  match failed with
  | [] => st
  | ticker :: failed' =>
      retry_failed history (S j) failed'
        (individual_loop MAX_RETRIES (history j) ticker 0 st)
  end.

Definition initial_state : fetch_state :=
  {| stock_data := ∅; failed_tickers := []; events := [] |}.

(** The whole function, with its final state; the value it returns is
    the [stock_data] of that state. *)
Definition fetch_stock_data_state
    (download : nat -> nat -> response download_frame)
    (history : nat -> nat -> response history_frame)
    (tickers : list string) : fetch_state :=
  let st := fetch_batches (length tickers) download 0 tickers initial_state in
  retry_failed history 0 (failed_tickers st) st.

Definition fetch_stock_data
    (download : nat -> nat -> response download_frame)
    (history : nat -> nat -> response history_frame)
    (tickers : list string) : gmap string quote :=
  stock_data (fetch_stock_data_state download history tickers).

(** ** main *)

Definition CSV_FILE_PATH : string := "portfolio.csv".

(** How a run that does not raise ends: halted without market data, or
    with the suggestions printed and the data of the workbook. *)
Inductive main_result : Type :=
  | AnalysisHalted
  | ReportWritten (suggestions : list suggestion) (report : totals * list detail_row).

(** [portfolio_df[portfolio_df['ticker'].isin(valid_tickers)]] *)
Definition isin_market_data (market_data : gmap string quote)
    (portfolio : list position) : list position :=
  List.filter (fun row => bool_decide (is_Some (market_data !! ticker row))) portfolio.

(** The cells of the frame as [read_csv] leaves them, before anything is
    known of the file.  A cell of a numeric column is a number (NaN when
    the cell is blank), or text when the column has an entry that is not
    a number.  A ticker cell that is not a string (a blank cell is the
    float NaN) is [None]. *)
Inductive cell : Type :=
  | Number (x : pyfloat)
  | Text (s : string).

Record csv_row : Type := {
  ticker_cell : option string;
  shares_cell : cell;
  avg_cost_cell : cell
}.

(** The row of a well-typed file. *)
Definition cells_of (p : position) : csv_row :=
  {| ticker_cell := Some (ticker p);
     shares_cell := Number (shares_held p);
     avg_cost_cell := Number (avg_cost_usd p) |}.

(** The tickers of the frame when every ticker cell is a string. *)
Fixpoint ticker_names (portfolio_df : list csv_row) : option (list string) :=
  match portfolio_df with
  | [] => Some []
  | row :: rest =>
      match ticker_cell row, ticker_names rest with
      | Some name, Some names => Some (name :: names)
      | _, _ => None
      end
  end.

(** The isin filter of line 457 on the cells: NaN is no key of the dict. *)
Definition isin_cells (market_data : gmap string quote)
    (portfolio_df : list csv_row) : list csv_row :=
  List.filter
    (fun row =>
       match ticker_cell row with
       | Some name => bool_decide (is_Some (market_data !! name))
       | None => false
       end)
    portfolio_df.

(** The loop body of analyze_portfolio on the cells of a row whose ticker
    has a quote.  Line 188 involves the two prices only.  With text in
    the shares cell line 190 multiplies a float by a string; with text in
    the cost cell line 193 multiplies a string by a float, or repeats the
    string when the share count is an integer and line 194 multiplies the
    result by a float: TypeError in each case (the repeated string is
    taken to fit in memory). *)
Definition analyze_cells (name : string) (row : csv_row) (q : quote)
    (exchange_rate : pyfloat) : result summary_row :=
  match shares_cell row, avg_cost_cell row with
  | Number shares, Number avg_cost =>
      analyze_row {| ticker := name; shares_held := shares; avg_cost_usd := avg_cost |}
        q exchange_rate
  | _, _ =>
      do ratio <- py_truediv (fsub (current_price_usd q) (prev_close_usd q))
                    (prev_close_usd q);
      Raise (Exc TypeError)
  end.

(** analyze_portfolio on the cells. *)
Fixpoint analyze_portfolio_cells (portfolio_df : list csv_row)
    (market_data : gmap string quote) (exchange_rate : pyfloat)
    : result (list summary_row) :=
  match portfolio_df with
  | [] => Return []
  | row :: rest =>
      match ticker_cell row with
      | None => analyze_portfolio_cells rest market_data exchange_rate
      | Some name =>
          match market_data !! name with
          | None => analyze_portfolio_cells rest market_data exchange_rate
          | Some q =>
              do r <- analyze_cells name row q exchange_rate;
              do rs <- analyze_portfolio_cells rest market_data exchange_rate;
              Return (r :: rs)
          end
      end
  end.

(** Lines 453-472 of main, on the frame [read_portfolio_data] returned at
    line 451 (when that call exits, the run ends there).  A ticker that
    is not a string makes [', '.join(batch)] of line 47 raise TypeError
    when its batch begins, outside every [try]: what the batches before
    it fetched is lost with the call.  Writing the workbook is taken to
    succeed. *)
Definition main (portfolio_df : list csv_row)
    (download : nat -> nat -> response download_frame)
    (history : nat -> nat -> response history_frame) : result main_result :=
  match ticker_names portfolio_df with
  | None => Raise (Exc TypeError)
  | Some names =>
      let tickers := unique names in
      let market_data := fetch_stock_data download history tickers in
      let portfolio_df := isin_cells market_data portfolio_df in
      match portfolio_df with
      | [] => Return AnalysisHalted
      | _ =>
          do summary_df <-
            analyze_portfolio_cells portfolio_df market_data USD_TO_INR;
          Return (ReportWritten (generate_suggestions summary_df)
                    (create_excel_report summary_df))
      end
  end.

End Stockprice.

(** * Transfers.py *)

Module Transfers.

(** ** fetch_historical_inr_rate *)

(** The frame [ticker.history(start, end)] returns, once the time zone is
    dropped: the rows in the provider's order, each a date (a day number)
    and its 'Close'. *)
Definition hist_frame : Type := list (Z * pyfloat).

Inductive event : Type :=
  | History (start_date end_date : Z)
  | Sleep (seconds : Q).

Definition max_retries : nat := 3.

(** [hist.loc[target_date, 'Close']] for a date of the index. *)
Definition loc (target_date : Z) (hist : hist_frame) : option pyfloat :=
  snd <$> List.find (fun row => Z.eqb (fst row) target_date) hist.

Section fetch.

(** [datetime.strptime(date_str, '%Y-%m-%d')] as a day number; it raises
    ValueError on a string of another shape. *)
Variable strptime : string -> response Z.

(** The provider's answer to the call of a given attempt for the window
    from [start] to [end]; any exception between the call and the use of
    the frame is the [Fails] of that attempt. *)
Variable history : nat -> Z -> Z -> response hist_frame.

(** The [try] block of lines 23-60, with the call it makes. *)
Definition try_fetch (date_str : string) (attempt : nat)
    : result pyfloat * list event :=
  match strptime date_str with
  | Fails e => (Raise (Exc e), [])
  | Answer date_obj =>
      let start_date := (date_obj - 5)%Z in
      let end_date := (date_obj + 1)%Z in
      (match history attempt start_date end_date with
       | Fails e => Raise (Exc e)
       | Answer hist =>
           match hist with
           | [] =>
               Raise (Exc (ValueError
                 (String.append "No historical data found for " date_str)))
           | first :: _ =>
               let target_date := date_obj in
               match loc target_date hist with
               | Some rate => Return (py_round rate 4)
               | None =>
                   let hist_filtered :=
                     List.filter (fun row => (fst row <=? target_date)%Z) hist in
                   match last hist_filtered with
                   | Some row => Return (py_round (snd row) 4)
                   | None => Return (py_round (snd first) 4)
                   end
               end
           end
       end,
       [History start_date end_date])
  end.

(** The [for] loop of lines 21-69 over the attempts still to make, and
    the fallback of line 72 after it.  The handler catches [Exception]
    only. *)
Fixpoint attempts (date_str : string) (todo : list nat)
    : result pyfloat * list event :=
  match todo with
  | [] => (Return (Fin 83), [])
  | attempt :: todo' =>
      match try_fetch date_str attempt with
      | (Return rate, evs) => (Return rate, evs)
      | (Raise (Exc _), evs) =>
          let delay :=
            if (attempt <? max_retries - 1)%nat
            then [Sleep (inject_Z (2 ^ Z.of_nat attempt))]
            else [] in
          let '(r, evs') := attempts date_str todo' in
          (r, evs ++ delay ++ evs')
      | (Raise r, evs) => (Raise r, evs)
      end
  end.

Definition fetch_historical_inr_rate (date_str : string)
    : result pyfloat * list event :=
  attempts date_str (seq 0 max_retries).

End fetch.

(** ** Loading the workbook (lines 77-102) *)

Record workbook : Type := {
  columns : list string;
  nrows : nat
}.

Definition file_path : string := "Transfers.xlsx".

Definition required_cols : list string := ["Date"; "Cash Amount (in USD)"]%string.

Inductive output : Type :=
  | PrintAttempting (file_path : string)
  | PrintLoaded (n : nat)
  | PrintMissingColumns (missing_cols : list string)
  | PrintAvailableColumns (cols : list string)
  | PrintRequiredFound (cols : list string)
  | PrintFileNotFound (file_path : string)
  | PrintUnexpectedError (e : exception).

(** The [try] block of lines 82-95; [exit()] raises [SystemExit] with no
    code. *)
Definition load_try (read_excel : string -> response workbook)
    : result workbook * list output :=
  match read_excel file_path with
  | Fails e => (Raise (Exc e), [])
  | Answer df =>
      let missing_cols :=
        List.filter (fun col => negb (bool_decide (col ∈ columns df))) required_cols in
      match missing_cols with
      | [] => (Return df, [PrintLoaded (nrows df); PrintRequiredFound required_cols])
      | _ =>
          (Raise (SystemExit None),
           [PrintLoaded (nrows df); PrintMissingColumns missing_cols;
            PrintAvailableColumns (columns df)])
      end
  end.

(** The handlers of lines 97-102 catch [FileNotFoundError] and
    [Exception]; the [SystemExit] of the block passes them. *)
Definition load_data (read_excel : string -> response workbook)
    : result workbook * list output :=
  let '(r, out) := load_try read_excel in
  let out := PrintAttempting file_path :: out in
  match r with
  | Raise (Exc FileNotFoundError) =>
      (Raise (SystemExit None), out ++ [PrintFileNotFound file_path])
  | Raise (Exc e) =>
      (Raise (SystemExit None), out ++ [PrintUnexpectedError e])
  | _ => (r, out)
  end.

(** ** Converting the transfers (lines 117-165) *)

(** A row of the sheet after lines 112 and 115.  'Date' is a 'YYYY-MM-DD'
    string, or NaN ([None]) where the cell was blank: [to_datetime] makes
    it NaT and [strftime] leaves NaN.  The amount is numeric: one that is
    not a number has become NaN. *)
Record transfer : Type := {
  Date : option string;
  Cash_Amount_USD : pyfloat
}.

(** A row of the result, with the two columns added by lines 160-165. *)
Record converted : Type := {
  source : transfer;
  Exchange_Rate : pyfloat;
  Cash_Amount_INR : pyfloat
}.

(** [df.dropna(subset=['Cash Amount (in USD)'])]: the date plays no part. *)
Definition valid_rows (df : list transfer) : list transfer :=
  List.filter (fun r => negb (is_nan (Cash_Amount_USD r))) df.

Definition removed_rows (df : list transfer) : nat :=
  (length df - length (valid_rows df))%nat.

(** [sorted(df['Date'].unique())].  Sorting compares the values with [<],
    and comparing a string with the float NaN raises TypeError; a value
    that is alone is compared with nothing. *)
Definition unique_dates (df : list transfer) : result (list (option string)) :=
  let strings := unique (omap Date df) in
  if bool_decide (None ∈ map Date df) then
    match strings with
    | [] => Return [None]
    | _ => Raise (Exc TypeError)
    end
  else Return (Some <$> merge_sort (fun a b => Is_true (String.leb a b)) strings).

Section convert.

Variable strptime : string -> response Z.

(** The provider's answers, by the place of the date among the unique
    dates and by the attempt. *)
Variable history : nat -> nat -> Z -> Z -> response hist_frame.

(** Line 143.  On the float NaN [strptime] raises TypeError, at every
    attempt. *)
Definition fetch_rate (i : nat) (date_str : option string)
    : result pyfloat * list event :=
  match date_str with
  | Some s => fetch_historical_inr_rate strptime (history i) s
  | None => fetch_historical_inr_rate (fun _ => Fails TypeError) (history i) "nan"
  end.

(** The loop of lines 141-150: one fetch for each date, half a second of
    sleep after each but the last. *)
Fixpoint fetch_rates (i : nat) (dates : list (option string))
    (rate_cache : gmap (option string) pyfloat)
    : result (gmap (option string) pyfloat) * list event :=
  match dates with
  | [] => (Return rate_cache, [])
  | date_str :: dates' =>
      match fetch_rate i date_str with
      | (Return rate, evs) =>
          let pause := match dates' with [] => [] | _ => [Sleep (1 # 2)] end in
          let '(r, evs') :=
            fetch_rates (S i) dates' (<[date_str := rate]> rate_cache) in
          (r, evs ++ pause ++ evs')
      | (Raise e, evs) => (Raise e, evs)
      end
  end.

(** Lines 160-165: [Series.map] with a dict gives NaN for a key the dict
    lacks. *)
Definition convert_row (rate_cache : gmap (option string) pyfloat) (r : transfer)
    : converted :=
  let rate := default NaN (rate_cache !! Date r) in
  {| source := r;
     Exchange_Rate := rate;
     Cash_Amount_INR := py_round (fmul (Cash_Amount_USD r) rate) 2 |}.

(** Lines 117-165.  The TypeError of line 135 is raised outside every
    [try]: the run ends there, before any rate is fetched. *)
Definition convert (df : list transfer) : result (list converted) * list event :=
  let df := valid_rows df in
  match unique_dates df with
  | Raise e => (Raise e, [])
  | Return dates =>
      match fetch_rates 0 dates ∅ with
      | (Return rate_cache, evs) => (Return (map (convert_row rate_cache) df), evs)
      | (Raise e, evs) => (Raise e, evs)
      end
  end.

End convert.

End Transfers.

(** * stockprice.py on doubles *)

(** The lines of stockprice.py that compute the amounts in INR and the two
    percentage columns, on IEEE 754 binary64 numbers, each operation
    rounded as the interpreter rounds it. *)
Module Doubles.
Import PrimFloat.
Local Open Scope float_scope.

(** The double of the literal [88.57]: the quotient is rounded to the
    nearest double, as the literal is. *)
Definition USD_TO_INR : float := 8857 / 100.

(** Lines 190-191. *)
Definition current_value_inr (current_price_usd shares exchange_rate : float)
    : float :=
  (current_price_usd * shares) * exchange_rate.

(** Lines 193-194. *)
Definition total_investment_inr (avg_cost_usd shares exchange_rate : float)
    : float :=
  (avg_cost_usd * shares) * exchange_rate.

Definition nan_to_zero (x : float) : float :=
  if is_nan x then 0 else x.

(** [Series.sum()]: missing entries count as 0, and numpy adds the first
    entry to the sum of the others, which for fewer than eight of them is
    taken from left to right. *)
Definition series_sum (s : list float) : float :=
  match map nan_to_zero s with
  | [] => 0
  | x :: rest => x + fold_left add rest 0
  end.

(** The entries added from left to right, as Python's [sum] adds them. *)
Definition plain_sum (s : list float) : float := fold_left add s 0.

(** Lines 228-229 and 233-234: [column / column.sum() * 100]. *)
Definition percentages (column : list float) : list float :=
  let total := series_sum column in
  map (fun x => x / total * 100) column.

Definition positive (x : float) : bool := 0 <? x.

(** [|x - 100| > 1e-6] *)
Definition off_100 (x : float) : bool := 1 / 1000000 <? abs (x - 100).

(** Three positions: 4.5 million shares of a stock quoted at 250.75, one
    share of a stock quoted at 7.25, and a short position of 4.5 million
    shares of a stock quoted at 250.75; the average costs are 200, 5 and
    150. *)
Definition c8_current_values : list float :=
  [ current_value_inr 250.75 4500000 USD_TO_INR;
    current_value_inr 7.25 1 USD_TO_INR;
    current_value_inr 250.75 (-4500000) USD_TO_INR ].

Definition c8_investments : list float :=
  [ total_investment_inr 200 4500000 USD_TO_INR;
    total_investment_inr 5 1 USD_TO_INR;
    total_investment_inr 150 (-4500000) USD_TO_INR ].

End Doubles.

(** * Vocabulary of the properties, and example data *)

Import Stockprice.

Definition c1_portfolio : list position :=
  [ {| ticker := "MSFT"; shares_held := Fin 5; avg_cost_usd := Fin 350 |};
    {| ticker := "AAPL"; shares_held := Fin 10; avg_cost_usd := Fin 175 |} ].

Definition c1_market_data : gmap string quote :=
  {[ "MSFT"%string := {| current_price_usd := Fin 400; prev_close_usd := Fin 398 |};
     "AAPL"%string := {| current_price_usd := Fin 180; prev_close_usd := Fin 0 |} ]}.

Definition c10_portfolio : list position :=
  [ {| ticker := "MSFT"; shares_held := Fin (11 # 2); avg_cost_usd := Fin 350 |} ].

Definition c10_market_data : gmap string quote :=
  {[ "MSFT"%string := {| current_price_usd := Fin 400; prev_close_usd := Fin 398 |} ]}.

Definition c10_row : summary_row :=
  {| Ticker := "MSFT";
     Shares := Fin (11 # 2);
     Avg_Cost_USD := Fin 350;
     Current_Price_USD := Fin 400;
     Prev_Close_USD := Fin 398;
     Daily_Change_pct := fmul (fdiv (fsub (Fin 400) (Fin 398)) (Fin 398)) (Fin 100);
     Daily_Change_INR := fmul (fmul (fsub (Fin 400) (Fin 398)) (Fin (11 # 2))) USD_TO_INR;
     Investment_USD := fmul (Fin 350) (Fin (11 # 2));
     Current_Value_USD := fmul (Fin 400) (Fin (11 # 2));
     Investment_INR := fmul (fmul (Fin 350) (Fin (11 # 2))) USD_TO_INR;
     Current_Value_INR := fmul (fmul (Fin 400) (Fin (11 # 2))) USD_TO_INR;
     Gain_Loss_USD := fsub (fmul (Fin 400) (Fin (11 # 2))) (fmul (Fin 350) (Fin (11 # 2)));
     Gain_Loss_INR :=
       fmul (fsub (fmul (Fin 400) (Fin (11 # 2))) (fmul (Fin 350) (Fin (11 # 2))))
            USD_TO_INR |}.

Definition table_of (pf : list position) (md : gmap string quote) : list summary_row :=
  match analyze_portfolio pf md USD_TO_INR with
  | Return rows => rows
  | Raise _ => []
  end.

Definition c8_market_data : gmap string quote :=
  {[ "MSFT"%string := {| current_price_usd := Fin 400; prev_close_usd := Fin 398 |};
     "AAPL"%string := {| current_price_usd := Fin 180; prev_close_usd := Fin 178 |} ]}.

Definition c8_table : list summary_row :=
  Eval vm_compute in table_of c1_portfolio c8_market_data.

Definition c8_value : Q :=
  Eval vm_compute in
    match total_current_value_inr (calculate_totals c8_table) with
    | Fin v => v
    | _ => 0
    end.

Definition c8_investment : Q :=
  Eval vm_compute in
    match total_investment_inr (calculate_totals c8_table) with
    | Fin i => i
    | _ => 0
    end.

(** A closed position: no shares are held, so nothing is invested. *)
Definition c6_flat_table : list summary_row :=
  Eval vm_compute in
    table_of [ {| ticker := "AAPL"; shares_held := Fin 0; avg_cost_usd := Fin 175 |} ]
             c8_market_data.

(** A short position: the share count, and with it the investment, is
    negative. *)
Definition c6_short_table : list summary_row :=
  Eval vm_compute in
    table_of [ {| ticker := "AAPL"; shares_held := Fin (-2); avg_cost_usd := Fin 200 |} ]
             c8_market_data.

Definition c6_investment : Q :=
  Eval vm_compute in
    match total_investment_usd (calculate_totals c8_table) with
    | Fin i => i
    | _ => 0
    end.

Definition c6_gain : Q :=
  Eval vm_compute in
    match total_gain_loss_usd (calculate_totals c8_table) with
    | Fin g => g
    | _ => 0
    end.

(** IEEE [<=]. *)
Definition fle (x y : pyfloat) : bool :=
  match fcmp x y with Some Lt | Some Eq => true | _ => false end.

(** The rows a list of printed suggestions names, in the order printed. *)
Definition book_profit_rows (out : list suggestion) : list summary_row :=
  omap (fun s => match s with BookProfit r => Some r | _ => None end) out.

Definition buy_more_rows (out : list suggestion) : list summary_row :=
  omap (fun s => match s with BuyMore r => Some r | _ => None end) out.

Definition profit_lines (targets : list summary_row) : list suggestion :=
  match targets with
  | [] => []
  | _ => BookProfitTitle :: map BookProfit (take 3 targets)
  end.

Definition buy_lines (targets : list summary_row) : list suggestion :=
  match targets with
  | [] => []
  | _ => BuyMoreTitle :: map BuyMore (take 3 targets)
  end.

(** What C2 asks of the close the rate is taken from: the close at the
    query date; or, when the date is absent, the close at the latest date
    before it; or, when every date is later, the close at the earliest
    date. *)
Definition selected_close (d : Z) (hist : Transfers.hist_frame) (c : pyfloat) : Prop :=
  (d, c) ∈ hist
  \/ ((forall row, row ∈ hist -> fst row <> d)
      /\ exists d', (d', c) ∈ hist /\ (d' < d)%Z
           /\ forall row, row ∈ hist -> (fst row <= d)%Z -> (fst row <= d')%Z)
  \/ ((forall row, row ∈ hist -> (d < fst row)%Z)
      /\ exists d0, (d0, c) ∈ hist
           /\ forall row, row ∈ hist -> (d0 <= fst row)%Z).

(** An attempt fails when the date does not parse, the provider raises,
    or the frame is empty. *)
Definition attempt_fails (strptime : string -> response Z)
    (history : nat -> Z -> Z -> response Transfers.hist_frame)
    (date_str : string) (attempt : nat) : Prop :=
  match strptime date_str with
  | Fails _ => True
  | Answer d =>
      match history attempt (d - 5)%Z (d + 1)%Z with
      | Fails _ | Answer [] => True
      | Answer (_ :: _) => False
      end
  end.

(** Every call to the provider asks for the window from five days before
    the date to one day after it. *)
Definition in_window (d : Z) (e : Transfers.event) : Prop :=
  e = Transfers.History (d - 5) (d + 1) \/ exists s, e = Transfers.Sleep s.

(** Day numbers count from 1970-01-01: 19734 is Friday 2024-01-12, 19735
    the Saturday after it and 19737 Monday 2024-01-15. *)
Definition example_strptime (date_str : string) : response Z :=
  if String.eqb date_str "2024-01-15" then Answer 19737%Z
  else if String.eqb date_str "2024-01-13" then Answer 19735%Z
  else Fails (ValueError "time data does not match format '%Y-%m-%d'").

Definition c2_monday_frame : Transfers.hist_frame :=
  [ (19734%Z, Fin (8310 # 100)); (19737%Z, Fin (8312345678 # 100000000)) ].

Definition c2_monday_history (attempt : nat) (start_date end_date : Z)
    : response Transfers.hist_frame :=
  Answer c2_monday_frame.

Definition c2_weekend_frame : Transfers.hist_frame :=
  [ (19730%Z, Fin (8305 # 100)); (19731%Z, Fin (8307 # 100));
    (19732%Z, Fin (8309 # 100)); (19733%Z, Fin (8311 # 100));
    (19734%Z, Fin (8312 # 100)) ].

(** The first call raises, the second one is answered. *)
Definition c2_weekend_history (attempt : nat) (start_date end_date : Z)
    : response Transfers.hist_frame :=
  match attempt with
  | O => Fails OtherError
  | _ => Answer c2_weekend_frame
  end.

Definition c3_failing_history (attempt : nat) (start_date end_date : Z)
    : response Transfers.hist_frame :=
  match attempt with
  | O => Fails OtherError
  | _ => Answer []
  end.

(** The frame has a row for Monday 2024-01-15, and the row has no close. *)
Definition c3_nan_frame : Transfers.hist_frame :=
  [ (19734%Z, Fin (8310 # 100)); (19737%Z, NaN) ].

Definition c3_nan_history (attempt : nat) (start_date end_date : Z)
    : response Transfers.hist_frame :=
  Answer c3_nan_frame.

Definition missing_file {A} (file_path : string) : response A :=
  Fails FileNotFoundError.

Definition c7_workbook : Transfers.workbook :=
  {| Transfers.columns := ["Date"; "Activity"]%string; Transfers.nrows := 4 |}.

Definition c7_portfolio_csv : portfolio_csv :=
  {| columns := ["ticker"; "shares_held"]%string; rows := [] |}.

(** The state after [k] raising attempts and the call of attempt [k]. *)
Fixpoint attempts_logged (batch : list string) (k : nat) (st : fetch_state)
    : fetch_state :=
  match k with
  | O => log (Download batch) st
  | S k' =>
      log (Download batch) (log (Sleep RETRY_DELAY) (attempts_logged batch k' st))
  end.

Definition c5_batch : list string := ["AAPL"; "MSFT"]%string.

Definition c5_good_frame : download_frame :=
  {| empty := false;
     close := MultiClose [ ("AAPL"%string, [Fin 178; Fin 180]);
                           ("MSFT"%string, [Fin 398; Fin 400]) ] |}.

(** The first answer is an empty frame; a second call would be answered
    with data for both tickers. *)
Definition c5_download (retry_count : nat) : response download_frame :=
  match retry_count with
  | O => Answer {| empty := true; close := NoClose |}
  | _ => Answer c5_good_frame
  end.

Definition c5_raising_download (retry_count : nat) : response download_frame :=
  Fails OtherError.

(** The closes of five days, the latest one missing. *)
Definition c4_closes : list pyfloat := [Fin 176; Fin 177; Fin 178; Fin 180; NaN].

Definition c4_download (batch_no retry_count : nat) : response download_frame :=
  Answer {| empty := false; close := FlatClose c4_closes |}.

Definition c4_multi_download (batch_no retry_count : nat) : response download_frame :=
  Answer {| empty := false;
            close := MultiClose [ ("AAPL"%string, c4_closes);
                                  ("MSFT"%string, [Fin 398; Fin 400]) ] |}.

Definition c4_history (j retry_count : nat) : response history_frame :=
  Answer {| h_empty := false; h_close := Some c4_closes |}.

Definition no_download (batch_no retry_count : nat) : response download_frame :=
  Fails OtherError.

(** A summary row with a given daily change percent and gain/loss in INR;
    the other columns play no part in the suggestions. *)
Definition suggestion_row (t : string) (daily_pct gain_inr daily_inr : Q)
    : summary_row :=
  {| Ticker := t;
     Shares := Fin 1;
     Avg_Cost_USD := Fin 1;
     Current_Price_USD := Fin 1;
     Prev_Close_USD := Fin 1;
     Daily_Change_pct := Fin daily_pct;
     Daily_Change_INR := Fin daily_inr;
     Investment_USD := Fin 1;
     Current_Value_USD := Fin 1;
     Investment_INR := Fin 1;
     Current_Value_INR := Fin 1;
     Gain_Loss_USD := Fin 1;
     Gain_Loss_INR := Fin gain_inr |}.

Definition suggestion_table : list summary_row :=
  [ suggestion_row "A" (21 # 10) 60000 400;
    suggestion_row "B" 3 60000 600;
    suggestion_row "C" (5 # 2) 40000 100;
    suggestion_row "D" (-3 # 2) (-500) (-900);
    suggestion_row "E" (-4) (-100) (-2500) ].

(** The order of the details sheet on two current values: the first is at
    least the second, or the second is missing. *)
Definition desc_nan_last (x y : pyfloat) : Prop :=
  is_nan y = true \/ fle y x = true.

Definition finite_position (p : position) : Prop :=
  is_finite (shares_held p) /\ is_finite (avg_cost_usd p).

Definition finite_quote (q : quote) : Prop :=
  is_finite (current_price_usd q) /\ is_finite (prev_close_usd q).

(** The two conditions of the suggestion lists. *)
Definition book_profit_condition (r : summary_row) : bool :=
  fgt (Gain_Loss_INR r) (Fin 50000) && fgt (Daily_Change_pct r) (Fin 2).

Definition buy_more_condition (r : summary_row) : bool :=
  flt (Gain_Loss_INR r) (Fin 0) && flt (Daily_Change_pct r) (Fin (-1)).

Definition x2_portfolio : list position :=
  [ {| ticker := "TSLA"; shares_held := Fin 3; avg_cost_usd := Fin 200 |};
    {| ticker := "MSFT"; shares_held := Fin 5; avg_cost_usd := Fin 350 |};
    {| ticker := "AAPL"; shares_held := Fin 10; avg_cost_usd := Fin 175 |};
    {| ticker := "MSFT"; shares_held := Fin 1; avg_cost_usd := Fin 390 |} ].

Definition x2_table : list summary_row :=
  Eval vm_compute in table_of x2_portfolio c8_market_data.

(** What analyze_portfolio gives a row on finite prices, shares and cost:
    finite USD amounts, and the other amounts derived from them. *)
Definition regular_row (rate : pyfloat) (r : summary_row) : Prop :=
  is_finite (Current_Value_USD r) /\ is_finite (Investment_USD r)
  /\ Gain_Loss_USD r = fsub (Current_Value_USD r) (Investment_USD r)
  /\ Current_Value_INR r = fmul (Current_Value_USD r) rate
  /\ Investment_INR r = fmul (Investment_USD r) rate
  /\ Gain_Loss_INR r
     = fmul (fsub (Current_Value_USD r) (Investment_USD r)) rate.

(** The quote an answer of [Ticker.history] yields in the individual
    retry, if it yields one: the frame is not empty, has a 'Close' column,
    and the column has two valid closes. *)
Definition individual_quote (r : response history_frame) : option quote :=
  match r with
  | Fails _ => None
  | Answer hist =>
      if h_empty hist then None else
      match h_close hist with
      | None => None
      | Some col =>
          if (2 <=? length (dropna col))%nat then
            match last_two (dropna col) with
            | Answer q => Some q
            | Fails _ => None
            end
          else None
      end
  end.

(** The state after [k] attempts without a quote and the call of attempt
    [k] of the individual retry. *)
Fixpoint history_logged (ticker : string) (k : nat) (st : fetch_state)
    : fetch_state :=
  match k with
  | O => log (History ticker) st
  | S k' =>
      log (History ticker) (log (Sleep RETRY_DELAY) (history_logged ticker k' st))
  end.

(** A ticker is accounted for: it has a quote or it is listed as failed. *)
Definition covered (st : fetch_state) (t : string) : Prop :=
  is_Some (stock_data st !! t) \/ t ∈ failed_tickers st.

(** The quotes and the failed list name only tickers of [T]. *)
Definition within (T : list string) (st : fetch_state) : Prop :=
  (forall t, is_Some (stock_data st !! t) -> t ∈ T)
  /\ (forall t, t ∈ failed_tickers st -> t ∈ T).

Definition no_missing_price (q : quote) : Prop :=
  is_nan (current_price_usd q) = false /\ is_nan (prev_close_usd q) = false.

Definition x10_history (retry_count : nat) : response history_frame :=
  match retry_count with
  | O => Answer {| h_empty := true; h_close := None |}
  | 1%nat => Answer {| h_empty := false; h_close := Some [Fin 180; NaN] |}
  | _ => Answer {| h_empty := false; h_close := Some c4_closes |}
  end.

Definition x10_state : fetch_state :=
  {| stock_data := ∅; failed_tickers := ["MSFT"; "AAPL"]%string; events := [] |}.

Definition x12_tickers : list string := ["AAPL"; "MSFT"]%string.

(** The failed list names no ticker twice and no ticker that has a
    quote. *)
Definition exact_failed (st : fetch_state) : Prop :=
  NoDup (failed_tickers st)
  /\ forall t, t ∈ failed_tickers st -> stock_data st !! t = None.

(** A ticker the function has not met yet. *)
Definition fresh (st : fetch_state) (t : string) : Prop :=
  stock_data st !! t = None /\ t ∉ failed_tickers st.

Definition x14_csv : portfolio_csv :=
  {| columns := ["ticker"; "shares_held"; "avg_cost_usd"; "note"]%string;
     rows := c1_portfolio |}.

Definition x15_download (batch_no retry_count : nat) : response download_frame :=
  Answer {| empty := false;
            close := MultiClose [ ("MSFT"%string, [Fin 398; Fin 400]);
                                  ("AAPL"%string, [Fin 0; Fin 180]) ] |}.

Definition no_history (j retry_count : nat) : response history_frame :=
  Fails OtherError.

(** A row with text in its shares cell or in its cost cell. *)
Definition has_text (row : csv_row) : Prop :=
  match shares_cell row, avg_cost_cell row with
  | Number _, Number _ => False
  | _, _ => True
  end.

(** The second row of the file has no ticker. *)
Definition x15_blank_rows : list csv_row :=
  [ cells_of {| ticker := "MSFT"; shares_held := Fin 5; avg_cost_usd := Fin 350 |};
    {| ticker_cell := None;
       shares_cell := Number (Fin 10);
       avg_cost_cell := Number (Fin 175) |} ].

(** The shares of the second row are not a number. *)
Definition x15_text_rows : list csv_row :=
  [ cells_of {| ticker := "MSFT"; shares_held := Fin 5; avg_cost_usd := Fin 350 |};
    {| ticker_cell := Some "AAPL"%string;
       shares_cell := Text "ten";
       avg_cost_cell := Number (Fin 175) |} ].

(** The seconds slept, and the number of calls made, in a list of events
    of the rate fetch. *)
Definition sleeps (evs : list Transfers.event) : list Q :=
  omap (fun e => match e with Transfers.Sleep s => Some s | _ => None end) evs.

Definition calls (evs : list Transfers.event) : nat :=
  length (List.filter
            (fun e => match e with Transfers.History _ _ => true | _ => false end)
            evs).

Definition x16_strptime (date_str : string) : response Z :=
  Fails (ValueError "time data does not match format '%Y-%m-%d'").

Definition x19_transfers : list Transfers.transfer :=
  [ {| Transfers.Date := Some "2024-01-15"%string; Transfers.Cash_Amount_USD := Fin 100 |};
    {| Transfers.Date := Some "2024-01-13"%string; Transfers.Cash_Amount_USD := NaN |};
    {| Transfers.Date := Some "2024-01-13"%string;
       Transfers.Cash_Amount_USD := Fin (5 # 2) |};
    {| Transfers.Date := Some "2024-01-15"%string; Transfers.Cash_Amount_USD := Fin 40 |} ].

(** The date of the second transfer is blank. *)
Definition x19_blank_transfers : list Transfers.transfer :=
  [ {| Transfers.Date := Some "2024-01-15"%string; Transfers.Cash_Amount_USD := Fin 100 |};
    {| Transfers.Date := None; Transfers.Cash_Amount_USD := Fin 40 |} ].

Definition x19_history (i attempt : nat) (start_date end_date : Z)
    : response Transfers.hist_frame :=
  match i with
  | O => c2_weekend_history attempt start_date end_date
  | _ => c2_monday_history attempt start_date end_date
  end.

Definition x21_workbook : Transfers.workbook :=
  {| Transfers.columns := ["Date"; "Activity"; "Cash Amount (in USD)"]%string;
     Transfers.nrows := 4 |}.

(** * Properties *)

(** ** Floats *)

Lemma feq_refl x : feq x x.
Proof. destruct x; simpl; auto. reflexivity. Qed.

Lemma feq_sym x y : feq x y -> feq y x.
Proof. destruct x, y; simpl; auto. intros H. symmetry. exact H. Qed.

Lemma feq_trans x y z : feq x y -> feq y z -> feq x z.
Proof.
  destruct x, y, z; simpl; try tauto.
  intros H1 H2. rewrite H1. exact H2.
Qed.

Lemma feq_of_eq x y : x = y -> feq x y.
Proof. intros ->. apply feq_refl. Qed.

Lemma Qeq_bool_false_neq (a b : Q) : Qeq_bool a b = false -> ~ a == b.
Proof. intros H E. apply Qeq_bool_iff in E. congruence. Qed.

Lemma Qeq_bool_zero_cases (b : Q) :
  (Qeq_bool b 0 = true /\ b == 0) \/ (Qeq_bool b 0 = false /\ ~ b == 0).
Proof.
  destruct (Qeq_bool b 0) eqn:E.
  - left. split; [reflexivity | apply Qeq_bool_iff; exact E].
  - right. split; [reflexivity | apply Qeq_bool_false_neq; exact E].
Qed.

Lemma flt_Fin a b : flt (Fin a) (Fin b) = true <-> a < b.
Proof.
  unfold flt. simpl. rewrite Qlt_alt.
  destruct (a ?= b); split; congruence.
Qed.

Lemma fgt_Fin a b : fgt (Fin a) (Fin b) = true <-> b < a.
Proof. unfold fgt. apply flt_Fin. Qed.

(** Python's division raises exactly on a zero divisor, and raises
    nothing else. *)
Lemma py_truediv_zero x y :
  feq y (Fin 0) -> py_truediv x y = Raise (Exc ZeroDivisionError).
Proof.
  destruct y as [b | | |]; simpl; try tauto.
  intros H. apply Qeq_bool_iff in H. rewrite H. reflexivity.
Qed.

Lemma py_truediv_cases x y :
  py_truediv x y = Raise (Exc ZeroDivisionError) \/
  py_truediv x y = Return (fdiv x y).
Proof.
  destruct y as [b | | |]; simpl; auto.
  destruct (Qeq_bool b 0); auto.
Qed.

(** Multiplication by a finite factor distributes over subtraction, the
    special values included. *)
Lemma fmul_fsub_distr_r a b c :
  is_finite c -> feq (fmul (fsub a b) c) (fsub (fmul a c) (fmul b c)).
Proof.
  destruct c as [c | | |]; simpl; try tauto. intros _.
  destruct a as [a | | |], b as [b | | |]; simpl; auto;
    try (destruct (c ?= 0); simpl; auto; fail).
  ring.
Qed.

(** ** analyze_portfolio *)

Lemma analyze_row_cases row q rate :
  analyze_row row q rate = Raise (Exc ZeroDivisionError) \/
  exists r, analyze_row row q rate = Return r.
Proof.
  unfold analyze_row.
  destruct (py_truediv_cases
              (fsub (current_price_usd q) (prev_close_usd q)) (prev_close_usd q))
    as [-> | ->]; simpl; eauto.
Qed.

Lemma analyze_row_zero_prev_close row q rate :
  feq (prev_close_usd q) (Fin 0) ->
  analyze_row row q rate = Raise (Exc ZeroDivisionError).
Proof.
  intros H. unfold analyze_row. rewrite (py_truediv_zero _ _ H). reflexivity.
Qed.

(** Every row of the table comes from a position that has a quote. *)
Lemma analyze_portfolio_rows pf md rate rows r :
  analyze_portfolio pf md rate = Return rows -> r ∈ rows ->
  exists p q, p ∈ pf /\ md !! ticker p = Some q /\ analyze_row p q rate = Return r.
Proof.
  revert rows. induction pf as [| p pf IH]; simpl; intros rows Hrows Hin.
  - inversion Hrows; subst. inversion Hin.
  - destruct (md !! ticker p) as [q |] eqn:Hq.
    + destruct (analyze_row p q rate) as [r0 |] eqn:Hr0; simpl in Hrows; [| discriminate].
      destruct (analyze_portfolio pf md rate) as [rs |] eqn:Hrs; simpl in Hrows;
        [| discriminate].
      inversion Hrows; subst. apply elem_of_cons in Hin as [-> | Hin].
      * exists p, q. split; [left | auto].
      * destruct (IH rs eq_refl Hin) as (p' & q' & Hp' & Hq' & Hr').
        exists p', q'. split; [right; exact Hp' | auto].
    + destruct (IH rows Hrows Hin) as (p' & q' & Hp' & Hq' & Hr').
      exists p', q'. split; [right; exact Hp' | auto].
Qed.

(** C1, as stated, fails: with a zero previous close for AAPL the call
    raises ZeroDivisionError, so no table is returned and no daily change
    percent is reported for any position, the sound MSFT row included. *)
Lemma C1_zero_prev_close_no_table :
  analyze_portfolio c1_portfolio c1_market_data USD_TO_INR
    = Raise (Exc ZeroDivisionError)
  /\ forall rows,
       analyze_portfolio c1_portfolio c1_market_data USD_TO_INR <> Return rows.
Proof.
  assert (H : analyze_portfolio c1_portfolio c1_market_data USD_TO_INR
              = Raise (Exc ZeroDivisionError)) by (vm_compute; reflexivity).
  split; [exact H |]. intros rows. rewrite H. discriminate.
Qed.

(** C1, amended: when a position of the portfolio has a quote whose
    previous close is 0, analyze_portfolio raises ZeroDivisionError: the
    call returns no table, and so no NaN or infinite daily change percent
    for that position reaches any later stage. *)
Theorem C1_zero_prev_close_raises pf md rate p q :
  p ∈ pf -> md !! ticker p = Some q -> feq (prev_close_usd q) (Fin 0) ->
  analyze_portfolio pf md rate = Raise (Exc ZeroDivisionError).
Proof.
  intros Hin Hq Hz. induction pf as [| p0 pf IH]; [inversion Hin |].
  simpl. destruct (md !! ticker p0) as [q0 |] eqn:Hq0.
  - destruct (analyze_row_cases p0 q0 rate) as [-> | [r Hr]]; [reflexivity |].
    rewrite Hr. simpl.
    apply elem_of_cons in Hin as [-> | Hin].
    + rewrite Hq in Hq0. inversion Hq0; subst.
      rewrite (analyze_row_zero_prev_close _ _ _ Hz) in Hr. discriminate.
    + rewrite (IH Hin). reflexivity.
  - apply elem_of_cons in Hin as [-> | Hin]; [congruence | auto].
Qed.

Lemma C1_zero_prev_close_raises_witness :
  analyze_portfolio c1_portfolio c1_market_data USD_TO_INR
    = Raise (Exc ZeroDivisionError).
Proof.
  apply (C1_zero_prev_close_raises c1_portfolio c1_market_data USD_TO_INR
           {| ticker := "AAPL"; shares_held := Fin 10; avg_cost_usd := Fin 175 |}
           {| current_price_usd := Fin 180; prev_close_usd := Fin 0 |}).
  - right. left.
  - vm_compute. reflexivity.
  - simpl. reflexivity.
Defined.

(** C10: in every row analyze_portfolio returns, for a finite exchange
    rate, the gain/loss in INR is the gain/loss in USD times the rate and
    also the current value in INR minus the investment in INR; the current
    value and the investment in INR are their USD amounts times the rate. *)
Theorem C10_converted_fields_consistent pf md rate rows r :
  is_finite rate ->
  analyze_portfolio pf md rate = Return rows -> r ∈ rows ->
  feq (Gain_Loss_INR r) (fmul (Gain_Loss_USD r) rate)
  /\ feq (Gain_Loss_INR r) (fsub (Current_Value_INR r) (Investment_INR r))
  /\ feq (Current_Value_INR r) (fmul (Current_Value_USD r) rate)
  /\ feq (Investment_INR r) (fmul (Investment_USD r) rate).
Proof.
  intros Hfin Hrows Hin.
  destruct (analyze_portfolio_rows _ _ _ _ _ Hrows Hin) as (p & q & _ & _ & Hr).
  unfold analyze_row in Hr.
  destruct (py_truediv _ _) as [ratio |]; simpl in Hr; [| discriminate].
  inversion Hr; subst; simpl.
  repeat split; try apply feq_refl.
  apply fmul_fsub_distr_r. exact Hfin.
Qed.

Lemma C10_converted_fields_consistent_witness :
  feq (Gain_Loss_INR c10_row) (fmul (Gain_Loss_USD c10_row) USD_TO_INR)
  /\ feq (Gain_Loss_INR c10_row)
         (fsub (Current_Value_INR c10_row) (Investment_INR c10_row))
  /\ feq (Current_Value_INR c10_row) (fmul (Current_Value_USD c10_row) USD_TO_INR)
  /\ feq (Investment_INR c10_row) (fmul (Investment_USD c10_row) USD_TO_INR).
Proof.
  apply (C10_converted_fields_consistent c10_portfolio c10_market_data USD_TO_INR
           [c10_row] c10_row).
  - simpl. exact I.
  - vm_compute. reflexivity.
  - left.
Defined.

(** ** Totals and percentages *)

(** A finite sum has only finite and missing entries, and a finite tail. *)
Lemma series_sum_cons_Fin x s t :
  series_sum (x :: s) = Fin t ->
  exists a t', nan_to_zero x = Fin a /\ series_sum s = Fin t' /\ t = (a + t')%Q.
Proof.
  simpl. destruct (series_sum s) as [t' | | |], (nan_to_zero x) as [a | | |];
    simpl; intros H; try discriminate.
  inversion H; subst. eauto.
Qed.

(** Dividing every entry of a column by a non-zero number and scaling by
    100 divides and scales its sum. *)
Lemma series_sum_scaled (s : list pyfloat) (d t : Q) :
  ~ d == 0 -> series_sum s = Fin t ->
  feq (series_sum (map (fun x => fmul (fdiv x (Fin d)) (Fin 100)) s))
      (Fin (t / d * 100)).
Proof.
  intros Hd. revert t. induction s as [| x s IH]; intros t Hs.
  - simpl in *. inversion Hs; subst. simpl. field. exact Hd.
  - destruct (series_sum_cons_Fin _ _ _ Hs) as (a & t' & Ha & Ht' & ->).
    specialize (IH t' Ht'). cbn [map series_sum foldr].
    fold (series_sum (map (fun x => fmul (fdiv x (Fin d)) (Fin 100)) s)).
    destruct (series_sum (map _ s)) as [u | | |]; simpl in IH; try tauto.
    destruct (Qeq_bool_zero_cases d) as [[_ Hd0] | [Hdb _]]; [tauto |].
    destruct x as [b | | |]; simpl in Ha; try discriminate;
      inversion Ha; subst; simpl; rewrite ?Hdb; simpl.
    + rewrite IH. field. exact Hd.
    + rewrite IH. field. exact Hd.
Qed.

(** Where nothing is missing the plain sum is the pandas sum. *)
Lemma plain_sum_series_sum (s : list pyfloat) :
  Forall (fun x => is_nan x = false) s -> plain_sum s = series_sum s.
Proof.
  induction 1 as [| x s Hx _ IH]; [reflexivity |].
  unfold plain_sum, series_sum in *. simpl. rewrite IH.
  destruct x; simpl in *; congruence.
Qed.

Lemma scaled_not_nan (s : list pyfloat) (d t : Q) :
  ~ d == 0 -> series_sum s = Fin t ->
  Forall (fun x => is_nan x = false) s ->
  Forall (fun x => is_nan x = false)
    (map (fun x => fmul (fdiv x (Fin d)) (Fin 100)) s).
Proof.
  intros Hd. revert t. induction s as [| x s IH]; intros t Hs Hn; [constructor |].
  destruct (series_sum_cons_Fin _ _ _ Hs) as (a & t' & Ha & Ht' & ->).
  inversion Hn; subst. constructor; [| eapply IH; eauto].
  destruct (Qeq_bool_zero_cases d) as [[_ Hd0] | [Hdb _]]; [tauto |].
  destruct x; simpl in *; try discriminate. rewrite Hdb. reflexivity.
Qed.

Lemma pct_of_Total_Value_column df :
  map pct_of_Total_Value (add_percentages df)
  = map (fun x => fmul (fdiv x (total_current_value_inr (calculate_totals df))) (Fin 100))
        (column Current_Value_INR df).
Proof.
  unfold add_percentages, column. rewrite !map_map. reflexivity.
Qed.

Lemma pct_of_Total_Investment_column df :
  map pct_of_Total_Investment (add_percentages df)
  = map (fun x => fmul (fdiv x (total_investment_inr (calculate_totals df))) (Fin 100))
        (column Investment_INR df).
Proof.
  unfold add_percentages, column. rewrite !map_map. reflexivity.
Qed.

Lemma Q_pos_neq0 (t : Q) : 0 < t -> ~ t == 0.
Proof. intros H E. rewrite E in H. apply (Qlt_irrefl 0). exact H. Qed.

Lemma Q_self_ratio (t : Q) : 0 < t -> t / t * 100 == 100.
Proof. intros H. field. apply Q_pos_neq0. exact H. Qed.

(** C8, as stated, fails on the doubles the code computes with.  A long
    and a short position of 4.5 million shares quoted at 250.75 and one
    share quoted at 7.25: the total current value and the total investment
    in INR are positive, and the '% of Total Value' fields add up to
    99.999998092651367, more than 1e-6 away from 100, whether they are
    added as pandas adds them or from left to right.  The rounding error
    of the total is small beside the two large values and large beside
    the total itself. *)
Lemma C8_doubles_sum_off_by_more_than_1e_6 :
  Doubles.positive (Doubles.series_sum Doubles.c8_current_values) = true
  /\ Doubles.positive (Doubles.series_sum Doubles.c8_investments) = true
  /\ Doubles.off_100
       (Doubles.series_sum (Doubles.percentages Doubles.c8_current_values)) = true
  /\ Doubles.off_100
       (Doubles.plain_sum (Doubles.percentages Doubles.c8_current_values)) = true.
Proof. vm_compute. repeat split. Qed.

(** C8, amended: over exact arithmetic (every double taken as the number
    it stands for, no operation rounded and none overflowing), with at
    least one position and positive (finite) totals of current value and
    of investment in INR, the '% of Total Value' column sums to exactly
    100 and so does the '% of Total Investment' column: for pandas' sum,
    and for the plain sum of the entries when no entry of the underlying
    column is missing. *)
Theorem C8_percentages_sum_to_100 (df : list summary_row) (v i : Q) :
  df <> [] ->
  total_current_value_inr (calculate_totals df) = Fin v -> 0 < v ->
  total_investment_inr (calculate_totals df) = Fin i -> 0 < i ->
  let pv := map pct_of_Total_Value (add_percentages df) in
  let pi := map pct_of_Total_Investment (add_percentages df) in
  feq (series_sum pv) (Fin 100)
  /\ feq (series_sum pi) (Fin 100)
  /\ (Forall (fun x => is_nan x = false) (column Current_Value_INR df) ->
      feq (plain_sum pv) (Fin 100))
  /\ (Forall (fun x => is_nan x = false) (column Investment_INR df) ->
      feq (plain_sum pi) (Fin 100)).
Proof.
  intros _ Hv Hvpos Hi Hipos pv pi. subst pv pi.
  rewrite pct_of_Total_Value_column, pct_of_Total_Investment_column, Hv, Hi.
  pose proof (Q_pos_neq0 _ Hvpos) as Hv0. pose proof (Q_pos_neq0 _ Hipos) as Hi0.
  assert (Sv : series_sum (column Current_Value_INR df) = Fin v) by exact Hv.
  assert (Si : series_sum (column Investment_INR df) = Fin i) by exact Hi.
  assert (Ev := series_sum_scaled _ _ _ Hv0 Sv).
  assert (Ei := series_sum_scaled _ _ _ Hi0 Si).
  assert (Rv : feq (Fin (v / v * 100)) (Fin 100)) by (simpl; apply Q_self_ratio; exact Hvpos).
  assert (Ri : feq (Fin (i / i * 100)) (Fin 100)) by (simpl; apply Q_self_ratio; exact Hipos).
  repeat split.
  - eapply feq_trans; eauto.
  - eapply feq_trans; eauto.
  - intros Hn. rewrite plain_sum_series_sum by (eapply scaled_not_nan; eauto).
    eapply feq_trans; eauto.
  - intros Hn. rewrite plain_sum_series_sum by (eapply scaled_not_nan; eauto).
    eapply feq_trans; eauto.
Qed.

Lemma C8_percentages_sum_to_100_witness :
  feq (series_sum (map pct_of_Total_Value (add_percentages c8_table))) (Fin 100)
  /\ feq (series_sum (map pct_of_Total_Investment (add_percentages c8_table))) (Fin 100).
Proof.
  destruct (C8_percentages_sum_to_100 c8_table c8_value c8_investment)
    as (Hv & Hi & _).
  - discriminate.
  - vm_compute. reflexivity.
  - vm_compute. reflexivity.
  - vm_compute. reflexivity.
  - vm_compute. reflexivity.
  - split; [exact Hv | exact Hi].
Defined.

(** C6, as stated, fails: with a total investment of 0 the return percent
    is the number 0, not an undefined value; and with a negative total
    investment (here -400, with a total gain of 40) it is 0 as well, not
    the ratio (-10 percent). *)
Lemma C6_return_pct_is_zero_number :
  (feq (total_investment_usd (calculate_totals c6_flat_table)) (Fin 0)
   /\ total_gain_loss_pct (calculate_totals c6_flat_table) = Fin 0)
  /\ (feq (total_investment_usd (calculate_totals c6_short_table)) (Fin (-400))
      /\ feq (total_gain_loss_usd (calculate_totals c6_short_table)) (Fin 40)
      /\ total_gain_loss_pct (calculate_totals c6_short_table) = Fin 0
      /\ ~ feq (total_gain_loss_pct (calculate_totals c6_short_table))
               (Fin (40 / (-400) * 100))).
Proof.
  repeat split; try (vm_compute; reflexivity).
  vm_compute. discriminate.
Qed.

(** C6, amended: the portfolio-level return percent is the number 0 when
    the total investment is 0 or negative, and the total gain/loss divided
    by the total investment times 100 when the total investment is
    positive. *)
Theorem C6_return_pct (df : list summary_row) :
  let t := calculate_totals df in
  (forall i, total_investment_usd t = Fin i -> i <= 0 ->
     total_gain_loss_pct t = Fin 0)
  /\ (forall i g, total_investment_usd t = Fin i -> 0 < i ->
        total_gain_loss_usd t = Fin g ->
        feq (total_gain_loss_pct t) (Fin (g / i * 100))).
Proof.
  simpl. split.
  - intros i Hi Hle. rewrite Hi.
    destruct (fgt (Fin i) (Fin 0)) eqn:E; [| reflexivity].
    apply fgt_Fin in E. exfalso. apply (Qlt_irrefl 0).
    eapply Qlt_le_trans; eauto.
  - intros i g Hi Hpos Hg. rewrite Hi, Hg.
    assert (E : fgt (Fin i) (Fin 0) = true) by (apply fgt_Fin; exact Hpos).
    rewrite E. simpl.
    destruct (Qeq_bool_zero_cases i) as [[_ H0] | [-> _]].
    + exfalso. exact (Q_pos_neq0 _ Hpos H0).
    + simpl. reflexivity.
Qed.

Lemma C6_return_pct_witness :
  total_gain_loss_pct (calculate_totals c6_flat_table) = Fin 0
  /\ feq (total_gain_loss_pct (calculate_totals c8_table))
         (Fin (c6_gain / c6_investment * 100)).
Proof.
  split.
  - apply (proj1 (C6_return_pct c6_flat_table) 0).
    + vm_compute. reflexivity.
    + vm_compute. discriminate.
  - apply (proj2 (C6_return_pct c8_table) c6_investment c6_gain).
    + vm_compute. reflexivity.
    + vm_compute. reflexivity.
    + vm_compute. reflexivity.
Defined.

(** ** Sorting and the suggestions *)

Lemma fcmp_antisym x y : fcmp y x = CompOpp <$> fcmp x y.
Proof.
  destruct x as [a | | |], y as [b | | |]; simpl; try reflexivity.
  rewrite (Qcompare_antisym a b). reflexivity.
Qed.

Lemma fcmp_None x y : fcmp x y = None -> is_nan x = true \/ is_nan y = true.
Proof. destruct x, y; simpl; intros H; try discriminate; auto. Qed.

Lemma key_le_total asc x y : key_le asc x y = true \/ key_le asc y x = true.
Proof.
  unfold key_le. rewrite (fcmp_antisym x y).
  destruct (fcmp x y) as [c |] eqn:E; simpl.
  - destruct c, asc; simpl; auto.
  - destruct (fcmp_None _ _ E) as [-> | ->]; auto.
Qed.

Lemma fle_Fin a b : fle (Fin a) (Fin b) = true <-> a <= b.
Proof.
  unfold fle. simpl. rewrite Qle_alt.
  destruct (a ?= b); split; congruence.
Qed.

Lemma fle_trans x y z : fle x y = true -> fle y z = true -> fle x z = true.
Proof.
  destruct x as [a | | |], y as [b | | |], z as [c | | |];
    try (unfold fle; simpl; congruence).
  rewrite !fle_Fin. apply Qle_trans.
Qed.

Lemma key_le_desc x y :
  is_nan x = false -> is_nan y = false ->
  key_le false x y = true -> fle y x = true.
Proof.
  unfold key_le, fle. rewrite (fcmp_antisym x y).
  destruct (fcmp x y) as [c |] eqn:E; simpl.
  - destruct c; simpl; congruence.
  - intros Hx Hy. destruct (fcmp_None _ _ E); congruence.
Qed.

Lemma key_le_asc x y :
  is_nan x = false -> is_nan y = false ->
  key_le true x y = true -> fle x y = true.
Proof.
  unfold key_le, fle.
  destruct (fcmp x y) as [c |] eqn:E; simpl.
  - destruct c; simpl; congruence.
  - intros Hx Hy. destruct (fcmp_None _ _ E); congruence.
Qed.

Lemma flt_not_nan_l x y : flt x y = true -> is_nan x = false.
Proof. destruct x, y; unfold flt; simpl; congruence. Qed.

Lemma fgt_not_nan_l x y : fgt x y = true -> is_nan x = false.
Proof. destruct x, y; unfold fgt, flt; simpl; congruence. Qed.

Section sort_values.
Context {A : Type} (key : A -> pyfloat) (ascending : bool).

Let R : relation A := fun a b => Is_true (key_le ascending (key a) (key b)).

#[local] Instance key_le_rel_total : Total R.
Proof.
  intros a b. unfold R.
  destruct (key_le_total ascending (key a) (key b)) as [-> | ->]; simpl; auto.
Qed.

Lemma sort_values_Permutation df : sort_values key ascending df ≡ₚ df.
Proof. apply (merge_sort_Permutation R). Qed.

Lemma sort_values_Sorted df : Sorted R (sort_values key ascending df).
Proof. apply (Sorted_merge_sort R). Qed.
End sort_values.

(** A list sorted for [R] whose elements all satisfy [P] is sorted for any
    relation that contains [R] on [P]. *)
Lemma Sorted_weaken {A} (R R' : relation A) (P : A -> Prop) l :
  (forall a b, P a -> P b -> R a b -> R' a b) ->
  Forall P l -> Sorted R l -> Sorted R' l.
Proof.
  intros HR HP HS. induction HS as [| a l HS IH Hd]; [constructor |].
  inversion HP; subst. constructor; [auto |].
  destruct Hd as [| b l' Hab]; constructor.
  inversion H2; subst. auto.
Qed.

Lemma filter_sorted_desc (f : summary_row -> bool) df :
  (forall r, f r = true -> is_nan (Daily_Change_pct r) = false) ->
  StronglySorted (fun a b => fle (Daily_Change_pct b) (Daily_Change_pct a) = true)
    (sort_values Daily_Change_pct false (List.filter f df)).
Proof.
  intros Hf. apply Sorted_StronglySorted.
  { intros a b c Hab Hbc. eapply fle_trans; eauto. }
  eapply (Sorted_weaken _ _ (fun r => f r = true)).
  - intros a b Ha Hb Hab. apply key_le_desc; auto. apply Is_true_true. exact Hab.
  - apply Forall_forall. intros r Hr.
    rewrite (sort_values_Permutation Daily_Change_pct false) in Hr.
    apply list_elem_of_In, filter_In in Hr. tauto.
  - apply sort_values_Sorted.
Qed.

Lemma filter_sorted_asc (f : summary_row -> bool) df :
  (forall r, f r = true -> is_nan (Daily_Change_pct r) = false) ->
  StronglySorted (fun a b => fle (Daily_Change_pct a) (Daily_Change_pct b) = true)
    (sort_values Daily_Change_pct true (List.filter f df)).
Proof.
  intros Hf. apply Sorted_StronglySorted.
  { intros a b c Hab Hbc. eapply fle_trans; eauto. }
  eapply (Sorted_weaken _ _ (fun r => f r = true)).
  - intros a b Ha Hb Hab. apply key_le_asc; auto. apply Is_true_true. exact Hab.
  - apply Forall_forall. intros r Hr.
    rewrite (sort_values_Permutation Daily_Change_pct true) in Hr.
    apply list_elem_of_In, filter_In in Hr. tauto.
  - apply sort_values_Sorted.
Qed.

Lemma book_profit_rows_app o1 o2 :
  book_profit_rows (o1 ++ o2) = book_profit_rows o1 ++ book_profit_rows o2.
Proof. apply omap_app. Qed.

Lemma buy_more_rows_app o1 o2 :
  buy_more_rows (o1 ++ o2) = buy_more_rows o1 ++ buy_more_rows o2.
Proof. apply omap_app. Qed.

Lemma book_profit_rows_BookProfit l : book_profit_rows (map BookProfit l) = l.
Proof. induction l; simpl; [reflexivity | f_equal; assumption]. Qed.

Lemma book_profit_rows_BuyMore l : book_profit_rows (map BuyMore l) = [].
Proof. induction l; simpl; auto. Qed.

Lemma buy_more_rows_BuyMore l : buy_more_rows (map BuyMore l) = l.
Proof. induction l; simpl; [reflexivity | f_equal; assumption]. Qed.

Lemma buy_more_rows_BookProfit l : buy_more_rows (map BookProfit l) = [].
Proof. induction l; simpl; auto. Qed.

Lemma elem_of_map_BookProfit s l :
  s ∈ map BookProfit l -> exists r, s = BookProfit r.
Proof. intros H. apply list_elem_of_fmap in H as (r & -> & _). eauto. Qed.

Lemma elem_of_map_BuyMore s l :
  s ∈ map BuyMore l -> exists r, s = BuyMore r.
Proof. intros H. apply list_elem_of_fmap in H as (r & -> & _). eauto. Qed.

Lemma generate_suggestions_parts df :
  generate_suggestions df
  = [SuggestionsTitle]
    ++ (if flt (series_sum (column Daily_Change_INR df)) (Fin (-1000))
        then [VolatileMarketCaution; VolatileMarketTip]
        else [StablePositiveNotice])
    ++ profit_lines (profit_targets df)
    ++ buy_lines (buy_targets df).
Proof.
  unfold generate_suggestions, profit_lines, buy_lines.
  destruct (profit_targets df), (buy_targets df); reflexivity.
Qed.

Lemma profit_lines_elem s targets :
  s ∈ profit_lines targets -> s = BookProfitTitle \/ exists r, s = BookProfit r.
Proof.
  unfold profit_lines. destruct targets as [| t ts]; [inversion 1 |].
  intros H. apply elem_of_cons in H as [-> | H]; [auto |].
  right. eapply elem_of_map_BookProfit; eauto.
Qed.

Lemma buy_lines_elem s targets :
  s ∈ buy_lines targets -> s = BuyMoreTitle \/ exists r, s = BuyMore r.
Proof.
  unfold buy_lines. destruct targets as [| t ts]; [inversion 1 |].
  intros H. apply elem_of_cons in H as [-> | H]; [auto |].
  right. eapply elem_of_map_BuyMore; eauto.
Qed.

Lemma profit_lines_rows targets :
  book_profit_rows (profit_lines targets) = take 3 targets
  /\ buy_more_rows (profit_lines targets) = [].
Proof.
  unfold profit_lines. destruct targets as [| t ts]; [split; reflexivity |].
  split.
  - change (book_profit_rows (map BookProfit (take 3 (t :: ts))) = take 3 (t :: ts)).
    apply book_profit_rows_BookProfit.
  - change (buy_more_rows (map BookProfit (take 3 (t :: ts))) = []).
    apply buy_more_rows_BookProfit.
Qed.

Lemma buy_lines_rows targets :
  buy_more_rows (buy_lines targets) = take 3 targets
  /\ book_profit_rows (buy_lines targets) = [].
Proof.
  unfold buy_lines. destruct targets as [| t ts]; [split; reflexivity |].
  split.
  - change (buy_more_rows (map BuyMore (take 3 (t :: ts))) = take 3 (t :: ts)).
    apply buy_more_rows_BuyMore.
  - change (book_profit_rows (map BuyMore (take 3 (t :: ts))) = []).
    apply book_profit_rows_BuyMore.
Qed.

(** The market line: neither of the two lists can print it. *)
Lemma market_line_elem df s :
  s = VolatileMarketCaution \/ s = StablePositiveNotice ->
  s ∈ generate_suggestions df <->
  s ∈ (if flt (series_sum (column Daily_Change_INR df)) (Fin (-1000))
       then [VolatileMarketCaution; VolatileMarketTip]
       else [StablePositiveNotice]).
Proof.
  intros Hs. rewrite generate_suggestions_parts, !elem_of_app. split.
  - intros [H | [H | [H | H]]].
    + apply list_elem_of_singleton in H. destruct Hs; congruence.
    + exact H.
    + apply profit_lines_elem in H as [H | [r H]]; destruct Hs; congruence.
    + apply buy_lines_elem in H as [H | [r H]]; destruct Hs; congruence.
  - auto.
Qed.

(** C9: the suggestions print the volatile-market caution exactly when
    the sum of the 'Daily Change (INR)' column is below -1000 and the
    stable/positive notice otherwise; the book-profit rows printed are the
    first three of the rows with gain/loss (INR) above 50000 and daily
    change percent above 2, sorted by daily change percent, largest first;
    the buy-more rows printed are the first three of the rows with
    gain/loss (INR) below 0 and daily change percent below -1, sorted by
    daily change percent, smallest first. *)
Theorem C9_suggestions (df : list summary_row) :
  let out := generate_suggestions df in
  let total := series_sum (column Daily_Change_INR df) in
  (VolatileMarketCaution ∈ out <-> flt total (Fin (-1000)) = true)
  /\ (StablePositiveNotice ∈ out <-> flt total (Fin (-1000)) = false)
  /\ (exists l,
        l ≡ₚ List.filter (fun r => fgt (Gain_Loss_INR r) (Fin 50000)
                                   && fgt (Daily_Change_pct r) (Fin 2)) df
        /\ StronglySorted
             (fun a b => fle (Daily_Change_pct b) (Daily_Change_pct a) = true) l
        /\ book_profit_rows out = take 3 l)
  /\ (exists l,
        l ≡ₚ List.filter (fun r => flt (Gain_Loss_INR r) (Fin 0)
                                   && flt (Daily_Change_pct r) (Fin (-1))) df
        /\ StronglySorted
             (fun a b => fle (Daily_Change_pct a) (Daily_Change_pct b) = true) l
        /\ buy_more_rows out = take 3 l).
Proof.
  intros out total. subst out total. split; [| split; [| split]].
  - rewrite market_line_elem by auto.
    destruct (flt _ _); split; auto; try discriminate.
    + intros _. left.
    + intros H. apply list_elem_of_singleton in H. discriminate.
  - rewrite market_line_elem by auto.
    destruct (flt _ _); split; auto; try discriminate.
    + intros H. apply elem_of_cons in H as [H | H]; [discriminate |].
      apply list_elem_of_singleton in H. discriminate.
    + intros _. left.
  - exists (profit_targets df). split; [| split].
    + apply sort_values_Permutation.
    + apply filter_sorted_desc. intros r Hr.
      apply andb_prop in Hr as [_ Hr]. eapply fgt_not_nan_l; eauto.
    + rewrite generate_suggestions_parts, !book_profit_rows_app.
      rewrite (proj1 (profit_lines_rows _)), (proj2 (buy_lines_rows _)).
      destruct (flt _ _); simpl; rewrite app_nil_r; reflexivity.
  - exists (buy_targets df). split; [| split].
    + apply sort_values_Permutation.
    + apply filter_sorted_asc. intros r Hr.
      apply andb_prop in Hr as [_ Hr]. eapply flt_not_nan_l; eauto.
    + rewrite generate_suggestions_parts, !buy_more_rows_app.
      rewrite (proj2 (profit_lines_rows _)), (proj1 (buy_lines_rows _)).
      destruct (flt _ _); simpl; reflexivity.
Qed.

(** ** fetch_historical_inr_rate *)

Lemma last_filter_max (f : Z * pyfloat -> bool) (hist : Transfers.hist_frame) row :
  StronglySorted Z.lt (map fst hist) ->
  last (List.filter f hist) = Some row ->
  row ∈ hist /\ f row = true
  /\ forall row', row' ∈ hist -> f row' = true -> (fst row' <= fst row)%Z.
Proof.
  revert row. induction hist as [| x h IH]; simpl; intros row HS Hl; [discriminate |].
  apply StronglySorted_inv in HS as [HS Hx].
  assert (Hrec : forall r, last (List.filter f h) = Some r ->
            r ∈ x :: h /\ f r = true
            /\ forall row', row' ∈ x :: h -> f row' = true -> (fst row' <= fst r)%Z).
  { intros r Hr. destruct (IH r HS Hr) as (Hin & Hf & Hmax).
    split; [right; exact Hin | split; [exact Hf |]].
    intros row' Hin' Hf'. apply elem_of_cons in Hin' as [-> | Hin']; [| auto].
    rewrite Forall_forall in Hx.
    assert (fst x < fst r)%Z; [| lia].
    apply Hx. apply list_elem_of_In, in_map, list_elem_of_In. exact Hin. }
  destruct (f x) eqn:Hfx; [| auto].
  rewrite last_cons in Hl.
  destruct (last (List.filter f h)) as [r |] eqn:Hr.
  - inversion Hl; subst. auto.
  - inversion Hl; subst. split; [left | split; [exact Hfx |]].
    intros row' Hin' Hf'. apply elem_of_cons in Hin' as [-> | Hin']; [lia |].
    apply last_None in Hr. exfalso.
    assert (Hmem : In row' (List.filter f h))
      by (apply filter_In; split; [apply list_elem_of_In; exact Hin' | exact Hf']).
    rewrite Hr in Hmem. exact Hmem.
Qed.

Lemma last_filter_none (f : Z * pyfloat -> bool) (hist : Transfers.hist_frame) :
  last (List.filter f hist) = None -> forall row, row ∈ hist -> f row = false.
Proof.
  intros Hl row Hin. apply last_None in Hl.
  destruct (f row) eqn:Hf; [| reflexivity]. exfalso.
  assert (Hmem : In row (List.filter f hist))
    by (apply filter_In; split; [apply list_elem_of_In; exact Hin | exact Hf]).
  rewrite Hl in Hmem. exact Hmem.
Qed.

Lemma loc_Some d (hist : Transfers.hist_frame) c :
  Transfers.loc d hist = Some c -> (d, c) ∈ hist.
Proof.
  unfold Transfers.loc. destruct (List.find _ hist) as [[d' c'] |] eqn:E;
    simpl; intros H; [| discriminate].
  inversion H; subst. apply find_some in E as [Hin Hd].
  simpl in Hd. apply Z.eqb_eq in Hd. subst. apply list_elem_of_In. exact Hin.
Qed.

Lemma loc_None d (hist : Transfers.hist_frame) :
  Transfers.loc d hist = None -> forall row, row ∈ hist -> fst row <> d.
Proof.
  unfold Transfers.loc. destruct (List.find _ hist) eqn:E; simpl; [discriminate |].
  intros _ row Hin Hd.
  pose proof (find_none _ _ E row (proj1 (list_elem_of_In _ _) Hin)) as Hf.
  simpl in Hf. apply Z.eqb_neq in Hf. contradiction.
Qed.

Lemma last_filter_elem (f : Z * pyfloat -> bool) (hist : Transfers.hist_frame) row :
  last (List.filter f hist) = Some row -> row ∈ hist.
Proof.
  intros Hl. apply last_Some in Hl as [l' Hl'].
  assert (Hmem : In row (List.filter f hist))
    by (rewrite Hl'; apply in_or_app; right; left; reflexivity).
  apply filter_In in Hmem as [Hmem _]. apply list_elem_of_In. exact Hmem.
Qed.

Lemma py_round_finite (x : pyfloat) (ndigits : nat) :
  is_finite x -> is_finite (py_round x ndigits).
Proof. destruct x; simpl; tauto. Qed.

Section fetch_properties.
Variable strptime : string -> response Z.
Variable history : nat -> Z -> Z -> response Transfers.hist_frame.

Abbreviation try_fetch := (Transfers.try_fetch strptime history).
Abbreviation attempts := (Transfers.attempts strptime history).
Abbreviation fetch_historical_inr_rate :=
  (Transfers.fetch_historical_inr_rate strptime history).

Lemma try_fetch_cases date_str attempt :
  (exists rate, fst (try_fetch date_str attempt) = Return rate)
  \/ (exists e, fst (try_fetch date_str attempt) = Raise (Exc e)).
Proof.
  unfold Transfers.try_fetch.
  destruct (strptime date_str) as [d | e]; simpl; [| eauto].
  destruct (history attempt _ _) as [[| first hist] | e]; simpl; eauto.
  destruct (Transfers.loc d (first :: hist)); eauto.
  destruct (last _); eauto.
Qed.

Lemma try_fetch_fails date_str attempt :
  attempt_fails strptime history date_str attempt ->
  exists e, fst (try_fetch date_str attempt) = Raise (Exc e).
Proof.
  unfold attempt_fails, Transfers.try_fetch.
  destruct (strptime date_str) as [d | e]; simpl; [| eauto].
  destruct (history attempt _ _) as [[| first hist] | e]; simpl; eauto.
  tauto.
Qed.

Lemma attempts_cons_fails date_str attempt todo :
  attempt_fails strptime history date_str attempt ->
  fst (attempts date_str (attempt :: todo)) = fst (attempts date_str todo).
Proof.
  intros H. apply try_fetch_fails in H as [e He]. simpl.
  destruct (try_fetch date_str attempt) as [r evs]. simpl in He. subst r.
  destruct (attempts date_str todo). reflexivity.
Qed.

Lemma attempts_cons_returns date_str attempt todo rate :
  fst (try_fetch date_str attempt) = Return rate ->
  fst (attempts date_str (attempt :: todo)) = Return rate.
Proof.
  intros H. simpl.
  destruct (try_fetch date_str attempt) as [r evs]. simpl in H. subst r.
  reflexivity.
Qed.

Lemma attempts_total date_str todo :
  exists rate, fst (attempts date_str todo) = Return rate.
Proof.
  induction todo as [| a todo [rate IH]]; [simpl; eauto |].
  destruct (try_fetch_cases date_str a) as [[r Hr] | [e He]].
  - exists r. apply attempts_cons_returns. exact Hr.
  - exists rate. simpl.
    destruct (try_fetch date_str a) as [r evs]. simpl in He. subst r.
    destruct (attempts date_str todo). exact IH.
Qed.

Lemma attempts_all_fail date_str todo :
  Forall (attempt_fails strptime history date_str) todo ->
  fst (attempts date_str todo) = Return (Fin 83).
Proof.
  induction 1 as [| a todo Ha _ IH]; [reflexivity |].
  rewrite attempts_cons_fails by exact Ha. exact IH.
Qed.

(** The rate of an attempt is the rounding of a close of its frame, so it
    is a number when every close of the frame is one. *)
Lemma try_fetch_finite date_str attempt rate :
  (forall d hist row,
     strptime date_str = Answer d ->
     history attempt (d - 5)%Z (d + 1)%Z = Answer hist ->
     row ∈ hist -> is_finite (snd row)) ->
  fst (try_fetch date_str attempt) = Return rate -> is_finite rate.
Proof.
  intros Hfin. unfold Transfers.try_fetch.
  destruct (strptime date_str) as [d | e] eqn:Hd; [| simpl; discriminate].
  destruct (history attempt (d - 5)%Z (d + 1)%Z) as [[| first rest] | e] eqn:Hh;
    [simpl; discriminate | | simpl; discriminate].
  pose proof (fun row => Hfin d (first :: rest) row eq_refl Hh) as Hall.
  clear Hfin Hh. cbv beta iota zeta. cbn [fst].
  assert (Hfirst : first ∈ first :: rest) by left.
  revert Hall Hfirst. generalize (first :: rest). intros hist Hall Hfirst.
  destruct (Transfers.loc d hist) as [c |] eqn:Hloc.
  { intros H. inversion H; subst rate. apply py_round_finite.
    apply (Hall (d, c)). apply loc_Some. exact Hloc. }
  destruct (last _) as [row |] eqn:Hlast.
  - intros H. inversion H; subst rate. apply py_round_finite.
    apply (Hall row). eapply last_filter_elem. exact Hlast.
  - intros H. inversion H; subst rate. apply py_round_finite.
    apply (Hall first). exact Hfirst.
Qed.

Lemma attempts_finite date_str todo rate :
  (forall attempt d hist row,
     attempt ∈ todo -> strptime date_str = Answer d ->
     history attempt (d - 5)%Z (d + 1)%Z = Answer hist ->
     row ∈ hist -> is_finite (snd row)) ->
  fst (attempts date_str todo) = Return rate -> is_finite rate.
Proof.
  induction todo as [| a todo IH]; intros Hfin.
  - simpl. intros H. inversion H; subst rate. exact I.
  - destruct (try_fetch_cases date_str a) as [[r Hr] | [e He]].
    + rewrite (attempts_cons_returns _ _ _ _ Hr).
      intros H. inversion H; subst rate.
      apply (try_fetch_finite date_str a); [| exact Hr].
      intros d hist row. apply Hfin. left.
    + assert (E : fst (attempts date_str (a :: todo)) = fst (attempts date_str todo)).
      { simpl. destruct (try_fetch date_str a) as [r evs]. simpl in He. subst r.
        destruct (attempts date_str todo). reflexivity. }
      rewrite E. apply IH.
      intros attempt d hist row Hin. apply Hfin. right. exact Hin.
Qed.

(** C3, amended: the rate fetch never raises, whatever the date string
    and whatever the provider does; when all three attempts fail it
    returns the fallback 83.0; and what it returns is a number when every
    close of the frames the provider returns for the window of the date
    is a number.  A close that is missing or infinite is not replaced by
    the fallback. *)
Theorem C3_fallback_and_total (date_str : string) :
  (exists rate, fst (fetch_historical_inr_rate date_str) = Return rate)
  /\ ((forall attempt, (attempt < 3)%nat -> attempt_fails strptime history date_str attempt) ->
      fst (fetch_historical_inr_rate date_str) = Return (Fin 83))
  /\ ((forall attempt d hist row,
         (attempt < 3)%nat -> strptime date_str = Answer d ->
         history attempt (d - 5)%Z (d + 1)%Z = Answer hist ->
         row ∈ hist -> is_finite (snd row)) ->
      exists q, fst (fetch_historical_inr_rate date_str) = Return (Fin q)).
Proof.
  split; [apply attempts_total |]. split.
  - intros H. apply attempts_all_fail. simpl.
    repeat constructor; apply H; lia.
  - intros Hfin.
    destruct (attempts_total date_str (seq 0 Transfers.max_retries)) as [rate Hrate].
    assert (Hnum : is_finite rate).
    { apply (attempts_finite date_str (seq 0 Transfers.max_retries)); [| exact Hrate].
      intros attempt d hist row Hin. apply Hfin.
      apply elem_of_seq in Hin. unfold Transfers.max_retries in Hin. lia. }
    destruct rate as [q | | |]; simpl in Hnum; try tauto.
    exists q. exact Hrate.
Qed.

Lemma try_fetch_selected date_str d attempt hist :
  strptime date_str = Answer d ->
  history attempt (d - 5)%Z (d + 1)%Z = Answer hist -> hist <> [] ->
  StronglySorted Z.lt (map fst hist) ->
  exists close,
    fst (try_fetch date_str attempt) = Return (py_round close 4)
    /\ selected_close d hist close.
Proof.
  intros Hd Hh Hne HS. unfold Transfers.try_fetch. rewrite Hd, Hh.
  destruct hist as [| first rest]; [congruence |]. cbv beta iota zeta.
  assert (Hfirst : first ∈ first :: rest) by left.
  assert (Hmin : forall row, row ∈ first :: rest -> (fst first <= fst row)%Z).
  { intros row Hin. apply elem_of_cons in Hin as [-> | Hin]; [lia |].
    simpl in HS. apply StronglySorted_inv in HS as [_ Hlt].
    rewrite Forall_forall in Hlt.
    assert (fst first < fst row)%Z; [| lia].
    apply Hlt. apply list_elem_of_In, in_map, list_elem_of_In. exact Hin. }
  revert Hfirst Hmin HS. generalize (first :: rest). intros hist Hfirst Hmin HS.
  cbn [fst].
  destruct (Transfers.loc d hist) as [c |] eqn:Hloc.
  { exists c. split; [reflexivity |]. left. apply loc_Some. exact Hloc. }
  pose proof (loc_None _ _ Hloc) as Hno.
  destruct (last _) as [row |] eqn:Hlast.
  - destruct (last_filter_max _ _ _ HS Hlast) as (Hin & Hle & Hmax).
    exists (snd row). split; [reflexivity |]. right. left. split; [exact Hno |].
    exists (fst row). apply Z.leb_le in Hle. split; [| split].
    + destruct row. exact Hin.
    + specialize (Hno row Hin). lia.
    + intros row' Hin' Hle'. apply Hmax; [exact Hin' |]. apply Z.leb_le. exact Hle'.
  - pose proof (last_filter_none _ _ Hlast) as Hall.
    exists (snd first). split; [reflexivity |]. right. right. split.
    + intros row Hin. specialize (Hall row Hin). simpl in Hall.
      apply Z.leb_gt in Hall. exact Hall.
    + exists (fst first). split; [destruct first; exact Hfirst | exact Hmin].
Qed.

Lemma try_fetch_window date_str d attempt :
  strptime date_str = Answer d ->
  Forall (in_window d) (snd (try_fetch date_str attempt)).
Proof.
  intros Hd. unfold Transfers.try_fetch. rewrite Hd. simpl.
  constructor; [left; reflexivity | constructor].
Qed.

Lemma attempts_window date_str d todo :
  strptime date_str = Answer d ->
  Forall (in_window d) (snd (attempts date_str todo)).
Proof.
  intros Hd. induction todo as [| a todo IH]; [constructor |].
  pose proof (try_fetch_window date_str d a Hd) as Ha. simpl.
  destruct (try_fetch date_str a) as [[rate | [e | code]] evs]; simpl in *; auto.
  destruct (attempts date_str todo) as [r evs']. simpl in *.
  rewrite !Forall_app. split; [exact Ha | split; [| exact IH]].
  destruct (a <? 2)%nat; [| constructor].
  constructor; [right; eauto | constructor].
Qed.

(** C2, amended: when the date parses and, after earlier attempts that
    failed, an attempt gets a non-empty frame whose dates increase, the
    rate is that frame's selected close rounded to 4 decimal places: the
    close at the query date if the frame has it, else the close at the
    latest earlier date if there is one, else the close at the earliest
    date.  Each call asks for the window from 5 days before the date to
    1 day after it. *)
Theorem C2_rate_selection (date_str : string) (d : Z) (k : nat)
    (hist : Transfers.hist_frame) :
  strptime date_str = Answer d ->
  (k < 3)%nat ->
  (forall j, (j < k)%nat -> attempt_fails strptime history date_str j) ->
  history k (d - 5)%Z (d + 1)%Z = Answer hist -> hist <> [] ->
  StronglySorted Z.lt (map fst hist) ->
  (exists close,
     fst (fetch_historical_inr_rate date_str) = Return (py_round close 4)
     /\ selected_close d hist close)
  /\ Forall (in_window d) (snd (fetch_historical_inr_rate date_str)).
Proof.
  intros Hd Hk Hfail Hh Hne HS. split; [| apply attempts_window; exact Hd].
  destruct (try_fetch_selected _ _ _ _ Hd Hh Hne HS) as (close & Hc & Hsel).
  exists close. split; [| exact Hsel].
  unfold Transfers.fetch_historical_inr_rate. simpl seq.
  destruct k as [| [| [| k]]]; [| | | lia].
  - apply attempts_cons_returns. exact Hc.
  - rewrite attempts_cons_fails by (apply Hfail; lia).
    apply attempts_cons_returns. exact Hc.
  - rewrite !attempts_cons_fails by (apply Hfail; lia).
    apply attempts_cons_returns. exact Hc.
Qed.

End fetch_properties.

(** C2, as stated, fails: the frame has a close of 83.12345678 at the
    query date, and the rate returned is 83.1235, not that close. *)
Lemma C2_exact_close_is_rounded :
  (19737%Z, Fin (8312345678 # 100000000)) ∈ c2_monday_frame
  /\ fst (Transfers.fetch_historical_inr_rate example_strptime c2_monday_history
            "2024-01-15")
     = Return (py_round (Fin (8312345678 # 100000000)) 4)
  /\ feq (py_round (Fin (8312345678 # 100000000)) 4) (Fin (831235 # 10000))
  /\ ~ feq (py_round (Fin (8312345678 # 100000000)) 4)
           (Fin (8312345678 # 100000000)).
Proof.
  split; [right; left |].
  split; [vm_compute; reflexivity |].
  split; [vm_compute; reflexivity |].
  vm_compute. discriminate.
Qed.

Lemma C2_rate_selection_witness :
  (exists close,
     fst (Transfers.fetch_historical_inr_rate example_strptime c2_weekend_history
            "2024-01-13")
     = Return (py_round close 4)
     /\ selected_close 19735 c2_weekend_frame close)
  /\ Forall (in_window 19735)
       (snd (Transfers.fetch_historical_inr_rate example_strptime c2_weekend_history
               "2024-01-13")).
Proof.
  apply (C2_rate_selection example_strptime c2_weekend_history
           "2024-01-13" 19735 1 c2_weekend_frame).
  - reflexivity.
  - lia.
  - intros j Hj. assert (j = 0)%nat as -> by lia. exact I.
  - reflexivity.
  - discriminate.
  - repeat (constructor; [| repeat (constructor; [reflexivity |]); constructor]).
    constructor.
Defined.

(** The scenario of the specification: no data for the Saturday, a close
    of 83.12 on the Friday before; the rate is 83.12, after one failed
    attempt and a sleep of one second. *)
Example weekend_rate :
  exists rate,
    Transfers.fetch_historical_inr_rate example_strptime c2_weekend_history
      "2024-01-13"
    = (Return rate,
       [Transfers.History 19730 19736; Transfers.Sleep 1;
        Transfers.History 19730 19736])
    /\ feq rate (Fin (8312 # 100)).
Proof.
  eexists. split; [vm_compute; reflexivity |]. vm_compute. reflexivity.
Qed.

(** C3, as stated, fails: the date parses and the provider answers the
    first attempt with a frame whose row for the query date has no close.
    The function returns that NaN: not a number, and not the fallback. *)
Lemma C3_nan_close_is_returned :
  example_strptime "2024-01-15" = Answer 19737%Z
  /\ (19737%Z, NaN) ∈ c3_nan_frame
  /\ fst (Transfers.fetch_historical_inr_rate example_strptime c3_nan_history
            "2024-01-15")
     = Return NaN
  /\ ~ is_finite NaN.
Proof.
  split; [reflexivity |].
  split; [right; left |].
  split; [vm_compute; reflexivity |].
  simpl. tauto.
Qed.

Lemma C3_fallback_and_total_witness :
  fst (Transfers.fetch_historical_inr_rate example_strptime c3_failing_history
         "2024-01-15")
  = Return (Fin 83)
  /\ exists q,
       fst (Transfers.fetch_historical_inr_rate example_strptime c2_monday_history
              "2024-01-15")
       = Return (Fin q).
Proof.
  split.
  - apply (proj1 (proj2 (C3_fallback_and_total example_strptime c3_failing_history
                           "2024-01-15"))).
    intros attempt _. unfold attempt_fails. simpl.
    destruct attempt; exact I.
  - apply (proj2 (proj2 (C3_fallback_and_total example_strptime c2_monday_history
                           "2024-01-15"))).
    intros attempt d hist row _ _ Hh Hrow.
    unfold c2_monday_history in Hh. inversion Hh; subst hist.
    unfold c2_monday_frame in Hrow.
    repeat (apply elem_of_cons in Hrow as [-> | Hrow]; [exact I |]).
    inversion Hrow.
Defined.

(** Three failed attempts: sleeps of 1 and 2 seconds between them, none
    after the last. *)
Example fallback_backoff :
  Transfers.fetch_historical_inr_rate example_strptime c3_failing_history
    "2024-01-15"
  = (Return (Fin 83),
     [Transfers.History 19732 19738; Transfers.Sleep 1;
      Transfers.History 19732 19738; Transfers.Sleep 2;
      Transfers.History 19732 19738]).
Proof. vm_compute. reflexivity. Qed.

(** ** Fatal input errors *)

Lemma required_col_missing (cols : list string) (required : list string) col :
  col ∈ required -> col ∉ cols ->
  forallb (fun c => bool_decide (c ∈ cols)) required = false.
Proof.
  intros Hin Hno. destruct (forallb _ required) eqn:E; [| reflexivity].
  exfalso. apply Hno.
  pose proof (proj1 (forallb_forall _ _) E col (proj1 (list_elem_of_In _ _) Hin)) as H.
  apply bool_decide_eq_true in H. exact H.
Qed.

Lemma missing_cols_spec (cols required : list string) c :
  c ∈ List.filter (fun col => negb (bool_decide (col ∈ cols))) required
  <-> c ∈ required /\ c ∉ cols.
Proof.
  rewrite list_elem_of_In, filter_In, <- list_elem_of_In, negb_true_iff,
    bool_decide_eq_false. reflexivity.
Qed.

(** C7, as stated, fails: a missing portfolio file, a portfolio CSV
    without its 'avg_cost_usd' column, a missing workbook and a workbook
    without its 'Cash Amount (in USD)' column all end the process through
    [exit()], whose exit status is 0. *)
Lemma C7_fatal_errors_exit_with_status_0 :
  fst (read_portfolio_data missing_file "portfolio.csv") = Raise (SystemExit None)
  /\ fst (read_portfolio_data (fun _ => Answer c7_portfolio_csv) "portfolio.csv")
     = Raise (SystemExit None)
  /\ fst (Transfers.load_data missing_file) = Raise (SystemExit None)
  /\ fst (Transfers.load_data (fun _ => Answer c7_workbook)) = Raise (SystemExit None)
  /\ exit_status (SystemExit None) = 0%Z.
Proof. repeat split. Qed.

(** C7, amended: on a fatal input error the process reports the error and
    ends through [exit()], with exit status 0.  A missing file is reported
    by name (and stockprice.py writes a sample file); missing columns are
    reported by Transfers.py as the list of the required columns that are
    absent, and by stockprice.py as the list of all required columns. *)
Theorem C7_fatal_input_errors :
  (forall read_csv file_path,
     (read_csv file_path = Fails FileNotFoundError ->
      read_portfolio_data read_csv file_path
      = (Raise (SystemExit None),
         [PrintFileNotFound file_path; WriteSampleFile file_path;
          PrintCreatedSample file_path]))
     /\ (forall df col,
           read_csv file_path = Answer df ->
           col ∈ required_cols -> col ∉ columns df ->
           read_portfolio_data read_csv file_path
           = (Raise (SystemExit None),
              [PrintErrorReadingCSV (ValueError
                 "CSV must contain columns: ['ticker', 'shares_held', 'avg_cost_usd']")])))
  /\ (forall read_excel,
        (read_excel Transfers.file_path = Fails FileNotFoundError ->
         Transfers.load_data read_excel
         = (Raise (SystemExit None),
            [Transfers.PrintAttempting Transfers.file_path;
             Transfers.PrintFileNotFound Transfers.file_path]))
        /\ (forall df col,
              read_excel Transfers.file_path = Answer df ->
              col ∈ Transfers.required_cols -> col ∉ Transfers.columns df ->
              exists missing_cols,
                Transfers.load_data read_excel
                = (Raise (SystemExit None),
                   [Transfers.PrintAttempting Transfers.file_path;
                    Transfers.PrintLoaded (Transfers.nrows df);
                    Transfers.PrintMissingColumns missing_cols;
                    Transfers.PrintAvailableColumns (Transfers.columns df)])
                /\ forall c, c ∈ missing_cols
                     <-> c ∈ Transfers.required_cols /\ c ∉ Transfers.columns df))
  /\ exit_status (SystemExit None) = 0%Z.
Proof.
  split; [| split; [| reflexivity]].
  - intros read_csv file_path. split.
    + intros H. unfold read_portfolio_data, read_portfolio_try. rewrite H. reflexivity.
    + intros df col H Hin Hno. unfold read_portfolio_data, read_portfolio_try.
      rewrite H, (required_col_missing _ _ _ Hin Hno). reflexivity.
  - intros read_excel. split.
    + intros H. unfold Transfers.load_data, Transfers.load_try. rewrite H. reflexivity.
    + intros df col H Hin Hno.
      exists (List.filter (fun c => negb (bool_decide (c ∈ Transfers.columns df)))
                Transfers.required_cols).
      split; [| intros c; apply missing_cols_spec].
      unfold Transfers.load_data, Transfers.load_try. rewrite H.
      destruct (List.filter _ Transfers.required_cols) as [| m ms] eqn:E; [| reflexivity].
      exfalso. assert (Hc : col ∈ ([] : list string)); [| inversion Hc].
      rewrite <- E. apply missing_cols_spec. auto.
Qed.

Lemma C7_fatal_input_errors_witness :
  read_portfolio_data (fun _ => Answer c7_portfolio_csv) "portfolio.csv"
  = (Raise (SystemExit None),
     [PrintErrorReadingCSV (ValueError
        "CSV must contain columns: ['ticker', 'shares_held', 'avg_cost_usd']")])
  /\ Transfers.load_data missing_file
     = (Raise (SystemExit None),
        [Transfers.PrintAttempting Transfers.file_path;
         Transfers.PrintFileNotFound Transfers.file_path]).
Proof.
  destruct C7_fatal_input_errors as (Hs & Ht & _). split.
  - apply (proj2 (Hs (fun _ => Answer c7_portfolio_csv) "portfolio.csv"%string)
             c7_portfolio_csv "avg_cost_usd"%string).
    + reflexivity.
    + right. right. left.
    + rewrite list_elem_of_In. simpl. intros [H | [H | []]]; discriminate.
  - apply (proj1 (Ht missing_file)). reflexivity.
Defined.

(** ** fetch_stock_data: the batch retry loop *)

(** More fuel than [MAX_RETRIES] changes nothing. *)
Lemma batch_loop_fuel download batch fuel retry_count st :
  (MAX_RETRIES <= fuel + retry_count)%nat ->
  batch_loop (S fuel) download batch retry_count st
  = batch_loop fuel download batch retry_count st.
Proof.
  revert retry_count st. induction fuel as [| fuel IH]; intros rc st Hle.
  - simpl in *. destruct (rc <? MAX_RETRIES)%nat eqn:E; [| reflexivity].
    apply Nat.ltb_lt in E. lia.
  - change (batch_loop (S (S fuel)) download batch rc st)
      with (if (rc <? MAX_RETRIES)%nat then
              match try_batch download batch rc (log (Download batch) st) with
              | Answer st2 => st2
              | Fails _ =>
                  if (S rc <? MAX_RETRIES)%nat
                  then batch_loop (S fuel) download batch (S rc)
                         (log (Sleep RETRY_DELAY) (log (Download batch) st))
                  else batch_loop (S fuel) download batch (S rc)
                         (mark_failed batch (log (Download batch) st))
              end
            else st).
    rewrite !IH by lia. reflexivity.
Qed.

(** C5, as stated, fails: an empty response is not retried.  The batch is
    marked failed after the one call, although the next call would have
    been answered with data. *)
Lemma C5_empty_response_not_retried :
  fetch_batch c5_download c5_batch initial_state
  = {| stock_data := ∅;
       failed_tickers := c5_batch;
       events := [Download c5_batch] |}
  /\ stock_data (process_multi c5_batch c5_good_frame initial_state) !! "AAPL"%string
     = Some {| current_price_usd := Fin 180; prev_close_usd := Fin 178 |}.
Proof. split; vm_compute; reflexivity. Qed.

(** C5, amended: the combined request of a batch is repeated, with a sleep
    of [RETRY_DELAY] seconds in between, only when an attempt raises an
    exception, and at most [MAX_RETRIES] = 3 attempts are made; after three
    raising attempts the whole batch is marked failed.  The first attempt
    that does not raise ends the loop with whatever it recorded; an empty
    response or one without 'Close' data is such an attempt, and marks the
    whole batch failed at once, without a retry. *)
Theorem C5_batch_retry (download : nat -> response download_frame)
    (batch : list string) (st : fetch_state) :
  (forall k st',
     (k < MAX_RETRIES)%nat ->
     (forall j s, (j < k)%nat -> exists e, try_batch download batch j s = Fails e) ->
     try_batch download batch k (attempts_logged batch k st) = Answer st' ->
     fetch_batch download batch st = st')
  /\ ((forall j s, (j < MAX_RETRIES)%nat ->
         exists e, try_batch download batch j s = Fails e) ->
      fetch_batch download batch st
      = mark_failed batch (attempts_logged batch 2 st))
  /\ (forall data,
        download 0%nat = Answer data ->
        empty data = true \/ close data = NoClose ->
        fetch_batch download batch st
        = mark_failed batch (log (Download batch) st)).
Proof.
  assert (Hi : forall k st',
     (k < MAX_RETRIES)%nat ->
     (forall j s, (j < k)%nat -> exists e, try_batch download batch j s = Fails e) ->
     try_batch download batch k (attempts_logged batch k st) = Answer st' ->
     fetch_batch download batch st = st').
  { intros k st' Hk Hfail Hok. unfold fetch_batch, MAX_RETRIES in *.
    destruct k as [| [| [| k]]]; [| | | lia]; simpl in Hok; simpl.
    - rewrite Hok. reflexivity.
    - destruct (Hfail 0%nat (log (Download batch) st)) as [e ->]; [lia |].
      rewrite Hok. reflexivity.
    - destruct (Hfail 0%nat (log (Download batch) st)) as [e ->]; [lia |].
      destruct (Hfail 1%nat (log (Download batch)
                  (log (Sleep RETRY_DELAY) (log (Download batch) st)))) as [e' ->];
        [lia |].
      rewrite Hok. reflexivity. }
  split; [exact Hi | split].
  - intros Hfail. unfold fetch_batch, MAX_RETRIES in *. simpl.
    destruct (Hfail 0%nat (log (Download batch) st)) as [e0 ->]; [lia |].
    destruct (Hfail 1%nat (log (Download batch)
                (log (Sleep RETRY_DELAY) (log (Download batch) st)))) as [e1 ->];
      [lia |].
    destruct (Hfail 2%nat (log (Download batch) (log (Sleep RETRY_DELAY)
                (log (Download batch)
                   (log (Sleep RETRY_DELAY) (log (Download batch) st))))))
      as [e2 ->]; [lia |].
    reflexivity.
  - intros data Hd Hbad. apply (Hi 0%nat); [unfold MAX_RETRIES; lia | intros; lia |].
    simpl. unfold try_batch. rewrite Hd.
    assert (Hm : process_multi batch data (log (Download batch) st)
                 = mark_failed batch (log (Download batch) st)).
    { unfold process_multi. destruct Hbad as [-> | ->]; simpl;
        rewrite ?andb_false_r; reflexivity. }
    destruct batch as [| t [| t' batch']]; [rewrite Hm; reflexivity | | rewrite Hm; reflexivity].
    unfold process_single. destruct Hbad as [-> | Hc]; [reflexivity |].
    rewrite Hc. destruct (empty data); reflexivity.
Qed.

Lemma C5_batch_retry_witness :
  fetch_batch c5_raising_download c5_batch initial_state
  = {| stock_data := ∅;
       failed_tickers := c5_batch;
       events := [Download c5_batch; Sleep RETRY_DELAY; Download c5_batch;
                  Sleep RETRY_DELAY; Download c5_batch] |}.
Proof.
  apply (proj1 (proj2 (C5_batch_retry c5_raising_download c5_batch initial_state))).
  intros j s _. exists OtherError. reflexivity.
Defined.

(** ** fetch_stock_data: missing observations *)

Lemma iloc_neg_elem {A} (s : list A) k x : iloc_neg s k = Some x -> x ∈ s.
Proof.
  unfold iloc_neg. destruct (length s <? k)%nat; [discriminate |].
  intros H. apply list_elem_of_lookup. eauto.
Qed.

Lemma dropna_not_nan s x : x ∈ dropna s -> is_nan x = false.
Proof.
  unfold dropna. rewrite list_elem_of_In, filter_In, negb_true_iff. tauto.
Qed.

(** A quote taken from a series after [dropna] has no missing price. *)
Lemma last_two_dropna s q :
  last_two (dropna s) = Answer q ->
  is_nan (current_price_usd q) = false /\ is_nan (prev_close_usd q) = false.
Proof.
  unfold last_two.
  destruct (iloc_neg (dropna s) 1) as [c |] eqn:Hc; [| discriminate].
  destruct (iloc_neg (dropna s) 2) as [p |] eqn:Hp; [| discriminate].
  intros H. inversion H; subst; simpl.
  split; eapply dropna_not_nan, iloc_neg_elem; eauto.
Qed.

(** The path for a batch of several tickers stores no missing price. *)
Lemma process_ticker_no_nan c st ticker q :
  stock_data st !! ticker = None ->
  stock_data (process_ticker c st ticker) !! ticker = Some q ->
  is_nan (current_price_usd q) = false /\ is_nan (prev_close_usd q) = false.
Proof.
  intros Hnone. unfold process_ticker.
  assert (Hfail : stock_data (mark_failed [ticker] st) !! ticker = Some q ->
            is_nan (current_price_usd q) = false /\ is_nan (prev_close_usd q) = false)
    by (simpl; congruence).
  destruct (close_series_of ticker c) as [s |]; [| exact Hfail].
  destruct (2 <=? length s)%nat; [| exact Hfail].
  destruct (2 <=? length (dropna s))%nat; [| exact Hfail].
  destruct (last_two (dropna s)) as [q' | e] eqn:Hq; [| exact Hfail].
  simpl. rewrite lookup_insert_eq. intros H. inversion H; subst.
  eapply last_two_dropna; eauto.
Qed.

(** C4 at the failing input: for the one-ticker batch the close series is
    used with its missing last entry, so the current price stored is NaN
    and the previous close is 180, the latest valid close. *)
Theorem C4_single_ticker_batch_keeps_nan :
  fetch_stock_data c4_download c4_history ["AAPL"%string] !! "AAPL"%string
  = Some {| current_price_usd := NaN; prev_close_usd := Fin 180 |}.
Proof. vm_compute. reflexivity. Qed.

(** The same series in a batch of two tickers, and in the individual
    retry, gives 180 and 178. *)
Example multi_ticker_batch_drops_nan :
  fetch_stock_data c4_multi_download c4_history ["AAPL"; "MSFT"]%string
    !! "AAPL"%string
  = Some {| current_price_usd := Fin 180; prev_close_usd := Fin 178 |}.
Proof. vm_compute. reflexivity. Qed.

Example individual_retry_drops_nan :
  fetch_stock_data no_download c4_history ["AAPL"%string] !! "AAPL"%string
  = Some {| current_price_usd := Fin 180; prev_close_usd := Fin 178 |}.
Proof. vm_compute. reflexivity. Qed.

(** ** Fuel *)

(** The loops of [fetch_stock_data] are given enough fuel: any two
    sufficient amounts give the same result. *)
Lemma individual_loop_fuel history ticker fuel fuel' retry_count st :
  (MAX_RETRIES <= fuel + retry_count)%nat ->
  (MAX_RETRIES <= fuel' + retry_count)%nat ->
  individual_loop fuel history ticker retry_count st
  = individual_loop fuel' history ticker retry_count st.
Proof.
  revert fuel' retry_count st.
  induction fuel as [| fuel IH]; intros [| fuel'] rc st H H'; simpl;
    try reflexivity.
  - destruct (rc <? MAX_RETRIES)%nat eqn:E; [| reflexivity].
    apply Nat.ltb_lt in E. simpl in H. lia.
  - destruct (rc <? MAX_RETRIES)%nat eqn:E; [| reflexivity].
    apply Nat.ltb_lt in E. simpl in H'. lia.
  - rewrite !(IH fuel' (S rc)) by lia. reflexivity.
Qed.

Lemma fetch_batches_fuel download fuel batch_no tickers st :
  (length tickers <= fuel)%nat ->
  fetch_batches (S fuel) download batch_no tickers st
  = fetch_batches fuel download batch_no tickers st.
Proof.
  revert batch_no tickers st.
  induction fuel as [| fuel IH]; intros batch_no tickers st Hle.
  - destruct tickers; [reflexivity | simpl in Hle; lia].
  - destruct tickers as [| t ts]; [reflexivity |].
    change (fetch_batches (S (S fuel)) download batch_no (t :: ts) st)
      with (fetch_batches (S fuel) download (S batch_no)
              (drop BATCH_SIZE (t :: ts))
              (match drop BATCH_SIZE (t :: ts) with
               | [] => fetch_batch (download batch_no) (take BATCH_SIZE (t :: ts)) st
               | _ => log (Sleep BATCH_DELAY)
                        (fetch_batch (download batch_no) (take BATCH_SIZE (t :: ts)) st)
               end)).
    rewrite IH; [reflexivity |].
    rewrite length_drop. simpl in *. unfold BATCH_SIZE. lia.
Qed.

(** ** A run of the suggestions *)

(** The scenario of the specification: with the same gain of 60000, the
    row up 3.0 percent is listed before the row up 2.1 percent; the row
    with a gain of 40000 is not listed.  The daily changes sum to -2300,
    so the caution is printed. *)
Example suggestions_scenario :
  generate_suggestions suggestion_table
  = [ SuggestionsTitle; VolatileMarketCaution; VolatileMarketTip;
      BookProfitTitle;
      BookProfit (suggestion_row "B" 3 60000 600);
      BookProfit (suggestion_row "A" (21 # 10) 60000 400);
      BuyMoreTitle;
      BuyMore (suggestion_row "E" (-4) (-100) (-2500));
      BuyMore (suggestion_row "D" (-3 # 2) (-500) (-900)) ].
Proof. vm_compute. reflexivity. Qed.

(** * Further properties *)

(** ** analyze_portfolio: when it returns, and what *)

Lemma analyze_row_returns row q rate :
  ~ feq (prev_close_usd q) (Fin 0) ->
  exists r, analyze_row row q rate = Return r.
Proof.
  intros Hnz. unfold analyze_row, py_truediv.
  destruct (prev_close_usd q) as [b | | |]; simpl; eauto.
  destruct (Qeq_bool_zero_cases b) as [[_ H0] | [-> _]]; simpl; eauto.
  exfalso. apply Hnz. simpl. exact H0.
Qed.

Lemma analyze_row_Ticker row q rate r :
  analyze_row row q rate = Return r -> Ticker r = ticker row.
Proof.
  unfold analyze_row. destruct (py_truediv _ _); simpl; [| discriminate].
  intros H. inversion H; subst. reflexivity.
Qed.

(** X1: analyze_portfolio returns a table exactly when no position that
    has a quote has a previous close of 0. *)
Theorem X1_analyze_portfolio_returns_iff pf md rate :
  (exists rows, analyze_portfolio pf md rate = Return rows)
  <-> (forall p q, p ∈ pf -> md !! ticker p = Some q ->
         ~ feq (prev_close_usd q) (Fin 0)).
Proof.
  induction pf as [| p0 pf IH]; simpl.
  - split; [| eauto]. intros _ p q Hin. inversion Hin.
  - destruct (md !! ticker p0) as [q0 |] eqn:Hq0.
    + split.
      * intros [rows Hrows] p q Hin Hq Hz.
        destruct (analyze_row p0 q0 rate) as [r0 |] eqn:Hr0; simpl in Hrows;
          [| discriminate].
        destruct (analyze_portfolio pf md rate) as [rs |] eqn:Hrs; simpl in Hrows;
          [| discriminate].
        apply elem_of_cons in Hin as [-> | Hin].
        -- rewrite Hq in Hq0. inversion Hq0; subst.
           rewrite (analyze_row_zero_prev_close _ _ _ Hz) in Hr0. discriminate.
        -- apply (proj1 IH (ex_intro _ rs eq_refl) p q Hin Hq Hz).
      * intros Hall.
        destruct (analyze_row_returns p0 q0 rate) as [r0 ->].
        { apply (Hall p0 q0); [left | exact Hq0]. }
        destruct (proj2 IH) as [rs ->].
        { intros p q Hin. apply Hall. right. exact Hin. }
        simpl. eauto.
    + rewrite IH. split.
      * intros Hall p q Hin Hq. apply elem_of_cons in Hin as [-> | Hin];
          [congruence | eauto].
      * intros Hall p q Hin. apply Hall. right. exact Hin.
Qed.

(** X2: the table has one row for each position that has a quote, in the
    order of the portfolio; positions without a quote are left out. *)
Theorem X2_rows_follow_quoted_positions pf md rate rows :
  analyze_portfolio pf md rate = Return rows ->
  map Ticker rows = map ticker (isin_market_data md pf)
  /\ map Shares rows = map shares_held (isin_market_data md pf)
  /\ map Avg_Cost_USD rows = map avg_cost_usd (isin_market_data md pf).
Proof.
  revert rows. induction pf as [| p pf IH]; simpl; intros rows Hrows.
  - inversion Hrows; subst. auto.
  - unfold isin_market_data in *. simpl.
    destruct (md !! ticker p) as [q |] eqn:Hq.
    + rewrite bool_decide_eq_true_2 by eauto.
      unfold analyze_row in Hrows.
      destruct (py_truediv _ _); simpl in Hrows; [| discriminate].
      destruct (analyze_portfolio pf md rate) as [rs |]; simpl in Hrows;
        [| discriminate].
      inversion Hrows; subst. destruct (IH rs eq_refl) as (H1 & H2 & H3).
      simpl. rewrite H1, H2, H3. auto.
    + rewrite bool_decide_eq_false_2 by (intros [? ?]; discriminate). auto.
Qed.

Lemma X2_rows_follow_quoted_positions_witness :
  map Ticker x2_table = map ticker (isin_market_data c8_market_data x2_portfolio).
Proof.
  refine (proj1 (X2_rows_follow_quoted_positions x2_portfolio c8_market_data
                   USD_TO_INR x2_table _)).
  vm_compute. reflexivity.
Defined.

(** X3: the filter of main is not needed by analyze_portfolio, which
    skips the positions without a quote itself: with or without the
    filter the result is the same. *)
Theorem X3_isin_filter_redundant pf md rate :
  analyze_portfolio (isin_market_data md pf) md rate
  = analyze_portfolio pf md rate.
Proof.
  induction pf as [| p pf IH]; [reflexivity |].
  unfold isin_market_data in *. simpl.
  destruct (md !! ticker p) as [q |] eqn:Hq.
  - rewrite bool_decide_eq_true_2 by eauto. simpl. rewrite Hq, IH. reflexivity.
  - rewrite bool_decide_eq_false_2 by (intros [? ?]; discriminate). exact IH.
Qed.

(** ** Totals of a table *)

Lemma series_sum_map_fsub {A} (f g : A -> pyfloat) (l : list A) :
  Forall (fun r => is_finite (f r) /\ is_finite (g r)) l ->
  exists x y,
    series_sum (map f l) = Fin x /\ series_sum (map g l) = Fin y
    /\ feq (series_sum (map (fun r => fsub (f r) (g r)) l)) (Fin (x - y)).
Proof.
  induction 1 as [| r l [Hf Hg] _ (x & y & Hx & Hy & IH)].
  - exists 0, 0. repeat split; simpl; reflexivity.
  - destruct (f r) as [a | | |] eqn:Ef; simpl in Hf; try tauto.
    destruct (g r) as [b | | |] eqn:Eg; simpl in Hg; try tauto.
    exists (a + x), (b + y). cbn [map series_sum foldr].
    fold (series_sum (map f l)). fold (series_sum (map g l)).
    fold (series_sum (map (fun r => fsub (f r) (g r)) l)).
    rewrite Ef, Eg, Hx, Hy. repeat split; try reflexivity.
    destruct (series_sum (map (fun r => fsub (f r) (g r)) l)) as [z | | |];
      simpl in IH; try tauto.
    simpl. rewrite IH. ring.
Qed.

Lemma series_sum_map_fmul {A} (f : A -> pyfloat) (c : Q) (l : list A) :
  Forall (fun r => is_finite (f r)) l ->
  exists x,
    series_sum (map f l) = Fin x
    /\ feq (series_sum (map (fun r => fmul (f r) (Fin c)) l)) (Fin (x * c)).
Proof.
  induction 1 as [| r l Hf _ (x & Hx & IH)].
  - exists 0. split; simpl; [reflexivity | ring].
  - destruct (f r) as [a | | |] eqn:Ef; simpl in Hf; try tauto.
    exists (a + x). cbn [map series_sum foldr].
    fold (series_sum (map f l)).
    fold (series_sum (map (fun r => fmul (f r) (Fin c)) l)).
    rewrite Ef, Hx. split; [reflexivity |].
    destruct (series_sum (map (fun r => fmul (f r) (Fin c)) l)) as [z | | |];
      simpl in IH; try tauto.
    simpl. rewrite IH. ring.
Qed.

Lemma analyze_row_regular p q c r :
  finite_position p -> finite_quote q ->
  analyze_row p q (Fin c) = Return r -> regular_row (Fin c) r.
Proof.
  intros [Hs Ha] [Hc Hp]. unfold analyze_row.
  destruct (py_truediv _ _); simpl; [| discriminate].
  intros H. inversion H; subst; clear H. unfold regular_row; simpl.
  destruct (shares_held p), (avg_cost_usd p), (current_price_usd q);
    simpl in *; tauto.
Qed.

(** X4: over exact arithmetic (every double taken as the number it stands
    for, no operation rounded and none overflowing), for finite prices,
    share counts, costs and exchange rate, the totals of the returned
    table are consistent: the total gain/loss is the total current value
    minus the total investment, and each INR total is the USD total times
    the exchange rate.  On doubles the same identities hold up to the
    rounding of the sums and products, and a product that overflows
    makes a total infinite or NaN. *)
Theorem X4_totals_consistent pf (md : gmap string quote) c rows :
  Forall finite_position pf ->
  (forall t q, md !! t = Some q -> finite_quote q) ->
  analyze_portfolio pf md (Fin c) = Return rows ->
  exists inv cv,
    total_investment_usd (calculate_totals rows) = Fin inv
    /\ total_current_value_usd (calculate_totals rows) = Fin cv
    /\ feq (total_gain_loss_usd (calculate_totals rows)) (Fin (cv - inv))
    /\ feq (total_investment_inr (calculate_totals rows)) (Fin (inv * c))
    /\ feq (total_current_value_inr (calculate_totals rows)) (Fin (cv * c))
    /\ feq (total_gain_loss_inr (calculate_totals rows)) (Fin ((cv - inv) * c)).
Proof.
  intros Hpf Hmd Hrows.
  assert (Hreg : Forall (regular_row (Fin c)) rows).
  { apply Forall_forall. intros r Hr.
    destruct (analyze_portfolio_rows _ _ _ _ _ Hrows Hr) as (p & q & Hp & Hq & Hrow).
    rewrite Forall_forall in Hpf. eapply analyze_row_regular; eauto. }
  assert (Hcol : forall (f g : summary_row -> pyfloat) (l : list summary_row),
            Forall (fun r => f r = g r) l -> column f l = map g l).
  { intros f g l0 H. unfold column.
    induction H as [| r l Hr _ IH]; simpl; [reflexivity |].
    rewrite Hr, IH. reflexivity. }
  simpl.
  rewrite (Hcol Gain_Loss_USD
             (fun r => fsub (Current_Value_USD r) (Investment_USD r)))
    by (eapply Forall_impl; [exact Hreg | unfold regular_row; tauto]).
  rewrite (Hcol Investment_INR (fun r => fmul (Investment_USD r) (Fin c)))
    by (eapply Forall_impl; [exact Hreg | unfold regular_row; tauto]).
  rewrite (Hcol Current_Value_INR (fun r => fmul (Current_Value_USD r) (Fin c)))
    by (eapply Forall_impl; [exact Hreg | unfold regular_row; tauto]).
  rewrite (Hcol Gain_Loss_INR
             (fun r => fmul (fsub (Current_Value_USD r) (Investment_USD r)) (Fin c)))
    by (eapply Forall_impl; [exact Hreg | unfold regular_row; tauto]).
  destruct (series_sum_map_fsub Current_Value_USD Investment_USD rows)
    as (cv & inv & Hcv & Hinv & Hgl).
  { eapply Forall_impl; [exact Hreg | unfold regular_row; tauto]. }
  destruct (series_sum_map_fmul Investment_USD c rows) as (inv' & Hinv' & Hii).
  { eapply Forall_impl; [exact Hreg | unfold regular_row; tauto]. }
  destruct (series_sum_map_fmul Current_Value_USD c rows) as (cv' & Hcv' & Hci).
  { eapply Forall_impl; [exact Hreg | unfold regular_row; tauto]. }
  destruct (series_sum_map_fmul
              (fun r => fsub (Current_Value_USD r) (Investment_USD r)) c rows)
    as (gl & Hgl' & Hgi).
  { eapply Forall_impl; [exact Hreg |]. unfold regular_row.
    intros r (H1 & H2 & _).
    destruct (Current_Value_USD r), (Investment_USD r); simpl in *; tauto. }
  unfold column. rewrite Hinv, Hcv in *.
  inversion Hinv'; subst inv'. inversion Hcv'; subst cv'.
  exists inv, cv. repeat split; auto.
  rewrite Hgl' in Hgl. simpl in Hgl.
  eapply feq_trans; [exact Hgi |]. simpl. rewrite Hgl. reflexivity.
Qed.

Lemma X4_totals_consistent_witness :
  exists inv cv,
    total_investment_usd (calculate_totals c8_table) = Fin inv
    /\ total_current_value_usd (calculate_totals c8_table) = Fin cv
    /\ feq (total_gain_loss_usd (calculate_totals c8_table)) (Fin (cv - inv))
    /\ feq (total_investment_inr (calculate_totals c8_table))
           (Fin (inv * (8857 # 100)))
    /\ feq (total_current_value_inr (calculate_totals c8_table))
           (Fin (cv * (8857 # 100)))
    /\ feq (total_gain_loss_inr (calculate_totals c8_table))
           (Fin ((cv - inv) * (8857 # 100))).
Proof.
  apply (X4_totals_consistent c1_portfolio c8_market_data (8857 # 100) c8_table).
  - repeat constructor.
  - intros t q Hq. unfold c8_market_data in Hq.
    apply lookup_insert_Some in Hq as [[_ <-] | [_ Hq]]; [split; exact I |].
    apply lookup_singleton_Some in Hq as [_ <-]. split; exact I.
  - vm_compute. reflexivity.
Defined.
(** ** The details sheet and its percentages *)

Lemma key_le_desc_nan_last x y :
  key_le false x y = true -> desc_nan_last x y.
Proof.
  unfold key_le, desc_nan_last, fle. rewrite (fcmp_antisym x y).
  destruct (fcmp x y) as [[| |] |]; simpl; auto; discriminate.
Qed.

Lemma fle_not_nan_l x y : fle x y = true -> is_nan x = false.
Proof. destruct x, y; unfold fle; simpl; congruence. Qed.

Lemma desc_nan_last_trans x y z :
  desc_nan_last x y -> desc_nan_last y z -> desc_nan_last x z.
Proof.
  unfold desc_nan_last. intros Hxy [Hz | Hzy]; [auto |].
  pose proof (fle_not_nan_l _ _ Hzy) as Hz.
  assert (Hy : is_nan y = false) by (destruct y, z; unfold fle in Hzy; simpl in *; congruence).
  destruct Hxy as [Hy' | Hyx]; [congruence |].
  right. eapply fle_trans; eauto.
Qed.

(** X5: the report carries the totals of the table, and its details sheet
    lists every position of the table exactly once, with its two
    percentages, by decreasing current value in INR and with the
    positions whose current value is missing last. *)
Theorem X5_details_sheet (df : list summary_row) :
  fst (create_excel_report df) = calculate_totals df
  /\ snd (create_excel_report df) ≡ₚ add_percentages df
  /\ map summary (snd (create_excel_report df)) ≡ₚ df
  /\ StronglySorted
       (fun a b => desc_nan_last (Current_Value_INR (summary a))
                                 (Current_Value_INR (summary b)))
       (snd (create_excel_report df)).
Proof.
  unfold create_excel_report. simpl.
  pose proof (sort_values_Permutation
                (fun d => Current_Value_INR (summary d)) false
                (add_percentages df)) as Hperm.
  split; [reflexivity | split; [exact Hperm | split]].
  - rewrite Hperm. unfold add_percentages. rewrite map_map. simpl.
    rewrite map_id. reflexivity.
  - apply Sorted_StronglySorted.
    { intros a b c. apply desc_nan_last_trans. }
    eapply (Sorted_weaken _ _ (fun _ => True)).
    + intros a b _ _ Hab. apply key_le_desc_nan_last, Is_true_true. exact Hab.
    + apply Forall_forall. auto.
    + apply sort_values_Sorted.
Qed.

Lemma fdiv_zero_not_finite x t :
  t == 0 -> ~ is_finite (fmul (fdiv x (Fin t)) (Fin 100)).
Proof.
  intros Ht. apply Qeq_bool_iff in Ht.
  destruct x as [a | | |]; simpl; rewrite ?Ht; simpl; auto.
  destruct (a ?= 0); simpl; auto.
Qed.

(** X6: the two percentage columns are not guarded against a zero total.
    When the total current value in INR is 0, no '% of Total Value' is a
    finite number (each is NaN or an infinity); likewise for the total
    investment and '% of Total Investment'. *)
Theorem X6_zero_total_percentages (df : list summary_row) :
  (forall t, total_current_value_inr (calculate_totals df) = Fin t -> t == 0 ->
     forall d, d ∈ add_percentages df -> ~ is_finite (pct_of_Total_Value d))
  /\ (forall t, total_investment_inr (calculate_totals df) = Fin t -> t == 0 ->
        forall d, d ∈ add_percentages df -> ~ is_finite (pct_of_Total_Investment d)).
Proof.
  split; intros t Ht H0 d Hd; unfold add_percentages in Hd;
    apply list_elem_of_fmap in Hd as (r & -> & _);
    cbn [pct_of_Total_Value pct_of_Total_Investment]; rewrite Ht;
    apply fdiv_zero_not_finite; exact H0.
Qed.

Lemma X6_zero_total_percentages_witness :
  Forall (fun d => ~ is_finite (pct_of_Total_Value d)) (add_percentages c6_flat_table).
Proof.
  apply Forall_forall.
  apply (proj1 (X6_zero_total_percentages c6_flat_table) (0 * (8857 # 100))).
  - vm_compute. reflexivity.
  - vm_compute. reflexivity.
Defined.

(** An entry of a column of non-negative numbers is at most the sum. *)
Lemma entry_le_series_sum (s : list pyfloat) (t : Q) :
  series_sum s = Fin t ->
  Forall (fun x => exists a, x = Fin a /\ 0 <= a) s ->
  0 <= t /\ forall a, Fin a ∈ s -> a <= t.
Proof.
  revert t. induction s as [| x s IH]; intros t Hs Hnn.
  - simpl in Hs. inversion Hs; subst. split; [apply Qle_refl |].
    intros a Ha. inversion Ha.
  - destruct (series_sum_cons_Fin _ _ _ Hs) as (b & t' & Hb & Ht' & ->).
    inversion Hnn as [| ? ? (a0 & -> & Ha0) Hnn']; subst.
    simpl in Hb. inversion Hb; subst b.
    destruct (IH t' Ht' Hnn') as [Hpos Hle]. split.
    + lra.
    + intros a Ha. apply elem_of_cons in Ha as [Ha | Ha].
      * inversion Ha; subst. lra.
      * specialize (Hle a Ha). lra.
Qed.

Lemma ratio_bounds (a v : Q) :
  0 <= a -> a <= v -> 0 < v -> 0 <= a / v * 100 /\ a / v * 100 <= 100.
Proof.
  intros Ha Hav Hv. split.
  - apply Qmult_le_0_compat; [| discriminate].
    apply Qle_shift_div_l; [exact Hv |]. rewrite Qmult_0_l. exact Ha.
  - apply Qle_trans with (1 * 100); [| discriminate].
    apply Qmult_le_compat_r; [| discriminate].
    apply Qle_shift_div_r; [exact Hv |]. rewrite Qmult_1_l. exact Hav.
Qed.

(** X7: when every current value in INR is a non-negative number and
    their total is positive, every '% of Total Value' is a number between
    0 and 100. *)
Theorem X7_percentage_bounds (df : list summary_row) (v : Q) :
  total_current_value_inr (calculate_totals df) = Fin v -> 0 < v ->
  Forall (fun r => exists a, Current_Value_INR r = Fin a /\ 0 <= a) df ->
  forall d, d ∈ add_percentages df ->
    exists p, pct_of_Total_Value d = Fin p /\ 0 <= p /\ p <= 100.
Proof.
  intros Hv Hpos Hnn d Hd.
  unfold add_percentages in Hd. apply list_elem_of_fmap in Hd as (r & -> & Hr).
  cbn [pct_of_Total_Value]. rewrite Hv.
  rewrite Forall_forall in Hnn. destruct (Hnn r Hr) as (a & Ha & Ha0).
  assert (Hle : a <= v).
  { apply (proj2 (entry_le_series_sum (column Current_Value_INR df) v Hv
                    ltac:(unfold column; apply Forall_fmap, Forall_forall; exact Hnn))).
    rewrite <- Ha. unfold column. apply list_elem_of_fmap. eauto. }
  rewrite Ha. simpl.
  destruct (Qeq_bool_zero_cases v) as [[_ H0] | [-> _]].
  - exfalso. exact (Q_pos_neq0 _ Hpos H0).
  - exists (a / v * 100). split; [reflexivity |]. apply ratio_bounds; assumption.
Qed.

Lemma X7_percentage_bounds_witness :
  Forall (fun d => exists p, pct_of_Total_Value d = Fin p /\ 0 <= p /\ p <= 100)
    (add_percentages c8_table).
Proof.
  apply Forall_forall.
  apply (X7_percentage_bounds c8_table c8_value).
  - vm_compute. reflexivity.
  - vm_compute. reflexivity.
  - repeat constructor; eexists; (split; [reflexivity | vm_compute; discriminate]).
Defined.
(** ** What the suggestions list *)

Lemma book_profit_rows_generate df :
  book_profit_rows (generate_suggestions df) = take 3 (profit_targets df).
Proof.
  rewrite generate_suggestions_parts, !book_profit_rows_app.
  rewrite (proj1 (profit_lines_rows _)), (proj2 (buy_lines_rows _)).
  destruct (flt _ _); simpl; rewrite app_nil_r; reflexivity.
Qed.

Lemma buy_more_rows_generate df :
  buy_more_rows (generate_suggestions df) = take 3 (buy_targets df).
Proof.
  rewrite generate_suggestions_parts, !buy_more_rows_app.
  rewrite (proj2 (profit_lines_rows _)), (proj1 (buy_lines_rows _)).
  destruct (flt _ _); simpl; reflexivity.
Qed.

Lemma profit_targets_elem df r :
  r ∈ profit_targets df <-> r ∈ df /\ book_profit_condition r = true.
Proof.
  unfold profit_targets.
  rewrite (sort_values_Permutation Daily_Change_pct false).
  rewrite list_elem_of_In, filter_In, <- list_elem_of_In. reflexivity.
Qed.

Lemma buy_targets_elem df r :
  r ∈ buy_targets df <-> r ∈ df /\ buy_more_condition r = true.
Proof.
  unfold buy_targets.
  rewrite (sort_values_Permutation Daily_Change_pct true).
  rewrite list_elem_of_In, filter_In, <- list_elem_of_In. reflexivity.
Qed.

Lemma conditions_exclusive r :
  book_profit_condition r = true -> buy_more_condition r = false.
Proof.
  unfold book_profit_condition, buy_more_condition.
  intros H. apply andb_prop in H as [Hg _]. apply andb_false_iff. left.
  destruct (Gain_Loss_INR r) as [g | | |]; try reflexivity;
    try (unfold fgt, flt in Hg; simpl in Hg; discriminate).
  apply fgt_Fin in Hg. destruct (flt (Fin g) (Fin 0)) eqn:E; [| reflexivity].
  apply flt_Fin in E. lra.
Qed.

Lemma nonempty_iff_elem {A} (l : list A) : l <> [] <-> exists x, x ∈ l.
Proof.
  destruct l as [| x l]; split.
  - congruence.
  - intros [x Hx]. inversion Hx.
  - intros _. exists x. left.
  - discriminate.
Qed.

Lemma BookProfitTitle_elem df :
  BookProfitTitle ∈ generate_suggestions df <-> profit_targets df <> [].
Proof.
  rewrite generate_suggestions_parts, !elem_of_app. split.
  - intros [H | [H | [H | H]]].
    + apply list_elem_of_singleton in H. discriminate.
    + destruct (flt _ _); repeat (apply elem_of_cons in H as [H | H];
        [discriminate |]); inversion H.
    + destruct (profit_targets df); [inversion H | discriminate].
    + apply buy_lines_elem in H as [H | [r H]]; discriminate.
  - intros H. right. right. left.
    destruct (profit_targets df); [congruence | left].
Qed.

Lemma BuyMoreTitle_elem df :
  BuyMoreTitle ∈ generate_suggestions df <-> buy_targets df <> [].
Proof.
  rewrite generate_suggestions_parts, !elem_of_app. split.
  - intros [H | [H | [H | H]]].
    + apply list_elem_of_singleton in H. discriminate.
    + destruct (flt _ _); repeat (apply elem_of_cons in H as [H | H];
        [discriminate |]); inversion H.
    + apply profit_lines_elem in H as [H | [r H]]; discriminate.
    + destruct (buy_targets df); [inversion H | discriminate].
  - intros H. right. right. right.
    destruct (buy_targets df); [congruence | left].
Qed.

(** X8: each of the two lists names at most three rows, all of them rows
    of the table that meet the list's condition; no row is named in both
    lists; and the title of a list is printed exactly when some row of the
    table meets its condition. *)
Theorem X8_suggestion_lists (df : list summary_row) :
  (length (book_profit_rows (generate_suggestions df)) <= 3)%nat
  /\ (length (buy_more_rows (generate_suggestions df)) <= 3)%nat
  /\ (forall r, r ∈ book_profit_rows (generate_suggestions df) ->
        r ∈ df /\ book_profit_condition r = true)
  /\ (forall r, r ∈ buy_more_rows (generate_suggestions df) ->
        r ∈ df /\ buy_more_condition r = true)
  /\ (forall r, r ∈ book_profit_rows (generate_suggestions df) ->
        r ∉ buy_more_rows (generate_suggestions df))
  /\ (BookProfitTitle ∈ generate_suggestions df
      <-> exists r, r ∈ df /\ book_profit_condition r = true)
  /\ (BuyMoreTitle ∈ generate_suggestions df
      <-> exists r, r ∈ df /\ buy_more_condition r = true).
Proof.
  rewrite book_profit_rows_generate, buy_more_rows_generate.
  assert (Hb : forall r, r ∈ take 3 (profit_targets df) ->
                 r ∈ df /\ book_profit_condition r = true).
  { intros r Hr. apply profit_targets_elem. exact (subseteq_take 3 _ r Hr). }
  assert (Hm : forall r, r ∈ take 3 (buy_targets df) ->
                 r ∈ df /\ buy_more_condition r = true).
  { intros r Hr. apply buy_targets_elem. exact (subseteq_take 3 _ r Hr). }
  split; [rewrite length_take; lia |].
  split; [rewrite length_take; lia |].
  split; [exact Hb |]. split; [exact Hm |]. split; [| split].
  - intros r Hr Hr'. destruct (Hb r Hr) as [_ H1]. destruct (Hm r Hr') as [_ H2].
    rewrite (conditions_exclusive r H1) in H2. discriminate.
  - rewrite BookProfitTitle_elem, nonempty_iff_elem.
    split; intros [r Hr]; exists r; apply profit_targets_elem; exact Hr.
  - rewrite BuyMoreTitle_elem, nonempty_iff_elem.
    split; intros [r Hr]; exists r; apply buy_targets_elem; exact Hr.
Qed.

(** ** fetch_stock_data: the individual retry *)

(** One turn of the loop of the individual retry. *)
Lemma individual_loop_step history ticker fuel retry_count st :
  (retry_count < MAX_RETRIES)%nat ->
  individual_loop (S fuel) history ticker retry_count st
  = match individual_quote (history retry_count) with
    | Some q => unmark_failed ticker (put ticker q (log (History ticker) st))
    | None =>
        if (S retry_count <? MAX_RETRIES)%nat
        then individual_loop fuel history ticker (S retry_count)
               (log (Sleep RETRY_DELAY) (log (History ticker) st))
        else individual_loop fuel history ticker (S retry_count)
               (log (History ticker) st)
    end.
Proof.
  intros Hlt. apply Nat.ltb_lt in Hlt. cbn [individual_loop]. rewrite Hlt.
  unfold individual_quote.
  destruct (history retry_count) as [hist | e]; [| reflexivity].
  destruct (h_empty hist); [reflexivity |].
  destruct (h_close hist) as [col |]; [| reflexivity].
  destruct (2 <=? length (dropna col))%nat; [| reflexivity].
  destruct (last_two (dropna col)); reflexivity.
Qed.

(** X9: the individual retry of a ticker makes at most three calls, with
    a sleep of [RETRY_DELAY] seconds between them, and counts as a failed
    attempt an exception as well as an empty frame, a frame without
    'Close' and fewer than two valid closes.  The first attempt with a
    quote stores it and takes the ticker off the failed list; after three
    attempts without one, the quotes and the failed list are as
    before. *)
Theorem X9_individual_retry (history : nat -> response history_frame)
    (ticker : string) (st : fetch_state) :
  (forall k q,
     (k < MAX_RETRIES)%nat ->
     (forall j, (j < k)%nat -> individual_quote (history j) = None) ->
     individual_quote (history k) = Some q ->
     individual_loop MAX_RETRIES history ticker 0 st
     = unmark_failed ticker (put ticker q (history_logged ticker k st)))
  /\ ((forall j, (j < MAX_RETRIES)%nat -> individual_quote (history j) = None) ->
      individual_loop MAX_RETRIES history ticker 0 st
      = history_logged ticker 2 st).
Proof.
  unfold MAX_RETRIES. split.
  - intros k q Hk Hnone Hq.
    destruct k as [| [| [| k]]]; [| | | lia].
    + rewrite individual_loop_step, Hq by (unfold MAX_RETRIES; lia). reflexivity.
    + rewrite individual_loop_step, (Hnone 0%nat) by (unfold MAX_RETRIES; lia).
      simpl Nat.ltb. cbv iota.
      rewrite individual_loop_step, Hq by (unfold MAX_RETRIES; lia). reflexivity.
    + rewrite individual_loop_step, (Hnone 0%nat) by (unfold MAX_RETRIES; lia).
      simpl Nat.ltb. cbv iota.
      rewrite individual_loop_step, (Hnone 1%nat) by (unfold MAX_RETRIES; lia).
      simpl Nat.ltb. cbv iota.
      rewrite individual_loop_step, Hq by (unfold MAX_RETRIES; lia). reflexivity.
  - intros Hnone.
    rewrite individual_loop_step, (Hnone 0%nat) by (unfold MAX_RETRIES; lia).
    simpl Nat.ltb. cbv iota.
    rewrite individual_loop_step, (Hnone 1%nat) by (unfold MAX_RETRIES; lia).
    simpl Nat.ltb. cbv iota.
    rewrite individual_loop_step, (Hnone 2%nat) by (unfold MAX_RETRIES; lia).
    reflexivity.
Qed.

Lemma X9_individual_retry_witness :
  individual_loop MAX_RETRIES x10_history "AAPL" 0 x10_state
  = {| stock_data :=
         {[ "AAPL"%string :=
              {| current_price_usd := Fin 180; prev_close_usd := Fin 178 |} ]};
       failed_tickers := ["MSFT"%string];
       events := [History "AAPL"; Sleep RETRY_DELAY; History "AAPL";
                  Sleep RETRY_DELAY; History "AAPL"] |}.
Proof.
  rewrite (proj1 (X9_individual_retry x10_history "AAPL" x10_state) 2%nat
             {| current_price_usd := Fin 180; prev_close_usd := Fin 178 |}).
  - reflexivity.
  - unfold MAX_RETRIES. lia.
  - intros j Hj. destruct j as [| [| j]]; [reflexivity | reflexivity | lia].
  - reflexivity.
Defined.

(** The two ways the individual retry of a ticker can end. *)
Lemma individual_loop_cases history ticker st :
  (exists k q, (k < MAX_RETRIES)%nat /\ individual_quote (history k) = Some q
     /\ individual_loop MAX_RETRIES history ticker 0 st
        = unmark_failed ticker (put ticker q (history_logged ticker k st)))
  \/ individual_loop MAX_RETRIES history ticker 0 st = history_logged ticker 2 st.
Proof.
  unfold MAX_RETRIES.
  rewrite individual_loop_step by (unfold MAX_RETRIES; lia).
  destruct (individual_quote (history 0%nat)) as [q0 |] eqn:E0.
  { left. exists 0%nat, q0. repeat split; [lia | exact E0]. }
  simpl Nat.ltb. cbv iota.
  rewrite individual_loop_step by (unfold MAX_RETRIES; lia).
  destruct (individual_quote (history 1%nat)) as [q1 |] eqn:E1.
  { left. exists 1%nat, q1. repeat split; [lia | exact E1]. }
  simpl Nat.ltb. cbv iota.
  rewrite individual_loop_step by (unfold MAX_RETRIES; lia).
  destruct (individual_quote (history 2%nat)) as [q2 |] eqn:E2.
  { left. exists 2%nat, q2. repeat split; [lia | exact E2]. }
  right. reflexivity.
Qed.
(** ** fetch_stock_data: what the whole function keeps *)

(** The two ways the attempts for a batch can end. *)
Lemma fetch_batch_cases download batch st :
  (exists k st', (k < MAX_RETRIES)%nat
     /\ try_batch download batch k (attempts_logged batch k st) = Answer st'
     /\ fetch_batch download batch st = st')
  \/ fetch_batch download batch st = mark_failed batch (attempts_logged batch 2 st).
Proof.
  unfold fetch_batch, MAX_RETRIES. simpl.
  destruct (try_batch download batch 0 _) as [s0 | e0] eqn:E0.
  { left. exists 0%nat, s0. repeat split; [lia | exact E0]. }
  destruct (try_batch download batch 1 _) as [s1 | e1] eqn:E1.
  { left. exists 1%nat, s1. repeat split; [lia | exact E1]. }
  destruct (try_batch download batch 2 _) as [s2 | e2] eqn:E2.
  { left. exists 2%nat, s2. repeat split; [lia | exact E2]. }
  right. reflexivity.
Qed.

Lemma individual_quote_valid r q :
  individual_quote r = Some q -> exists s, last_two (dropna s) = Answer q.
Proof.
  unfold individual_quote. destruct r as [hist | e]; [| discriminate].
  destruct (h_empty hist); [discriminate |].
  destruct (h_close hist) as [col |]; [| discriminate].
  destruct (2 <=? length (dropna col))%nat; [| discriminate].
  destruct (last_two (dropna col)) as [q' |] eqn:E; [| discriminate].
  intros H. inversion H; subst. eauto.
Qed.

Lemma elem_of_take_drop {A} (n : nat) (l : list A) x :
  x ∈ l <-> x ∈ take n l \/ x ∈ drop n l.
Proof. rewrite <- elem_of_app, take_drop. reflexivity. Qed.

(** A property of the state that every update of the function keeps is
    kept by the function.  The updates are: a call or sleep logged, a quote
    stored for a ticker (taken from a series after [dropna], or, in a
    batch of one ticker, from the raw series), tickers listed as failed,
    and a failed ticker unlisted once its quote is stored. *)
Section fetch_invariant.

Context (P : fetch_state -> Prop) (T : list string) (single_ok : Prop).

Hypothesis P_log : forall e st, P st -> P (log e st).
Hypothesis P_mark : forall ts st,
  (forall t, t ∈ ts -> t ∈ T) -> P st -> P (mark_failed ts st).
Hypothesis P_put : forall t s q st,
  t ∈ T -> last_two (dropna s) = Answer q -> P st -> P (put t q st).
Hypothesis P_put_single : forall t s q st,
  single_ok -> t ∈ T -> last_two s = Answer q -> P st -> P (put t q st).
Hypothesis P_unmark : forall t s q st,
  t ∈ T -> last_two (dropna s) = Answer q -> P st ->
  P (unmark_failed t (put t q st)).

Lemma P_mark_one t st : t ∈ T -> P st -> P (mark_failed [t] st).
Proof.
  intros Ht. apply P_mark. intros t' Ht'.
  apply list_elem_of_singleton in Ht'. subst. exact Ht.
Qed.

Lemma inv_process_ticker c st t : t ∈ T -> P st -> P (process_ticker c st t).
Proof.
  intros Ht HP. unfold process_ticker.
  destruct (close_series_of t c) as [s |]; [| apply P_mark_one; auto].
  destruct (2 <=? length s)%nat; [| apply P_mark_one; auto].
  destruct (2 <=? length (dropna s))%nat; [| apply P_mark_one; auto].
  destruct (last_two (dropna s)) as [q |] eqn:E; [| apply P_mark_one; auto].
  eapply P_put; eauto.
Qed.

Lemma inv_foldl_process_ticker c batch st :
  (forall t, t ∈ batch -> t ∈ T) -> P st -> P (foldl (process_ticker c) st batch).
Proof.
  revert st. induction batch as [| t batch IH]; intros st Hb HP; [exact HP |].
  simpl. apply IH; [intros t' Ht'; apply Hb; right; exact Ht' |].
  apply inv_process_ticker; [apply Hb; left | exact HP].
Qed.

Lemma inv_process_multi batch data st :
  (forall t, t ∈ batch -> t ∈ T) -> P st -> P (process_multi batch data st).
Proof.
  intros Hb HP. unfold process_multi.
  destruct (has_close (close data) && negb (empty data)).
  - apply inv_foldl_process_ticker; assumption.
  - apply P_mark; assumption.
Qed.

Lemma inv_process_single t data st st' :
  single_ok -> t ∈ T -> P st -> process_single t data st = Answer st' -> P st'.
Proof.
  intros Hs Ht HP. unfold process_single.
  assert (Hstore : forall s,
            match last_two s with
            | Answer q => Answer (put t q st)
            | Fails e => Fails e
            end = Answer st' -> P st').
  { intros s. destruct (last_two s) as [q |] eqn:E; [| discriminate].
    intros H. inversion H; subst. eapply P_put_single; eauto. }
  assert (Hfail : Answer (mark_failed [t] st) = Answer st' -> P st').
  { intros H. inversion H; subst. apply P_mark_one; auto. }
  destruct (empty data); [exact Hfail |].
  destruct (close data) as [| s | cols]; [exact Hfail | |].
  - destruct (2 <=? length s)%nat; [apply Hstore | exact Hfail].
  - destruct (2 <=? number_of_rows cols)%nat; [| exact Hfail].
    destruct cols as [| [t0 s] [| c cols]]; try discriminate. apply Hstore.
Qed.

Lemma inv_try_batch download batch retry_count st st' :
  (forall t, t ∈ batch -> t ∈ T) -> (length batch = 1%nat -> single_ok) ->
  P st -> try_batch download batch retry_count st = Answer st' -> P st'.
Proof.
  intros Hb Hs HP. unfold try_batch.
  destruct (download retry_count) as [data | e]; [| discriminate].
  destruct batch as [| t [| t' batch']].
  - intros H. inversion H; subst. apply inv_process_multi; assumption.
  - apply inv_process_single; [apply Hs; reflexivity | apply Hb; left | exact HP].
  - intros H. inversion H; subst. apply inv_process_multi; assumption.
Qed.

Lemma inv_attempts_logged batch k st : P st -> P (attempts_logged batch k st).
Proof. intros HP. induction k; simpl; auto. Qed.

Lemma inv_history_logged ticker k st : P st -> P (history_logged ticker k st).
Proof. intros HP. induction k; simpl; auto. Qed.

Lemma inv_fetch_batch download batch st :
  (forall t, t ∈ batch -> t ∈ T) -> (length batch = 1%nat -> single_ok) ->
  P st -> P (fetch_batch download batch st).
Proof.
  intros Hb Hs HP.
  destruct (fetch_batch_cases download batch st) as [(k & st' & _ & Htry & ->) | ->].
  - exact (inv_try_batch download batch k _ st' Hb Hs
             (inv_attempts_logged batch k st HP) Htry).
  - apply P_mark; [exact Hb |]. apply inv_attempts_logged. exact HP.
Qed.

Lemma inv_fetch_batches fuel download batch_no tickers st :
  (forall t, t ∈ tickers -> t ∈ T) ->
  (length tickers mod BATCH_SIZE = 1%nat -> single_ok) ->
  P st -> P (fetch_batches fuel download batch_no tickers st).
Proof.
  revert batch_no tickers st.
  induction fuel as [| fuel IH]; intros batch_no tickers st Ht Hs HP;
    [destruct tickers; exact HP |].
  destruct tickers as [| t ts]; [exact HP |].
  cbn [fetch_batches].
  assert (Hbatch : P (fetch_batch (download batch_no) (take BATCH_SIZE (t :: ts)) st)).
  { apply inv_fetch_batch; [| | exact HP].
    - intros t' Ht'. apply Ht. exact (subseteq_take _ _ _ Ht').
    - intros Hlen. apply Hs. rewrite length_take in Hlen.
      unfold BATCH_SIZE in *. simpl length in *.
      assert (S (length ts) = 1)%nat as -> by lia. reflexivity. }
  apply IH.
  - intros t' Ht'. apply Ht. apply (elem_of_take_drop BATCH_SIZE). right. exact Ht'.
  - intros Hlen. apply Hs. rewrite length_drop in Hlen.
    unfold BATCH_SIZE in *.
    destruct (Nat.le_gt_cases 10 (length (t :: ts))) as [Hge | Hlt].
    + replace (length (t :: ts)) with ((length (t :: ts) - 10) + 1 * 10)%nat by lia.
      rewrite Nat.Div0.mod_add. exact Hlen.
    + replace (length (t :: ts) - 10)%nat with 0%nat in Hlen by lia.
      simpl in Hlen. discriminate.
  - destruct (drop BATCH_SIZE (t :: ts)); [exact Hbatch | apply P_log; exact Hbatch].
Qed.

Lemma inv_individual_loop history ticker st :
  ticker ∈ T -> P st -> P (individual_loop MAX_RETRIES history ticker 0 st).
Proof.
  intros Ht HP.
  destruct (individual_loop_cases history ticker st) as [(k & q & _ & Hq & ->) | ->].
  - destruct (individual_quote_valid _ _ Hq) as [s Hs].
    exact (P_unmark ticker s q _ Ht Hs (inv_history_logged ticker k st HP)).
  - apply inv_history_logged. exact HP.
Qed.

Lemma inv_retry_failed history j failed st :
  (forall t, t ∈ failed -> t ∈ T) -> P st -> P (retry_failed history j failed st).
Proof.
  revert j st. induction failed as [| t failed IH]; intros j st Hf HP; [exact HP |].
  simpl. apply IH; [intros t' Ht'; apply Hf; right; exact Ht' |].
  apply inv_individual_loop; [apply Hf; left | exact HP].
Qed.

End fetch_invariant.

Lemma remove_first_subseteq ticker l x : x ∈ remove_first ticker l -> x ∈ l.
Proof.
  induction l as [| t l IH]; simpl; [auto |].
  destruct (String.eqb t ticker).
  - intros H. right. exact H.
  - intros H. apply elem_of_cons in H as [-> | H]; [left | right; auto].
Qed.

Lemma is_Some_insert_inv (m : gmap string quote) t q t' :
  is_Some (<[t := q]> m !! t') -> t' = t \/ is_Some (m !! t').
Proof.
  destruct (decide (t = t')) as [-> | Hne]; [auto |].
  rewrite lookup_insert_ne by exact Hne. auto.
Qed.

Lemma within_log T e st : within T st -> within T (log e st).
Proof. intros H. exact H. Qed.

Lemma within_mark T ts st :
  (forall t, t ∈ ts -> t ∈ T) -> within T st -> within T (mark_failed ts st).
Proof.
  intros Hts [Hk Hf]. split; [exact Hk |]. simpl.
  intros t Ht. apply elem_of_app in Ht as [Ht | Ht]; auto.
Qed.

Lemma within_put T t q st : t ∈ T -> within T st -> within T (put t q st).
Proof.
  intros Ht [Hk Hf]. split; [| exact Hf]. simpl.
  intros t' Ht'. apply is_Some_insert_inv in Ht' as [-> | Ht']; auto.
Qed.

Lemma within_unmark T t q st :
  t ∈ T -> within T st -> within T (unmark_failed t (put t q st)).
Proof.
  intros Ht Hw. destruct (within_put T t q st Ht Hw) as [Hk Hf].
  split; [exact Hk |]. simpl in *.
  intros t' Ht'. apply Hf. eapply remove_first_subseteq. exact Ht'.
Qed.

Lemma within_initial T : within T initial_state.
Proof.
  split; simpl.
  - intros t [q Hq]. rewrite lookup_empty in Hq. discriminate.
  - intros t Ht. inversion Ht.
Qed.

Lemma within_after_batches download tickers :
  within tickers (fetch_batches (length tickers) download 0 tickers initial_state).
Proof.
  apply (inv_fetch_batches (within tickers) tickers True).
  - apply within_log.
  - apply within_mark.
  - intros t s q st Ht _. apply within_put. exact Ht.
  - intros t s q st _ Ht _. apply within_put. exact Ht.
  - auto.
  - auto.
  - apply within_initial.
Qed.

(** What every update keeps, the whole function keeps. *)
Lemma inv_fetch_stock_data (P : fetch_state -> Prop) (single_ok : Prop)
    download history tickers :
  (forall e st, P st -> P (log e st)) ->
  (forall ts st, (forall t, t ∈ ts -> t ∈ tickers) -> P st -> P (mark_failed ts st)) ->
  (forall t s q st,
     t ∈ tickers -> last_two (dropna s) = Answer q -> P st -> P (put t q st)) ->
  (forall t s q st,
     single_ok -> t ∈ tickers -> last_two s = Answer q -> P st -> P (put t q st)) ->
  (forall t s q st,
     t ∈ tickers -> last_two (dropna s) = Answer q -> P st ->
     P (unmark_failed t (put t q st))) ->
  (length tickers mod BATCH_SIZE = 1%nat -> single_ok) ->
  P initial_state ->
  P (fetch_stock_data_state download history tickers).
Proof.
  intros Hlog Hmark Hput Hsingle Hunmark Hs H0. unfold fetch_stock_data_state.
  apply (inv_retry_failed P tickers Hlog Hunmark).
  - apply (within_after_batches download tickers).
  - apply (inv_fetch_batches P tickers single_ok Hlog Hmark Hput Hsingle); auto.
Qed.

(** X10: the function invents no ticker: every key of the returned dict,
    and every ticker of the failed list it prints, is one of the tickers
    it was given. *)
Theorem X10_only_given_tickers download history tickers t :
  (is_Some (fetch_stock_data download history tickers !! t) -> t ∈ tickers)
  /\ (t ∈ failed_tickers (fetch_stock_data_state download history tickers) ->
      t ∈ tickers).
Proof.
  assert (H : within tickers (fetch_stock_data_state download history tickers)).
  { apply (inv_fetch_stock_data (within tickers) True).
    - apply within_log.
    - apply within_mark.
    - intros t0 s q st Ht _. apply within_put. exact Ht.
    - intros t0 s q st _ Ht _. apply within_put. exact Ht.
    - intros t0 s q st Ht _. apply within_unmark. exact Ht.
    - auto.
    - apply within_initial. }
  destruct H as [Hk Hf]. split; [apply Hk | apply Hf].
Qed.

(** ** fetch_stock_data: no missing price outside the one-ticker batch *)

Lemma no_missing_put t q (st : fetch_state) :
  no_missing_price q ->
  (forall t' q', stock_data st !! t' = Some q' -> no_missing_price q') ->
  forall t' q', stock_data (put t q st) !! t' = Some q' -> no_missing_price q'.
Proof.
  intros Hq Hst t' q'. simpl.
  destruct (decide (t = t')) as [-> | Hne].
  - rewrite lookup_insert_eq. intros H. inversion H; subst. exact Hq.
  - rewrite lookup_insert_ne by exact Hne. apply Hst.
Qed.

(** X11: when the number of tickers does not leave a last batch of one
    ticker (it is not 1 more than a multiple of [BATCH_SIZE]), no quote of
    the returned dict has a missing (NaN) current price or previous
    close. *)
Theorem X11_no_missing_price download history tickers t q :
  length tickers mod BATCH_SIZE <> 1%nat ->
  fetch_stock_data download history tickers !! t = Some q ->
  no_missing_price q.
Proof.
  intros Hlen. revert t q.
  apply (inv_fetch_stock_data
           (fun st => forall t q, stock_data st !! t = Some q -> no_missing_price q)
           False).
  - auto.
  - auto.
  - intros t s q st _ Hq. apply no_missing_put. eapply last_two_dropna. exact Hq.
  - tauto.
  - intros t s q st _ Hq HP. apply (no_missing_put t q st); [| exact HP].
    eapply last_two_dropna. exact Hq.
  - exact Hlen.
  - simpl. intros t q Hq. rewrite lookup_empty in Hq. discriminate.
Qed.

Lemma X11_no_missing_price_witness :
  no_missing_price {| current_price_usd := Fin 180; prev_close_usd := Fin 178 |}.
Proof.
  apply (X11_no_missing_price c4_multi_download c4_history x12_tickers "AAPL").
  - vm_compute. discriminate.
  - vm_compute. reflexivity.
Defined.
(** ** fetch_stock_data: every ticker is accounted for *)

Lemma remove_first_other ticker l x :
  x <> ticker -> x ∈ l -> x ∈ remove_first ticker l.
Proof.
  intros Hne. induction l as [| t l IH]; simpl; [auto |].
  intros H. destruct (String.eqb t ticker) eqn:E.
  - apply String.eqb_eq in E. subst t.
    apply elem_of_cons in H as [-> | H]; [congruence | exact H].
  - apply elem_of_cons in H as [-> | H]; [left | right; auto].
Qed.

Lemma covered_log t0 e st : covered st t0 -> covered (log e st) t0.
Proof. intros H. exact H. Qed.

Lemma covered_mark t0 ts st : covered st t0 -> covered (mark_failed ts st) t0.
Proof.
  intros [H | H]; [left; exact H | right]. simpl. apply elem_of_app. auto.
Qed.

Lemma covered_put t0 t q st : covered st t0 -> covered (put t q st) t0.
Proof.
  intros [H | H]; [left | right; exact H]. simpl.
  destruct (decide (t = t0)) as [-> | Hne].
  - rewrite lookup_insert_eq. eauto.
  - rewrite lookup_insert_ne by exact Hne. exact H.
Qed.

Lemma covered_put_self t q st : covered (put t q st) t.
Proof. left. simpl. rewrite lookup_insert_eq. eauto. Qed.

Lemma covered_mark_self t ts st : t ∈ ts -> covered (mark_failed ts st) t.
Proof. intros H. right. simpl. apply elem_of_app. auto. Qed.

Lemma covered_unmark t0 t q st :
  covered st t0 -> covered (unmark_failed t (put t q st)) t0.
Proof.
  intros H. destruct (decide (t0 = t)) as [-> | Hne].
  - left. simpl. rewrite lookup_insert_eq. eauto.
  - destruct (covered_put t0 t q st H) as [H' | H']; [left; exact H' | right].
    simpl in *. apply remove_first_other; assumption.
Qed.

(** Once accounted for, a ticker stays so. *)
Lemma covered_keep_foldl t0 c batch st :
  covered st t0 -> covered (foldl (process_ticker c) st batch) t0.
Proof.
  apply (inv_foldl_process_ticker (fun st => covered st t0) batch).
  - intros. apply covered_mark. assumption.
  - intros. apply covered_put. assumption.
  - auto.
Qed.

Lemma covered_keep_batches t0 fuel download batch_no tickers st :
  covered st t0 -> covered (fetch_batches fuel download batch_no tickers st) t0.
Proof.
  apply (inv_fetch_batches (fun st => covered st t0) tickers True).
  - intros. apply covered_log. assumption.
  - intros. apply covered_mark. assumption.
  - intros. apply covered_put. assumption.
  - intros. apply covered_put. assumption.
  - auto.
  - auto.
Qed.

Lemma covered_keep_retry t0 history j failed st :
  covered st t0 -> covered (retry_failed history j failed st) t0.
Proof.
  apply (inv_retry_failed (fun st => covered st t0) failed).
  - intros. apply covered_log. assumption.
  - intros. apply covered_unmark. assumption.
  - auto.
Qed.

Lemma covered_process_ticker c st t : covered (process_ticker c st t) t.
Proof.
  unfold process_ticker.
  assert (Hf : covered (mark_failed [t] st) t) by (apply covered_mark_self; left).
  destruct (close_series_of t c) as [s |]; [| exact Hf].
  destruct (2 <=? length s)%nat; [| exact Hf].
  destruct (2 <=? length (dropna s))%nat; [| exact Hf].
  destruct (last_two (dropna s)); [apply covered_put_self | exact Hf].
Qed.

Lemma covered_foldl c batch st t :
  t ∈ batch -> covered (foldl (process_ticker c) st batch) t.
Proof.
  revert st. induction batch as [| b batch IH]; intros st Ht; [inversion Ht |].
  simpl. apply elem_of_cons in Ht as [-> | Ht]; [| apply IH; exact Ht].
  apply covered_keep_foldl, covered_process_ticker.
Qed.

Lemma covered_process_multi batch data st t :
  t ∈ batch -> covered (process_multi batch data st) t.
Proof.
  intros Ht. unfold process_multi.
  destruct (has_close (close data) && negb (empty data)).
  - apply covered_foldl. exact Ht.
  - apply covered_mark_self. exact Ht.
Qed.

Lemma covered_process_single t data st st' :
  process_single t data st = Answer st' -> covered st' t.
Proof.
  unfold process_single.
  assert (Hstore : forall s,
            match last_two s with
            | Answer q => Answer (put t q st)
            | Fails e => Fails e
            end = Answer st' -> covered st' t).
  { intros s. destruct (last_two s); [| discriminate].
    intros H. inversion H; subst. apply covered_put_self. }
  assert (Hfail : Answer (mark_failed [t] st) = Answer st' -> covered st' t).
  { intros H. inversion H; subst. apply covered_mark_self. left. }
  destruct (empty data); [exact Hfail |].
  destruct (close data) as [| s | cols]; [exact Hfail | |].
  - destruct (2 <=? length s)%nat; [apply Hstore | exact Hfail].
  - destruct (2 <=? number_of_rows cols)%nat; [| exact Hfail].
    destruct cols as [| [t0 s] [| c cols]]; try discriminate. apply Hstore.
Qed.

Lemma covered_try_batch download batch retry_count st st' t :
  try_batch download batch retry_count st = Answer st' -> t ∈ batch ->
  covered st' t.
Proof.
  unfold try_batch. destruct (download retry_count) as [data | e]; [| discriminate].
  destruct batch as [| b [| b' batch']].
  - intros _ Ht. inversion Ht.
  - intros H Ht. apply list_elem_of_singleton in Ht. subst.
    eapply covered_process_single. exact H.
  - intros H Ht. inversion H; subst. apply covered_process_multi. exact Ht.
Qed.

Lemma covered_fetch_batch download batch st t :
  t ∈ batch -> covered (fetch_batch download batch st) t.
Proof.
  intros Ht.
  destruct (fetch_batch_cases download batch st) as [(k & st' & _ & Htry & ->) | ->].
  - eapply covered_try_batch; eauto.
  - apply covered_mark_self. exact Ht.
Qed.

Lemma covered_fetch_batches fuel download batch_no tickers st t :
  (length tickers <= fuel)%nat -> t ∈ tickers ->
  covered (fetch_batches fuel download batch_no tickers st) t.
Proof.
  revert batch_no tickers st.
  induction fuel as [| fuel IH]; intros batch_no tickers st Hle Ht.
  - destruct tickers; [inversion Ht | simpl in Hle; lia].
  - destruct tickers as [| t0 ts]; [inversion Ht |].
    cbn [fetch_batches].
    apply (elem_of_take_drop BATCH_SIZE) in Ht as [Ht | Ht].
    + apply covered_keep_batches.
      destruct (drop BATCH_SIZE (t0 :: ts));
        [| apply covered_log]; apply covered_fetch_batch; exact Ht.
    + apply IH; [| exact Ht].
      rewrite length_drop. simpl in *. unfold BATCH_SIZE. lia.
Qed.

(** X12: no ticker is lost: at the end every ticker the function was
    given has a quote in the returned dict or is on the failed list the
    function prints. *)
Theorem X12_every_ticker_accounted_for download history tickers t :
  t ∈ tickers ->
  is_Some (fetch_stock_data download history tickers !! t)
  \/ t ∈ failed_tickers (fetch_stock_data_state download history tickers).
Proof.
  intros Ht. change (covered (fetch_stock_data_state download history tickers) t).
  unfold fetch_stock_data_state.
  apply covered_keep_retry, covered_fetch_batches; [lia | exact Ht].
Qed.

Lemma X12_every_ticker_accounted_for_witness :
  is_Some (fetch_stock_data c4_multi_download c4_history x12_tickers !! "MSFT"%string)
  \/ "MSFT"%string
     ∈ failed_tickers (fetch_stock_data_state c4_multi_download c4_history x12_tickers).
Proof.
  apply (X12_every_ticker_accounted_for c4_multi_download c4_history x12_tickers).
  right. left.
Defined.

(** ** fetch_stock_data: the failed list is exact for distinct tickers *)

Lemma within_fresh T st t : within T st -> t ∉ T -> fresh st t.
Proof.
  intros [Hk Hf] Ht. split.
  - destruct (stock_data st !! t) eqn:E; [| reflexivity].
    exfalso. apply Ht, Hk. rewrite E. eauto.
  - intros H. apply Ht, Hf, H.
Qed.

Lemma within_mono T T' st :
  (forall t, t ∈ T -> t ∈ T') -> within T st -> within T' st.
Proof. intros Hsub [Hk Hf]. split; auto. Qed.

Lemma within_fetch_batch S download batch st :
  within S st -> within (S ++ batch) (fetch_batch download batch st).
Proof.
  intros Hw. apply (inv_fetch_batch (within (S ++ batch)) (S ++ batch) True).
  - apply within_log.
  - apply within_mark.
  - intros t s q st' Ht _. apply within_put. exact Ht.
  - intros t s q st' _ Ht _. apply within_put. exact Ht.
  - intros t Ht. apply elem_of_app. auto.
  - auto.
  - eapply within_mono; [| exact Hw]. intros t Ht. apply elem_of_app. auto.
Qed.

Lemma exact_failed_log e st : exact_failed st -> exact_failed (log e st).
Proof. intros H. exact H. Qed.

Lemma fresh_log e st t : fresh st t -> fresh (log e st) t.
Proof. intros H. exact H. Qed.

Lemma exact_failed_put t q st :
  exact_failed st -> t ∉ failed_tickers st -> exact_failed (put t q st).
Proof.
  intros [Hnd Hnone] Ht. split; [exact Hnd |]. simpl.
  intros t' Ht'. rewrite lookup_insert_ne by (intros ->; contradiction). auto.
Qed.

Lemma exact_failed_mark ts st :
  exact_failed st -> NoDup ts -> (forall t, t ∈ ts -> fresh st t) ->
  exact_failed (mark_failed ts st).
Proof.
  intros [Hnd Hnone] Hts Hfresh. split; simpl.
  - apply NoDup_app. split; [exact Hnd | split; [| exact Hts]].
    intros t Ht Ht'. destruct (Hfresh t Ht') as [_ Hn]. contradiction.
  - intros t Ht. apply elem_of_app in Ht as [Ht | Ht]; [auto |].
    apply (Hfresh t Ht).
Qed.

Lemma exact_failed_unmark t q st :
  exact_failed st -> exact_failed (unmark_failed t (put t q st)).
Proof.
  intros [Hnd Hnone]. split; simpl.
  - clear Hnone. induction Hnd as [| x l Hx Hnd IH]; simpl; [constructor |].
    destruct (String.eqb x t); [exact Hnd |].
    constructor; [| exact IH].
    intros H. apply Hx. eapply remove_first_subseteq. exact H.
  - intros t' Ht'.
    assert (Hne : t' <> t).
    { intros ->. clear Hnone. induction Hnd as [| x l Hx Hnd IH]; simpl in Ht';
        [inversion Ht' |].
      destruct (String.eqb x t) eqn:E.
      - apply String.eqb_eq in E. subst. contradiction.
      - apply elem_of_cons in Ht' as [-> | Ht']; [| auto].
        rewrite String.eqb_refl in E. discriminate. }
    rewrite lookup_insert_ne by congruence.
    apply Hnone. eapply remove_first_subseteq. exact Ht'.
Qed.

Lemma process_ticker_exact c st t :
  exact_failed st -> fresh st t -> exact_failed (process_ticker c st t).
Proof.
  intros He Hf. unfold process_ticker.
  assert (Hfail : exact_failed (mark_failed [t] st)).
  { apply exact_failed_mark; [exact He | apply NoDup_singleton |].
    intros t' Ht'. apply list_elem_of_singleton in Ht'. subst. exact Hf. }
  destruct (close_series_of t c) as [s |]; [| exact Hfail].
  destruct (2 <=? length s)%nat; [| exact Hfail].
  destruct (2 <=? length (dropna s))%nat; [| exact Hfail].
  destruct (last_two (dropna s)); [| exact Hfail].
  apply exact_failed_put; [exact He | apply Hf].
Qed.

Lemma process_ticker_fresh c st t t' :
  t' <> t -> fresh st t' -> fresh (process_ticker c st t) t'.
Proof.
  intros Hne [Hn Hf]. unfold process_ticker.
  assert (Hfail : fresh (mark_failed [t] st) t').
  { split; [exact Hn |]. simpl. intros H.
    apply elem_of_app in H as [H | H]; [contradiction |].
    apply list_elem_of_singleton in H. contradiction. }
  assert (Hput : forall q, fresh (put t q st) t').
  { intros q. split; [| exact Hf]. simpl.
    rewrite lookup_insert_ne by congruence. exact Hn. }
  destruct (close_series_of t c) as [s |]; [| exact Hfail].
  destruct (2 <=? length s)%nat; [| exact Hfail].
  destruct (2 <=? length (dropna s))%nat; [| exact Hfail].
  destruct (last_two (dropna s)); [apply Hput | exact Hfail].
Qed.

Lemma foldl_process_ticker_exact c batch st :
  NoDup batch -> (forall t, t ∈ batch -> fresh st t) -> exact_failed st ->
  exact_failed (foldl (process_ticker c) st batch).
Proof.
  intros Hnd. revert st. induction Hnd as [| b batch Hb Hnd IH]; intros st Hf He;
    [exact He |].
  simpl. apply IH.
  - intros t Ht. apply process_ticker_fresh.
    + intros ->. contradiction.
    + apply Hf. right. exact Ht.
  - apply process_ticker_exact; [exact He | apply Hf; left].
Qed.

Lemma process_single_exact t data st st' :
  exact_failed st -> fresh st t ->
  process_single t data st = Answer st' -> exact_failed st'.
Proof.
  intros He Hf. unfold process_single.
  assert (Hstore : forall s,
            match last_two s with
            | Answer q => Answer (put t q st)
            | Fails e => Fails e
            end = Answer st' -> exact_failed st').
  { intros s. destruct (last_two s); [| discriminate].
    intros H. inversion H; subst. apply exact_failed_put; [exact He | apply Hf]. }
  assert (Hfail : Answer (mark_failed [t] st) = Answer st' -> exact_failed st').
  { intros H. inversion H; subst.
    apply exact_failed_mark; [exact He | apply NoDup_singleton |].
    intros t' Ht'. apply list_elem_of_singleton in Ht'. subst. exact Hf. }
  destruct (empty data); [exact Hfail |].
  destruct (close data) as [| s | cols]; [exact Hfail | |].
  - destruct (2 <=? length s)%nat; [apply Hstore | exact Hfail].
  - destruct (2 <=? number_of_rows cols)%nat; [| exact Hfail].
    destruct cols as [| [t0 s] [| c cols]]; try discriminate. apply Hstore.
Qed.

Lemma try_batch_exact download batch retry_count st st' :
  NoDup batch -> (forall t, t ∈ batch -> fresh st t) -> exact_failed st ->
  try_batch download batch retry_count st = Answer st' -> exact_failed st'.
Proof.
  intros Hnd Hf He. unfold try_batch.
  destruct (download retry_count) as [data | e]; [| discriminate].
  assert (Hmulti : Answer (process_multi batch data st) = Answer st' ->
                   exact_failed st').
  { intros H. inversion H; subst. unfold process_multi.
    destruct (has_close (close data) && negb (empty data)).
    - apply foldl_process_ticker_exact; assumption.
    - apply exact_failed_mark; assumption. }
  destruct batch as [| b [| b' batch']]; [exact Hmulti | | exact Hmulti].
  apply process_single_exact; [exact He | apply Hf; left].
Qed.

Lemma attempts_logged_same batch k st :
  stock_data (attempts_logged batch k st) = stock_data st
  /\ failed_tickers (attempts_logged batch k st) = failed_tickers st.
Proof. induction k; simpl; auto. Qed.

Lemma fetch_batch_exact download batch st :
  NoDup batch -> (forall t, t ∈ batch -> fresh st t) -> exact_failed st ->
  exact_failed (fetch_batch download batch st).
Proof.
  intros Hnd Hf He.
  assert (Hsame : forall k,
            exact_failed (attempts_logged batch k st)
            /\ forall t, t ∈ batch -> fresh (attempts_logged batch k st) t).
  { intros k. destruct (attempts_logged_same batch k st) as [Hs Hl].
    unfold exact_failed, fresh. rewrite Hs, Hl. split; [exact He | exact Hf]. }
  destruct (fetch_batch_cases download batch st) as [(k & st' & _ & Htry & ->) | ->].
  - destruct (Hsame k) as [He' Hf']. eapply try_batch_exact; eauto.
  - destruct (Hsame 2%nat) as [He' Hf']. apply exact_failed_mark; assumption.
Qed.

Lemma fetch_batches_exact fuel download batch_no tickers S st :
  NoDup tickers -> (forall t, t ∈ tickers -> t ∉ S) ->
  within S st -> exact_failed st ->
  exact_failed (fetch_batches fuel download batch_no tickers st).
Proof.
  revert batch_no tickers S st.
  induction fuel as [| fuel IH]; intros batch_no tickers S st Hnd Hdis Hw He;
    [destruct tickers; exact He |].
  destruct tickers as [| t0 ts]; [exact He |].
  cbn [fetch_batches].
  rewrite <- (take_drop BATCH_SIZE (t0 :: ts)) in Hnd.
  apply NoDup_app in Hnd as (Hnd1 & Hdis12 & Hnd2).
  assert (Hb : exact_failed
                 (fetch_batch (download batch_no) (take BATCH_SIZE (t0 :: ts)) st)).
  { apply fetch_batch_exact; [exact Hnd1 | | exact He].
    intros t Ht. eapply within_fresh; [exact Hw |].
    apply Hdis. exact (subseteq_take _ _ _ Ht). }
  pose proof (within_fetch_batch S (download batch_no)
                (take BATCH_SIZE (t0 :: ts)) st Hw) as Hw'.
  apply (IH _ _ (S ++ take BATCH_SIZE (t0 :: ts))).
  - exact Hnd2.
  - intros t Ht Hin. apply elem_of_app in Hin as [Hin | Hin].
    + apply (Hdis t); [| exact Hin].
      apply (elem_of_take_drop BATCH_SIZE). right. exact Ht.
    + exact (Hdis12 t Hin Ht).
  - destruct (drop BATCH_SIZE (t0 :: ts)); [exact Hw' | apply within_log; exact Hw'].
  - destruct (drop BATCH_SIZE (t0 :: ts)); [exact Hb | apply exact_failed_log; exact Hb].
Qed.

(** X13: for distinct tickers the failed list is exact: it names no
    ticker twice, and a ticker on it has no quote in the returned dict.
    With X12, the tickers with a quote and the tickers of the failed list
    split the tickers given. *)
Theorem X13_failed_list_exact download history tickers :
  NoDup tickers ->
  NoDup (failed_tickers (fetch_stock_data_state download history tickers))
  /\ forall t,
       t ∈ failed_tickers (fetch_stock_data_state download history tickers) ->
       fetch_stock_data download history tickers !! t = None.
Proof.
  intros Hnd.
  change (exact_failed (fetch_stock_data_state download history tickers)).
  unfold fetch_stock_data_state.
  apply (inv_retry_failed exact_failed
           (failed_tickers
              (fetch_batches (length tickers) download 0 tickers initial_state))).
  - apply exact_failed_log.
  - intros t s q st _ _. apply exact_failed_unmark.
  - auto.
  - apply (fetch_batches_exact _ _ _ _ []).
    + exact Hnd.
    + intros t _ H. inversion H.
    + apply within_initial.
    + split; simpl; [constructor | intros t H; inversion H].
Qed.

Lemma X13_failed_list_exact_witness :
  NoDup (failed_tickers
           (fetch_stock_data_state c4_multi_download c4_history x12_tickers)).
Proof.
  apply (X13_failed_list_exact c4_multi_download c4_history x12_tickers).
  unfold x12_tickers. apply NoDup_cons. split.
  - rewrite list_elem_of_singleton. discriminate.
  - apply NoDup_singleton.
Defined.

(** ** read_portfolio_data and main *)

Lemma forallb_required (cols : list string) :
  forallb (fun c => bool_decide (c ∈ cols)) required_cols = true
  <-> forall col, col ∈ required_cols -> col ∈ cols.
Proof.
  rewrite forallb_forall. split.
  - intros H col Hc. apply (bool_decide_eq_true_1 (col ∈ cols)).
    apply H. apply list_elem_of_In. exact Hc.
  - intros H col Hc. apply bool_decide_eq_true_2.
    apply H. apply list_elem_of_In. exact Hc.
Qed.

(** X14: read_portfolio_data returns a frame exactly when the file is read
    and has all three required columns, and then it is the frame read;
    in every other case it ends through [exit()]: no exception of the
    reading escapes it. *)
Theorem X14_read_portfolio_data_outcomes
    (read_csv : string -> response portfolio_csv) (file_path : string) :
  (forall df,
     fst (read_portfolio_data read_csv file_path) = Return df
     <-> read_csv file_path = Answer df
         /\ forall col, col ∈ required_cols -> col ∈ columns df)
  /\ (forall r,
        fst (read_portfolio_data read_csv file_path) = Raise r ->
        r = SystemExit None).
Proof.
  unfold read_portfolio_data, read_portfolio_try.
  destruct (read_csv file_path) as [df0 | e].
  - destruct (forallb _ required_cols) eqn:E.
    + pose proof (proj1 (forallb_required (columns df0)) E) as Hall0. split.
      * intros df. simpl. split.
        -- intros H. inversion H; subst. auto.
        -- intros [H _]. inversion H; subst. reflexivity.
      * intros r. simpl. discriminate.
    + split.
      * intros df. simpl. split; [discriminate |].
        intros [H Hall]. inversion H; subst.
        apply forallb_required in Hall. congruence.
      * intros r. simpl. intros H. inversion H. reflexivity.
  - split.
    + intros df. split; [destruct e; simpl; discriminate | intros [H _]; discriminate].
    + intros r. destruct e; simpl; intros H; inversion H; reflexivity.
Qed.

(** How analyze_portfolio ends, and why. *)
Lemma analyze_portfolio_outcome pf md rate :
  ((exists rows, analyze_portfolio pf md rate = Return rows)
   /\ forall p q, p ∈ pf -> md !! ticker p = Some q ->
        ~ feq (prev_close_usd q) (Fin 0))
  \/ (analyze_portfolio pf md rate = Raise (Exc ZeroDivisionError)
      /\ exists p q, p ∈ pf /\ md !! ticker p = Some q
           /\ feq (prev_close_usd q) (Fin 0)).
Proof.
  induction pf as [| p pf IH]; simpl.
  - left. split; [eauto |]. intros p q Hin. inversion Hin.
  - destruct (md !! ticker p) as [q |] eqn:Hq.
    + destruct (analyze_row_cases p q rate) as [Hz | [r Hr]].
      * right. rewrite Hz. split; [reflexivity |].
        exists p, q. split; [left | split; [exact Hq |]].
        destruct (prev_close_usd q) as [b | | |] eqn:Eb; simpl;
          try (unfold analyze_row, py_truediv in Hz; rewrite Eb in Hz;
               simpl in Hz; discriminate).
        destruct (Qeq_bool_zero_cases b) as [[_ H0] | [Hb _]]; [exact H0 |].
        unfold analyze_row, py_truediv in Hz. rewrite Eb, Hb in Hz.
        simpl in Hz. discriminate.
      * rewrite Hr. simpl.
        destruct IH as [[[rows ->] Hall] | (-> & p' & q' & Hin & Hq' & Hz)]; simpl.
        -- left. split; [eauto |]. intros p1 q1 Hin Hq1 Hz.
           apply elem_of_cons in Hin as [-> | Hin];
             [| exact (Hall p1 q1 Hin Hq1 Hz)].
           rewrite Hq in Hq1. inversion Hq1; subst.
           rewrite (analyze_row_zero_prev_close _ _ _ Hz) in Hr. discriminate.
        -- right. split; [reflexivity |]. exists p', q'. split; [right |]; auto.
    + destruct IH as [[Hret Hall] | (-> & p' & q' & Hin & Hq' & Hz)].
      * left. split; [exact Hret |]. intros p1 q1 Hin Hq1.
        apply elem_of_cons in Hin as [-> | Hin];
          [congruence | exact (Hall p1 q1 Hin Hq1)].
      * right. split; [reflexivity |]. exists p', q'. split; [right |]; auto.
Qed.

Lemma isin_market_data_elem md pf p :
  p ∈ isin_market_data md pf <-> p ∈ pf /\ is_Some (md !! ticker p).
Proof.
  unfold isin_market_data.
  rewrite list_elem_of_In, filter_In, <- list_elem_of_In, bool_decide_eq_true.
  reflexivity.
Qed.

Lemma ticker_names_None df :
  (exists row, row ∈ df /\ ticker_cell row = None) -> ticker_names df = None.
Proof.
  intros (row & Hin & Hnone). induction df as [| r0 df IH]; [inversion Hin |].
  cbn [ticker_names]. apply elem_of_cons in Hin as [<- | Hin].
  - rewrite Hnone. reflexivity.
  - rewrite (IH Hin). destruct (ticker_cell r0); reflexivity.
Qed.

Lemma ticker_names_cells_of pf :
  ticker_names (map cells_of pf) = Some (map ticker pf).
Proof.
  induction pf as [| p pf IH]; [reflexivity |].
  cbn [map ticker_names cells_of ticker_cell]. rewrite IH. reflexivity.
Qed.

Lemma isin_cells_cells_of md pf :
  isin_cells md (map cells_of pf) = map cells_of (isin_market_data md pf).
Proof.
  unfold isin_cells, isin_market_data.
  induction pf as [| p pf IH]; [reflexivity |].
  cbn [map List.filter cells_of ticker_cell]. rewrite IH.
  destruct (bool_decide (is_Some (md !! ticker p))); reflexivity.
Qed.

Lemma isin_cells_elem md df row :
  row ∈ isin_cells md df
  <-> row ∈ df /\ exists name, ticker_cell row = Some name /\ is_Some (md !! name).
Proof.
  unfold isin_cells. rewrite list_elem_of_In, filter_In, <- list_elem_of_In.
  split; intros [Hin H]; (split; [exact Hin |]).
  - destruct (ticker_cell row) as [name |]; [| discriminate].
    exists name. split; [reflexivity |].
    apply (bool_decide_eq_true_1 (is_Some (md !! name))). exact H.
  - destruct H as (name & -> & Hs). apply bool_decide_eq_true_2. exact Hs.
Qed.

(** On the cells of a well-typed file the analysis is that of the typed
    rows. *)
Lemma analyze_portfolio_cells_cells_of pf md rate :
  analyze_portfolio_cells (map cells_of pf) md rate = analyze_portfolio pf md rate.
Proof.
  induction pf as [| p pf IH]; [reflexivity |].
  cbn [map analyze_portfolio_cells analyze_portfolio cells_of ticker_cell].
  rewrite IH. destruct (md !! ticker p) as [q |]; [| reflexivity].
  assert (E : analyze_cells (ticker p) (cells_of p) q rate = analyze_row p q rate)
    by (destruct p; reflexivity).
  rewrite E. reflexivity.
Qed.

Lemma analyze_cells_raises name row q rate r :
  analyze_cells name row q rate = Raise r ->
  r = Exc TypeError \/ r = Exc ZeroDivisionError.
Proof.
  unfold analyze_cells.
  assert (Htext : (do ratio <- py_truediv (fsub (current_price_usd q) (prev_close_usd q))
                                 (prev_close_usd q);
                   (Raise (Exc TypeError) : result summary_row)) = Raise r ->
                  r = Exc TypeError \/ r = Exc ZeroDivisionError).
  { unfold py_truediv.
    destruct (prev_close_usd q) as [b | | |]; [destruct (Qeq_bool b 0) | | |];
      cbn [bind]; intros H; inversion H; auto. }
  destruct (shares_cell row) as [shares | s], (avg_cost_cell row) as [avg_cost | s'];
    try exact Htext.
  destruct (analyze_row_cases
              {| ticker := name; shares_held := shares; avg_cost_usd := avg_cost |}
              q rate) as [Hz | [r' Hr]].
  - rewrite Hz. intros H. inversion H. auto.
  - rewrite Hr. discriminate.
Qed.

Lemma analyze_portfolio_cells_raises df md rate r :
  analyze_portfolio_cells df md rate = Raise r ->
  r = Exc TypeError \/ r = Exc ZeroDivisionError.
Proof.
  induction df as [| row df IH]; cbn [analyze_portfolio_cells]; [discriminate |].
  destruct (ticker_cell row) as [name |]; [| exact IH].
  destruct (md !! name) as [q |]; [| exact IH].
  destruct (analyze_cells name row q rate) as [s | r0] eqn:E; cbn [bind].
  - destruct (analyze_portfolio_cells df md rate) as [rs | r1]; cbn [bind];
      [discriminate |].
    intros H. inversion H; subst. apply IH. reflexivity.
  - intros H. inversion H; subst. eapply analyze_cells_raises. exact E.
Qed.

Lemma analyze_cells_text name row q rate :
  has_text row -> exists r, analyze_cells name row q rate = Raise r.
Proof.
  unfold has_text, analyze_cells.
  destruct (shares_cell row), (avg_cost_cell row); [tauto | | |]; intros _;
    (destruct (py_truediv _ _); cbn [bind]; eauto).
Qed.

Lemma analyze_portfolio_cells_text df md rate :
  (exists row name q,
     row ∈ df /\ ticker_cell row = Some name /\ md !! name = Some q /\ has_text row) ->
  exists r, analyze_portfolio_cells df md rate = Raise r.
Proof.
  intros (row & name & q & Hin & Hname & Hq & Htext).
  induction df as [| r0 df IH]; [inversion Hin |].
  cbn [analyze_portfolio_cells].
  apply elem_of_cons in Hin as [<- | Hin].
  - rewrite Hname, Hq.
    destruct (analyze_cells_text name row q rate Htext) as [r Hr].
    rewrite Hr. cbn [bind]. eauto.
  - destruct (IH Hin) as [r Hr]. rewrite Hr.
    destruct (ticker_cell r0) as [n0 |]; [| eauto].
    destruct (md !! n0) as [q0 |]; [| eauto].
    destruct (analyze_cells n0 r0 q0 rate); cbn [bind]; eauto.
Qed.

(** On a well-typed file, main is the typed analysis of the rows that
    have a quote. *)
Lemma main_cells_of pf download history :
  main (map cells_of pf) download history
  = match isin_market_data
            (fetch_stock_data download history (unique (map ticker pf))) pf with
    | [] => Return AnalysisHalted
    | _ :: _ =>
        do summary_df <-
          analyze_portfolio
            (isin_market_data
               (fetch_stock_data download history (unique (map ticker pf))) pf)
            (fetch_stock_data download history (unique (map ticker pf))) USD_TO_INR;
        Return (ReportWritten (generate_suggestions summary_df)
                  (create_excel_report summary_df))
    end.
Proof.
  unfold main. rewrite ticker_names_cells_of. cbv zeta.
  rewrite isin_cells_cells_of, analyze_portfolio_cells_cells_of.
  destruct (isin_market_data _ pf); reflexivity.
Qed.

Lemma main_cells_of_outcomes pf download history :
  let md := fetch_stock_data download history (unique (map ticker pf)) in
  let run := main (map cells_of pf) download history in
  (run = Raise (Exc ZeroDivisionError)
   <-> exists p q, p ∈ pf /\ md !! ticker p = Some q
         /\ feq (prev_close_usd q) (Fin 0))
  /\ (forall r, run = Raise r -> r = Exc ZeroDivisionError)
  /\ (forall suggestions report,
        run = Return (ReportWritten suggestions report) ->
        exists summary_df,
          analyze_portfolio (isin_market_data md pf) md USD_TO_INR = Return summary_df
          /\ summary_df <> []
          /\ suggestions = generate_suggestions summary_df
          /\ report = create_excel_report summary_df).
Proof.
  intros md run. subst run. rewrite main_cells_of. fold md.
  destruct (isin_market_data md pf) as [| p0 pf'] eqn:Hisin.
  - (* no row has a quote *)
    assert (Hnone : forall p, p ∈ pf -> md !! ticker p = None).
    { intros p Hp. destruct (md !! ticker p) eqn:E; [| reflexivity].
      assert (Hin : p ∈ isin_market_data md pf)
        by (apply isin_market_data_elem; rewrite E; eauto).
      rewrite Hisin in Hin. inversion Hin. }
    split; [| split; [discriminate | discriminate]].
    split; [discriminate |].
    intros (p & q & Hp & Hq & _). rewrite (Hnone p Hp) in Hq. discriminate.
  - assert (Hp0 : p0 ∈ pf /\ is_Some (md !! ticker p0)).
    { apply isin_market_data_elem. rewrite Hisin. left. }
    assert (Hzero : (exists p q, p ∈ p0 :: pf'
                       /\ md !! ticker p = Some q /\ feq (prev_close_usd q) (Fin 0))
                    <-> exists p q, p ∈ pf /\ md !! ticker p = Some q
                          /\ feq (prev_close_usd q) (Fin 0)).
    { rewrite <- Hisin.
      split; intros (p & q & Hp & Hq & Hz); exists p, q; repeat split; auto.
      - apply isin_market_data_elem in Hp. tauto.
      - apply isin_market_data_elem. rewrite Hq. eauto. }
    destruct (analyze_portfolio_outcome (p0 :: pf') md USD_TO_INR)
      as [[[rows Hrows] Hnz] | [Hraise Hex]].
    + rewrite Hrows. cbn [bind]. split; [| split].
      * split; [discriminate |]. intros Hex. apply Hzero in Hex.
        destruct Hex as (p & q & Hp & Hq & Hz). exfalso. exact (Hnz p q Hp Hq Hz).
      * discriminate.
      * intros s rep H. inversion H; subst. exists rows.
        repeat split; auto. intros ->.
        cbn [analyze_portfolio] in Hrows.
        destruct Hp0 as [_ [q0 Hq0]]. rewrite Hq0 in Hrows.
        destruct (analyze_row p0 q0 USD_TO_INR); cbn [bind] in Hrows; [| discriminate].
        destruct (analyze_portfolio pf' md USD_TO_INR); cbn [bind] in Hrows;
          discriminate.
    + rewrite Hraise. cbn [bind]. split; [| split].
      * split; [intros _; apply Hzero; exact Hex | reflexivity].
      * intros r H. inversion H. reflexivity.
      * discriminate.
Qed.

(** X15: lines 453-472 of main, on the frame line 451 returned.  A ticker
    cell that is not a string (a blank cell) makes the run raise TypeError
    before anything is analysed.  No run raises anything but TypeError or
    ZeroDivisionError (writing the workbook is taken to succeed, and
    memory to suffice).  With string tickers, the run halts without a
    report exactly when no row has a fetched quote, and it raises when a
    row that has a quote has text in its shares or cost cell.  On a
    well-typed file it raises exactly when the quote fetched for some row
    has a previous close of 0, and then ZeroDivisionError; otherwise, when
    it does not halt, it prints the suggestions and writes the report for
    the non-empty table of the rows that have a quote. *)
Theorem X15_main_outcomes (portfolio_df : list csv_row)
    (download : nat -> nat -> response download_frame)
    (history : nat -> nat -> response history_frame) :
  let run := main portfolio_df download history in
  ((exists row, row ∈ portfolio_df /\ ticker_cell row = None) ->
   run = Raise (Exc TypeError))
  /\ (forall r, run = Raise r -> r = Exc TypeError \/ r = Exc ZeroDivisionError)
  /\ (forall names, ticker_names portfolio_df = Some names ->
      let md := fetch_stock_data download history (unique names) in
      (run = Return AnalysisHalted
       <-> forall row name,
             row ∈ portfolio_df -> ticker_cell row = Some name -> md !! name = None)
      /\ ((exists row name q,
             row ∈ portfolio_df /\ ticker_cell row = Some name
             /\ md !! name = Some q /\ has_text row) ->
          exists r, run = Raise r))
  /\ (forall pf, portfolio_df = map cells_of pf ->
      let md := fetch_stock_data download history (unique (map ticker pf)) in
      (run = Raise (Exc ZeroDivisionError)
       <-> exists p q, p ∈ pf /\ md !! ticker p = Some q
             /\ feq (prev_close_usd q) (Fin 0))
      /\ (forall r, run = Raise r -> r = Exc ZeroDivisionError)
      /\ (forall suggestions report,
            run = Return (ReportWritten suggestions report) ->
            exists summary_df,
              analyze_portfolio (isin_market_data md pf) md USD_TO_INR
                = Return summary_df
              /\ summary_df <> []
              /\ suggestions = generate_suggestions summary_df
              /\ report = create_excel_report summary_df)).
Proof.
  intros run. subst run. split; [| split; [| split]].
  - intros Hex. unfold main. rewrite (ticker_names_None _ Hex). reflexivity.
  - intros r. unfold main.
    destruct (ticker_names portfolio_df) as [names |];
      [| intros H; inversion H; auto].
    cbv zeta. destruct (isin_cells _ portfolio_df) as [| r0 l]; [discriminate |].
    destruct (analyze_portfolio_cells (r0 :: l) _ USD_TO_INR) as [s | r1] eqn:E;
      cbn [bind]; [discriminate |].
    intros H. inversion H; subst. eapply analyze_portfolio_cells_raises. exact E.
  - intros names Hnames md. unfold main. rewrite Hnames. cbv zeta. fold md. split.
    + destruct (isin_cells md portfolio_df) as [| r0 l] eqn:Hisin.
      * split; [| reflexivity]. intros _ row name Hin Hname.
        destruct (md !! name) eqn:Hq; [| reflexivity].
        assert (Hrow : row ∈ isin_cells md portfolio_df).
        { apply isin_cells_elem. split; [exact Hin |].
          exists name. rewrite Hq. eauto. }
        rewrite Hisin in Hrow. inversion Hrow.
      * split.
        -- destruct (analyze_portfolio_cells (r0 :: l) md USD_TO_INR); cbn [bind];
             discriminate.
        -- intros Hnone. exfalso.
           assert (Hrow : r0 ∈ isin_cells md portfolio_df) by (rewrite Hisin; left).
           apply isin_cells_elem in Hrow as (Hin & name & Hname & [q Hq]).
           rewrite (Hnone _ _ Hin Hname) in Hq. discriminate.
    + intros (row & name & q & Hin & Hname & Hq & Htext).
      assert (Hrow : row ∈ isin_cells md portfolio_df).
      { apply isin_cells_elem. split; [exact Hin |].
        exists name. rewrite Hq. eauto. }
      destruct (analyze_portfolio_cells_text (isin_cells md portfolio_df) md USD_TO_INR)
        as [r Hr].
      { exists row, name, q. auto. }
      destruct (isin_cells md portfolio_df) as [| r0 l] eqn:Hisin; [inversion Hrow |].
      rewrite Hr. cbn [bind]. eauto.
  - intros pf ->. apply main_cells_of_outcomes.
Qed.

Lemma X15_main_outcomes_witness :
  main (map cells_of (rows x14_csv)) x15_download no_history
  = Raise (Exc ZeroDivisionError)
  /\ main x15_blank_rows x15_download no_history = Raise (Exc TypeError)
  /\ exists r, main x15_text_rows x15_download no_history = Raise r.
Proof.
  split; [| split].
  - apply (proj1 (proj2 (proj2 (proj2
             (X15_main_outcomes (map cells_of (rows x14_csv)) x15_download no_history)))
             (rows x14_csv) eq_refl)).
    exists {| ticker := "AAPL"; shares_held := Fin 10; avg_cost_usd := Fin 175 |},
           {| current_price_usd := Fin 180; prev_close_usd := Fin 0 |}.
    split; [right; left |]. split; [vm_compute; reflexivity | simpl; reflexivity].
  - apply (proj1 (X15_main_outcomes x15_blank_rows x15_download no_history)).
    eexists. split; [right; left | reflexivity].
  - apply (proj2 (proj1 (proj2 (proj2
             (X15_main_outcomes x15_text_rows x15_download no_history)))
             ["MSFT"; "AAPL"]%string eq_refl)).
    exists {| ticker_cell := Some "AAPL"%string;
              shares_cell := Text "ten";
              avg_cost_cell := Number (Fin 175) |},
           "AAPL"%string,
           {| current_price_usd := Fin 180; prev_close_usd := Fin 0 |}.
    split; [right; left |]. split; [reflexivity |].
    split; [vm_compute; reflexivity | exact I].
Defined.

(** ** fetch_historical_inr_rate: effort, provenance and rounding *)

Section fetch_more.
Variable strptime : string -> response Z.
Variable history : nat -> Z -> Z -> response Transfers.hist_frame.

Lemma try_fetch_provenance date_str attempt rate :
  fst (Transfers.try_fetch strptime history date_str attempt) = Return rate ->
  exists d hist date c,
    strptime date_str = Answer d
    /\ history attempt (d - 5)%Z (d + 1)%Z = Answer hist
    /\ (date, c) ∈ hist /\ rate = py_round c 4.
Proof.
  unfold Transfers.try_fetch.
  destruct (strptime date_str) as [d | e]; [| simpl; discriminate].
  cbv beta iota zeta.
  destruct (history attempt (d - 5)%Z (d + 1)%Z) as [hist | e] eqn:Hh;
    [| simpl; discriminate].
  destruct hist as [| first rest]; [simpl; discriminate |].
  assert (Hfirst : first ∈ first :: rest) by left.
  revert Hfirst. set (hist := first :: rest) in *. intros Hfirst. cbn [fst].
  destruct (Transfers.loc d hist) as [c |] eqn:Hloc.
  - intros H. inversion H; subst rate. apply loc_Some in Hloc.
    exists d, hist, d, c. auto.
  - destruct (last _) as [[date c] |] eqn:Hlast.
    + intros H. inversion H; subst rate.
      apply last_Some in Hlast as [l' Hl'].
      assert (Hin : In (date, c) (List.filter (fun row => (fst row <=? d)%Z) hist)).
      { rewrite Hl'. apply in_or_app. right. left. reflexivity. }
      apply filter_In in Hin as [Hin _]. apply list_elem_of_In in Hin.
      exists d, hist, date, c. auto.
    + intros H. inversion H; subst rate. destruct first as [date c].
      exists d, hist, date, c. auto.
Qed.

Lemma try_fetch_events date_str attempt :
  snd (Transfers.try_fetch strptime history date_str attempt) = []
  /\ (exists e, strptime date_str = Fails e)
  \/ exists d, strptime date_str = Answer d
       /\ snd (Transfers.try_fetch strptime history date_str attempt)
          = [Transfers.History (d - 5) (d + 1)].
Proof.
  unfold Transfers.try_fetch.
  destruct (strptime date_str) as [d | e]; simpl; eauto.
Qed.

(** X16: a date string that does not parse is not a fatal error: the
    three attempts fail without a call to the provider, the function
    sleeps 1 and then 2 seconds between them, and returns the fallback
    83.0. *)
Theorem X16_unparsable_date_falls_back (date_str : string) (e : exception) :
  strptime date_str = Fails e ->
  Transfers.fetch_historical_inr_rate strptime history date_str
  = (Return (Fin 83), [Transfers.Sleep 1; Transfers.Sleep 2]).
Proof.
  intros He. unfold Transfers.fetch_historical_inr_rate. simpl.
  unfold Transfers.try_fetch. rewrite He. reflexivity.
Qed.

(** X17: the rate returned is never made up: it is the fallback 83.0, or
    the close of some row of a frame the provider returned for the window
    of the date at one of the three attempts, rounded to 4 decimal
    places. *)
Theorem X17_rate_provenance (date_str : string) (rate : pyfloat) :
  fst (Transfers.fetch_historical_inr_rate strptime history date_str) = Return rate ->
  rate = Fin 83
  \/ exists attempt d hist date c,
       (attempt < 3)%nat /\ strptime date_str = Answer d
       /\ history attempt (d - 5)%Z (d + 1)%Z = Answer hist
       /\ (date, c) ∈ hist /\ rate = py_round c 4.
Proof.
  unfold Transfers.fetch_historical_inr_rate. simpl seq.
  assert (Hgen : forall todo,
            (forall a, a ∈ todo -> (a < 3)%nat) ->
            fst (Transfers.attempts strptime history date_str todo) = Return rate ->
            rate = Fin 83
            \/ exists attempt d hist date c,
                 (attempt < 3)%nat /\ strptime date_str = Answer d
                 /\ history attempt (d - 5)%Z (d + 1)%Z = Answer hist
                 /\ (date, c) ∈ hist /\ rate = py_round c 4).
  { induction todo as [| a todo IH]; intros Hlt.
    - simpl. intros H. inversion H. auto.
    - simpl.
      destruct (Transfers.try_fetch strptime history date_str a) as [r evs] eqn:Et.
      pose proof (try_fetch_provenance date_str a) as Hprov.
      rewrite Et in Hprov. simpl in Hprov.
      destruct r as [r0 | [e | code]].
      + simpl. intros H. inversion H; subst r0. right.
        destruct (Hprov rate eq_refl) as (d & hist & date & c & H1 & H2 & H3 & H4).
        exists a, d, hist, date, c. repeat split; auto. apply Hlt. left.
      + destruct (Transfers.attempts strptime history date_str todo) as [r' evs'].
        simpl in *. apply IH. intros a' Ha'. apply Hlt. right. exact Ha'.
      + simpl. discriminate. }
  apply Hgen. intros a Ha.
  repeat (apply elem_of_cons in Ha as [-> | Ha]; [lia |]). inversion Ha.
Qed.

Lemma sleeps_app evs evs' : sleeps (evs ++ evs') = sleeps evs ++ sleeps evs'.
Proof. apply omap_app. Qed.

Lemma calls_app evs evs' : calls (evs ++ evs') = (calls evs + calls evs')%nat.
Proof. unfold calls. rewrite List.filter_app, length_app. reflexivity. Qed.

Lemma try_fetch_effort date_str attempt :
  sleeps (snd (Transfers.try_fetch strptime history date_str attempt)) = []
  /\ (calls (snd (Transfers.try_fetch strptime history date_str attempt)) <= 1)%nat.
Proof.
  destruct (try_fetch_events date_str attempt) as [[-> _] | [d [_ ->]]];
    split; simpl; unfold calls; simpl; lia || reflexivity.
Qed.

(** X18: the effort for one date is bounded: at most three calls to the
    provider, and no sleeps other than 1 second and then 2 seconds (at
    most 3 seconds in all). *)
Theorem X18_bounded_effort (date_str : string) :
  (calls (snd (Transfers.fetch_historical_inr_rate strptime history date_str)) <= 3)%nat
  /\ exists k,
       sleeps (snd (Transfers.fetch_historical_inr_rate strptime history date_str))
       = take k [1; 2].
Proof.
  unfold Transfers.fetch_historical_inr_rate. simpl.
  destruct (try_fetch_effort date_str 0) as [S0 K0].
  destruct (try_fetch_effort date_str 1) as [S1 K1].
  destruct (try_fetch_effort date_str 2) as [S2 K2].
  destruct (Transfers.try_fetch strptime history date_str 0) as [r0 ev0].
  destruct (Transfers.try_fetch strptime history date_str 1) as [r1 ev1].
  destruct (Transfers.try_fetch strptime history date_str 2) as [r2 ev2].
  simpl in S0, S1, S2, K0, K1, K2.
  assert (Hsc : forall s l, sleeps (Transfers.Sleep s :: l) = s :: sleeps l)
    by reflexivity.
  assert (Hcc : forall s l, calls (Transfers.Sleep s :: l) = calls l)
    by reflexivity.
  destruct r0 as [v0 | [e0 | c0]]; simpl.
  { split; [lia |]. exists 0%nat. rewrite S0. reflexivity. }
  2:{ split; [lia |]. exists 0%nat. rewrite S0. reflexivity. }
  destruct r1 as [v1 | [e1 | c1]]; simpl.
  { rewrite calls_app, sleeps_app, Hsc, Hcc, S0, S1. split; [lia |].
    exists 1%nat. reflexivity. }
  2:{ rewrite calls_app, sleeps_app, Hsc, Hcc, S0, S1. split; [lia |].
      exists 1%nat. reflexivity. }
  destruct r2 as [v2 | [e2 | c2]]; simpl; rewrite ?app_nil_r;
    rewrite calls_app, sleeps_app, Hsc, Hcc, calls_app, sleeps_app, Hsc, Hcc,
      S0, S1, S2;
    (split; [lia | exists 2%nat; reflexivity]).
Qed.

End fetch_more.

Lemma X16_unparsable_date_falls_back_witness :
  Transfers.fetch_historical_inr_rate x16_strptime c2_monday_history "15/01/2024"
  = (Return (Fin 83), [Transfers.Sleep 1; Transfers.Sleep 2]).
Proof.
  apply (X16_unparsable_date_falls_back x16_strptime c2_monday_history "15/01/2024"
           (ValueError "time data does not match format '%Y-%m-%d'")).
  reflexivity.
Defined.

Lemma X17_rate_provenance_witness :
  py_round (Fin (8312345678 # 100000000)) 4 = Fin 83
  \/ exists attempt d hist date c,
       (attempt < 3)%nat /\ example_strptime "2024-01-15" = Answer d
       /\ c2_monday_history attempt (d - 5)%Z (d + 1)%Z = Answer hist
       /\ (date, c) ∈ hist /\ py_round (Fin (8312345678 # 100000000)) 4 = py_round c 4.
Proof.
  apply (X17_rate_provenance example_strptime c2_monday_history "2024-01-15").
  vm_compute. reflexivity.
Defined.

(** ** Converting the transfers *)

Lemma unique_from_elem seen l x :
  x ∈ unique_from seen l <-> x ∈ l /\ x ∉ seen.
Proof.
  revert seen. induction l as [| x0 l IH]; intros seen; simpl.
  - split; [intros H; inversion H | intros [H _]; inversion H].
  - destruct (bool_decide (x0 ∈ seen)) eqn:E.
    + apply bool_decide_eq_true_1 in E. rewrite IH. split.
      * intros [H1 H2]. split; [right; exact H1 | exact H2].
      * intros [H1 H2]. split; [| exact H2].
        apply elem_of_cons in H1 as [-> | H1]; [contradiction | exact H1].
    + apply bool_decide_eq_false_1 in E. rewrite elem_of_cons, IH. split.
      * intros [-> | [H1 H2]]; [split; [left | exact E] |].
        split; [right; exact H1 |]. intros H. apply H2. right. exact H.
      * intros [H1 H2]. apply elem_of_cons in H1 as [-> | H1]; [left; reflexivity |].
        destruct (decide (x = x0)) as [-> | Hne]; [left; reflexivity |].
        right. split; [exact H1 |]. intros H.
        apply elem_of_cons in H as [H | H]; contradiction.
Qed.

Lemma unique_from_NoDup seen l : NoDup (unique_from seen l).
Proof.
  revert seen. induction l as [| x0 l IH]; intros seen; simpl; [constructor |].
  destruct (bool_decide (x0 ∈ seen)); [apply IH |].
  constructor; [| apply IH].
  rewrite unique_from_elem. intros [_ H]. apply H. left.
Qed.

Lemma unique_elem l x : x ∈ unique l <-> x ∈ l.
Proof.
  unfold unique. rewrite unique_from_elem. split; [tauto |].
  intros H. split; [exact H |]. intros H'. inversion H'.
Qed.

Lemma date_strings_elem (df : list Transfers.transfer) s :
  s ∈ unique (omap Transfers.Date df)
  <-> exists r, r ∈ df /\ Transfers.Date r = Some s.
Proof. rewrite unique_elem, list_elem_of_omap. reflexivity. Qed.

Lemma blank_date_elem (df : list Transfers.transfer) :
  None ∈ map Transfers.Date df <-> exists r, r ∈ df /\ Transfers.Date r = None.
Proof.
  rewrite list_elem_of_fmap.
  split; intros [r [H1 H2]]; exists r; auto.
Qed.

Section convert_properties.
Variable strptime : string -> response Z.
Variable history : nat -> nat -> Z -> Z -> response Transfers.hist_frame.

Lemma fetch_rate_total i d :
  exists rate, fst (Transfers.fetch_rate strptime history i d) = Return rate.
Proof.
  destruct d as [s |]; unfold Transfers.fetch_rate; apply attempts_total.
Qed.

Lemma fetch_rates_spec dates :
  forall i (cache : gmap (option string) pyfloat),
    NoDup dates ->
    exists cache',
      fst (Transfers.fetch_rates strptime history i dates cache) = Return cache'
      /\ (forall k d, dates !! k = Some d ->
            exists rate,
              fst (Transfers.fetch_rate strptime history (i + k)%nat d) = Return rate
              /\ cache' !! d = Some rate)
      /\ (forall d, d ∉ dates -> cache' !! d = cache !! d).
Proof.
  induction dates as [| d0 ds IH]; intros i cache Hnd.
  - exists cache. simpl. split; [reflexivity |]. split; [| reflexivity].
    intros k d H. destruct k; discriminate.
  - apply NoDup_cons in Hnd as [Hd0 Hnd]. cbn [Transfers.fetch_rates].
    destruct (fetch_rate_total i d0) as [rate Hrate].
    destruct (Transfers.fetch_rate strptime history i d0) as [r evs] eqn:Ef.
    simpl in Hrate. subst r.
    destruct (IH (S i) (<[d0 := rate]> cache) Hnd) as (cache' & Hc & Hin & Hout).
    destruct (Transfers.fetch_rates strptime history (S i) ds (<[d0 := rate]> cache))
      as [r' evs'].
    simpl in Hc. subst r'. exists cache'. split; [reflexivity |]. split.
    + intros k d Hk. destruct k as [| k]; simpl in Hk.
      * inversion Hk; subst d. exists rate. rewrite Nat.add_0_r, Ef.
        split; [reflexivity |]. rewrite (Hout d0 Hd0). apply lookup_insert_eq.
      * destruct (Hin k d Hk) as (rate' & H1 & H2).
        exists rate'. rewrite Nat.add_succ_r. auto.
    + intros d Hd. rewrite Hout by (intros H; apply Hd; right; exact H).
      apply lookup_insert_ne. intros ->. apply Hd. left.
Qed.

(** X19: the conversion of the rows left by lines 112-115.  When a row
    with a numeric amount has a blank date and another has a date, the
    sorting of line 135 raises TypeError and the run ends before any rate
    is fetched.  When no row with a numeric amount has a blank date, the
    conversion does not fail: it keeps exactly the rows with a numeric
    amount, in their order, and gives every such row the rate fetched for
    its date; each distinct date is fetched once (the dates are taken in
    increasing order, without repetition), and rows with the same date
    get the same rate. *)
Theorem X19_convert_rates (df : list Transfers.transfer) :
  ((exists r, r ∈ Transfers.valid_rows df /\ Transfers.Date r = None) ->
   (exists r s, r ∈ Transfers.valid_rows df /\ Transfers.Date r = Some s) ->
   Transfers.convert strptime history df = (Raise (Exc TypeError), []))
  /\ ((forall r, r ∈ Transfers.valid_rows df -> Transfers.Date r <> None) ->
      exists out dates,
        fst (Transfers.convert strptime history df) = Return out
        /\ map Transfers.source out = Transfers.valid_rows df
        /\ Transfers.unique_dates (Transfers.valid_rows df) = Return (Some <$> dates)
        /\ NoDup dates
        /\ Sorted (fun a b => String.leb a b = true) dates
        /\ (forall c, c ∈ out ->
              exists i s,
                Transfers.Date (Transfers.source c) = Some s
                /\ dates !! i = Some s
                /\ fst (Transfers.fetch_historical_inr_rate strptime (history i) s)
                   = Return (Transfers.Exchange_Rate c))
        /\ (forall c c', c ∈ out -> c' ∈ out ->
              Transfers.Date (Transfers.source c) = Transfers.Date (Transfers.source c') ->
              Transfers.Exchange_Rate c = Transfers.Exchange_Rate c')).
Proof.
  unfold Transfers.convert. cbv zeta.
  set (rows := Transfers.valid_rows df). split.
  - intros Hblank (r & s & Hr & Hs). unfold Transfers.unique_dates.
    rewrite bool_decide_eq_true_2 by (apply blank_date_elem; exact Hblank).
    assert (Hin : s ∈ unique (omap Transfers.Date rows))
      by (apply date_strings_elem; eauto).
    destruct (unique (omap Transfers.Date rows)); [inversion Hin | reflexivity].
  - intros Hdated. unfold Transfers.unique_dates.
    rewrite bool_decide_eq_false_2
      by (rewrite blank_date_elem; intros (r & Hr & Hnone); exact (Hdated r Hr Hnone)).
    set (dates := merge_sort (fun a b => Is_true (String.leb a b))
                    (unique (omap Transfers.Date rows))).
    assert (Hnd : NoDup dates).
    { unfold dates. rewrite merge_sort_Permutation. apply unique_from_NoDup. }
    assert (Hnd' : NoDup (Some <$> dates)) by (apply NoDup_fmap_2; [apply _ | exact Hnd]).
    destruct (fetch_rates_spec _ 0%nat ∅ Hnd') as (cache & Hc & Hin & _).
    destruct (Transfers.fetch_rates strptime history 0 (Some <$> dates) ∅) as [r evs].
    simpl in Hc. subst r. cbn [fst].
    exists (map (Transfers.convert_row cache) rows), dates.
    split; [reflexivity |]. split; [| split; [| split; [| split; [| split]]]].
    + rewrite map_map. simpl. apply map_id.
    + reflexivity.
    + exact Hnd.
    + unfold dates.
      eapply (Sorted_weaken (fun a b => Is_true (String.leb a b)) _ (fun _ => True)).
      * intros a b _ _ H. apply Is_true_true. exact H.
      * apply Forall_forall. auto.
      * apply (@Sorted_merge_sort _ (fun a b => Is_true (String.leb a b))).
        intros a b. destruct (String.leb_total a b) as [H | H]; rewrite H; simpl; auto.
    + intros c Hcin. apply list_elem_of_fmap in Hcin as (row & -> & Hrow). simpl.
      destruct (Transfers.Date row) as [s |] eqn:Hs; [| exfalso; exact (Hdated row Hrow Hs)].
      assert (Hd : s ∈ dates).
      { unfold dates. rewrite merge_sort_Permutation. apply date_strings_elem. eauto. }
      apply list_elem_of_lookup in Hd as [i Hi].
      destruct (Hin i (Some s)) as (rate & Hf & Hl).
      { rewrite list_lookup_fmap, Hi. reflexivity. }
      exists i, s. split; [reflexivity |]. split; [exact Hi |].
      rewrite Hl. simpl. exact Hf.
    + intros c c' Hcin Hcin' Hdate.
      apply list_elem_of_fmap in Hcin as (row & -> & _).
      apply list_elem_of_fmap in Hcin' as (row' & -> & _).
      simpl in *. rewrite Hdate. reflexivity.
Qed.

End convert_properties.

Lemma X19_convert_rates_witness :
  Transfers.convert example_strptime x19_history x19_blank_transfers
  = (Raise (Exc TypeError), [])
  /\ exists out,
       fst (Transfers.convert example_strptime x19_history x19_transfers) = Return out
       /\ map Transfers.source out = Transfers.valid_rows x19_transfers.
Proof.
  split.
  - apply (proj1 (X19_convert_rates example_strptime x19_history x19_blank_transfers)).
    + eexists. split; [right; left | reflexivity].
    + eexists _, _. split; [left | reflexivity].
  - destruct (proj2 (X19_convert_rates example_strptime x19_history x19_transfers))
      as (out & dates & Hout & Hsrc & _).
    + intros r Hr. vm_compute in Hr.
      repeat (apply elem_of_cons in Hr as [-> | Hr]; [discriminate |]).
      inversion Hr.
    + exists out. split; [exact Hout | exact Hsrc].
Defined.
(** ** Loading the workbook *)

(** X21: the loading step of Transfers.py goes on with the frame exactly
    when the workbook is read and has both required columns; in every
    other case it ends through [exit()], and no exception of the reading
    escapes it. *)
Theorem X21_load_data_outcomes (read_excel : string -> response Transfers.workbook) :
  (forall df,
     fst (Transfers.load_data read_excel) = Return df
     <-> read_excel Transfers.file_path = Answer df
         /\ forall col, col ∈ Transfers.required_cols -> col ∈ Transfers.columns df)
  /\ (forall r, fst (Transfers.load_data read_excel) = Raise r -> r = SystemExit None).
Proof.
  unfold Transfers.load_data, Transfers.load_try.
  destruct (read_excel Transfers.file_path) as [df0 | e].
  - destruct (List.filter _ Transfers.required_cols) as [| m ms] eqn:E.
    + assert (Hall : forall col, col ∈ Transfers.required_cols ->
                       col ∈ Transfers.columns df0).
      { intros col Hc.
        destruct (decide (col ∈ Transfers.columns df0)) as [H | H]; [exact H |].
        assert (Hm : col ∈ ([] : list string)); [| inversion Hm].
        rewrite <- E. apply missing_cols_spec. auto. }
      split.
      * intros df. simpl. split.
        -- intros H. inversion H; subst. auto.
        -- intros [H _]. inversion H; subst. reflexivity.
      * intros r. simpl. discriminate.
    + assert (Hm : m ∈ Transfers.required_cols /\ m ∉ Transfers.columns df0).
      { apply missing_cols_spec. rewrite E. left. }
      split.
      * intros df. simpl. split; [discriminate |].
        intros [H Hall]. inversion H; subst. destruct Hm as [Hm1 Hm2].
        exfalso. apply Hm2, Hall, Hm1.
      * intros r. simpl. intros H. inversion H. reflexivity.
  - split.
    + intros df. split; [destruct e; simpl; discriminate | intros [H _]; discriminate].
    + intros r. destruct e; simpl; intros H; inversion H; reflexivity.
Qed.

(** ** Instances *)

Lemma X10_only_given_tickers_witness : "AAPL"%string ∈ x12_tickers.
Proof.
  apply (proj1 (X10_only_given_tickers c4_multi_download c4_history x12_tickers
                  "AAPL"%string)).
  vm_compute. eauto.
Defined.

Lemma X14_read_portfolio_data_outcomes_witness :
  fst (read_portfolio_data (fun _ => Answer x14_csv) "portfolio.csv") = Return x14_csv.
Proof.
  apply (proj1 (X14_read_portfolio_data_outcomes (fun _ => Answer x14_csv)
                  "portfolio.csv")).
  split; [reflexivity |].
  intros col Hc. unfold required_cols in Hc. unfold x14_csv. simpl.
  repeat (apply elem_of_cons in Hc as [-> | Hc];
          [repeat (first [left; reflexivity | right]) |]).
  inversion Hc.
Defined.

Lemma X21_load_data_outcomes_witness :
  fst (Transfers.load_data (fun _ => Answer x21_workbook)) = Return x21_workbook.
Proof.
  apply (proj1 (X21_load_data_outcomes (fun _ => Answer x21_workbook))).
  split; [reflexivity |].
  intros col Hc. unfold Transfers.required_cols in Hc. unfold x21_workbook. simpl.
  repeat (apply elem_of_cons in Hc as [-> | Hc];
          [repeat (first [left; reflexivity | right]) |]).
  inversion Hc.
Defined.

(** A run of the conversion: the row without a numeric amount is dropped,
    the two dates are fetched in increasing order with half a second
    between them, and both rows of 2024-01-15 get the same rate. *)
Example convert_run :
  exists out,
    Transfers.convert example_strptime x19_history x19_transfers
    = (Return out,
       [Transfers.History 19730 19736; Transfers.Sleep 1;
        Transfers.History 19730 19736; Transfers.Sleep (1 # 2);
        Transfers.History 19732 19738])
    /\ map (fun c => Transfers.Date (Transfers.source c)) out
       = [Some "2024-01-15"; Some "2024-01-13"; Some "2024-01-15"]%string
    /\ Forall2 feq (map Transfers.Exchange_Rate out)
         [Fin (831235 # 10000); Fin (8312 # 100); Fin (831235 # 10000)].
Proof.
  eexists. split; [vm_compute; reflexivity |].
  split; [reflexivity |].
  repeat constructor; vm_compute; reflexivity.
Qed.
